(** * AfriGuard Verify: the job pipeline and the live queue hub

    A shallow embedding of [Backend/main.py]: the [QueueManager] class, the
    three detection endpoints ([detect_image_manipulation],
    [detect_audio_manipulation], [detect_video_manipulation]) and the
    helpers they call.

    Modelling conventions.
    - A Python [float] is the rational ([Q]) that the binary64 stands for.
      The literal [0.86], the product [similarity * 100], the difference
      [100 - confidence] and the quotients of [/] are rounded to the nearest
      binary64 by [PyNum.fl]; [np.random.uniform], [np.mean], the jitter of
      the scores and the figures of the statistics are computed exactly.
      Floats are finite and stay finite. [round] and the [.0f]/[.1f] format
      specifiers round half to even on the exact value, and [round] gives
      the decimal itself.
    - A Python [str] is the string of the bytes of its UTF-8 encoding.
    - A coroutine is a computation in the monad [M]: it threads the process
      state ([World]) and either returns a value or raises an exception.
      The state survives a raised exception, as in Python.
    - Everything outside the process (the clock, the random generator, the
      id generator, the sockets, the decoders and the neural networks) is
      an oracle collected in the record [Env].
    - One request runs at a time: no other coroutine is interleaved at an
      [await]. The table of cases never refuses a commit: the id of a new
      case is taken to be new in the table, of which it is the primary key.
      The temporary file of the video endpoint is not part of the state:
      creating and deleting it are taken to succeed. *)

From Stdlib Require Import ZArith QArith Qabs Qround List String Ascii Bool Lia Lqa.
From Stdlib Require Import DecimalString Sorted.
Import ListNotations.

Open Scope Z_scope.
Open Scope string_scope.

(** ** Strings *)

Module PyStr.

(** [str.lower] on the ASCII range. *)
Definition lower_ascii (c : ascii) : ascii :=
  let n := nat_of_ascii c in
  if ((65 <=? n)%nat && (n <=? 90)%nat)%bool then ascii_of_nat (n + 32) else c.

Definition byte (n : nat) : ascii := ascii_of_nat n.

(** [str.lower]. The letters A to Z are lowered. Outside ASCII two
    characters have a lower case with an ASCII letter in it, and they are
    lowered too: the capital I with a dot, U+0130 (the bytes C4 B0), gives i
    followed by U+0307 (the bytes CC 87), and the Kelvin sign, U+212A (the
    bytes E2 84 AA), gives k. Every other character outside ASCII is left as
    it is: its lower case is outside ASCII as well, and the lowered strings
    are only compared with ASCII strings. *)
Fixpoint lower (s : string) : string :=
  match s with
  | EmptyString => EmptyString
  | String c r =>
      match r with
      | EmptyString => String (lower_ascii c) EmptyString
      | String c1 r1 =>
          if (Ascii.eqb c (byte 196) && Ascii.eqb c1 (byte 176))%bool
          then String "i" (String (byte 204) (String (byte 135) (lower r1)))
          else
            match r1 with
            | EmptyString => String (lower_ascii c) (lower r)
            | String c2 r2 =>
                if (Ascii.eqb c (byte 226) && Ascii.eqb c1 (byte 132)
                    && Ascii.eqb c2 (byte 170))%bool
                then String "k" (lower r2)
                else String (lower_ascii c) (lower r)
            end
      end
  end.

(** [s.endswith(suffix)]. *)
Definition endswith1 (s suffix : string) : bool :=
  let n := String.length s in
  let m := String.length suffix in
  ((m <=? n)%nat && String.eqb (substring (n - m) m s) suffix)%bool.

(** [s.endswith((suf1, suf2, ...))]. *)
Definition endswith (s : string) (suffixes : list string) : bool :=
  existsb (endswith1 s) suffixes.

(** [x in [a, b, ...]] for strings. *)
Definition mem (x : string) (l : list string) : bool :=
  existsb (String.eqb x) l.

(** [str(n)] for an integer. *)
Definition of_Z (n : Z) : string := NilZero.string_of_int (Z.to_int n).

End PyStr.

(** ** Numbers *)

Module PyNum.

(** Rounding to the nearest integer, ties to the even one. *)
Definition round_half_even (q : Q) : Z :=
  let f := Qfloor q in
  match (q - inject_Z f ?= 1 # 2)%Q with
  | Lt => f
  | Gt => f + 1
  | Eq => if Z.even f then f else f + 1
  end.

Definition pow10 (nd : nat) : Z := 10 ^ Z.of_nat nd.

(** [round(q, nd)]. *)
Definition round (q : Q) (nd : nat) : Q :=
  Qred (inject_Z (round_half_even (q * inject_Z (pow10 nd))) / inject_Z (pow10 nd)).

(** [2 ^ k] for an integer [k] of either sign. *)
Definition pow2 (k : Z) : Q :=
  if (0 <=? k)%Z then inject_Z (2 ^ k) else 1 # Z.to_pos (2 ^ (- k)).

(** The binary64 nearest to [q], ties to the even significand: the result
    of an operation on floats whose exact result is [q], and the value of
    a literal. The significand has 53 bits, and 2^-1074 is the least
    positive float. There is no largest float here. *)
Definition fl (q : Q) : Q :=
  let q := Qred q in
  if Qeq_bool q 0 then 0%Q else
  let a := Qabs q in
  let e0 := Z.log2 (Qnum a) - Z.log2 (Zpos (Qden a)) in
  let e := if Qle_bool (pow2 e0) a then e0 else e0 - 1 in
  let p := Z.max (e - 52) (-1074) in
  let m := round_half_even (a / pow2 p) in
  Qred ((if Qle_bool 0 q then 1 else -1) * inject_Z m * pow2 p).

(** [int(q)]: truncation towards zero. *)
Definition int (q : Q) : Z :=
  if Qle_bool 0 q then Qfloor q else Qceiling q.

Fixpoint pad_zeros (width : nat) (s : string) : string :=
  match width with
  | O => s
  | S w => if (String.length s <=? w)%nat then pad_zeros w ("0" ++ s) else s
  end.

(** [f"{q:.{nd}f}"]. *)
Definition format_f (nd : nat) (q : Q) : string :=
  let n := Z.abs (round_half_even (q * inject_Z (pow10 nd))) in
  let sign := if Qle_bool 0 q then "" else "-" in
  let ip := PyStr.of_Z (n / pow10 nd) in
  match nd with
  | O => sign ++ ip
  | _ => sign ++ ip ++ "." ++ pad_zeros nd (PyStr.of_Z (n mod pow10 nd))
  end.

(** [np.mean] of a non-empty list. *)
Definition mean (l : list Q) : Q :=
  (fold_right Qplus 0 l / inject_Z (Z.of_nat (List.length l)))%Q.

(** [np.random.uniform(a, b)] from a draw [u] of the unit interval. *)
Definition uniform (a b u : Q) : Q := (a + (b - a) * u)%Q.

(** [np.random.randint(a, b)] from a draw [u] of the unit interval. *)
Definition randint (a b : Z) (u : Q) : Z := a + Qfloor (inject_Z (b - a) * u).

End PyNum.

(** ** Data model *)

Inductive MediaType := image | video | audio.

Inductive CaseStatus := analyzing | completed | failed.

Definition MediaType_value (m : MediaType) : string :=
  match m with image => "image" | video => "video" | audio => "audio" end.

(** A row of the table [cases]. Timestamps are abstract instants. *)
Record Case := mkCase {
  case_id : string;
  media_type : MediaType;
  status : CaseStatus;
  confidence : Q;
  submitted_at : Z;
  completed_at : option Z;
  verdict : string;
  face_score : option Q;
  voice_score : option Q;
  lipsync_score : option Q;
  explanation : option string;
  worker_id : string;
  processing_time_ms : option Z;
  filename : string
}.

(** The dictionary pushed to the observers for one running job. *)
Record QueueItem := mkItem {
  item_id : string;
  item_mediaType : string;
  item_submittedAt : Z;
  item_progress : Z;
  item_status : string;
  item_workerId : string
}.

Definition WebSocket := nat.

Inductive exn :=
| HTTPException (status_code : Z) (detail : string)
| ZeroDivisionError
| Exception (msg : string).

Inductive Result (A : Type) :=
| Ok (a : A)
| Raise (e : exn).
Arguments Ok {A} a.
Arguments Raise {A} e.

(** What a collaborator outside the process answers: a value, or a failure
    with its message. *)
Inductive Outcome (A : Type) :=
| Returns (a : A)
| Fails (msg : string).
Arguments Returns {A} a.
Arguments Fails {A} msg.

(** The uploaded file: its name and its bytes. *)
Record UploadFile := mkUpload {
  upload_filename : string;
  upload_content : string
}.

(** The oracles. [clock], [rand] and [uuid] are indexed by the number of
    calls made so far; [rand] draws from the unit interval. [Image_open] is
    [Image.open(...).convert("RGB")] on the bytes read; [classify] is the
    image network, giving the label and the confidence (in percent) of the
    predicted class; [librosa_load] is [librosa.load] on the bytes read;
    [speaker_similarity] is the cosine similarity of the
    embeddings of the speaker network; [copyfileobj] writes the upload to
    the temporary file; [video_frame_count], [video_fps] and [video_read]
    are the properties and the frames of the [cv2.VideoCapture] of that
    file ([video_read] gives [None] when [ret] is false). The numbers the
    oracles give are finite floats; [video_frame_count] is the integer
    [int(cap.get(...))]. *)
Record Env := mkEnv {
  exn_str : exn -> string;
  send_fails : WebSocket -> bool;
  clock : nat -> Z;
  rand : nat -> Q;
  uuid : nat -> string;
  models_loaded : bool;
  Image_open : string -> Outcome string;
  classify : string -> Outcome (string * Q);
  librosa_load : string -> Outcome string;
  speaker_similarity : list string -> Outcome Q;
  copyfileobj : string -> Outcome string;
  video_frame_count : string -> Z;
  video_fps : string -> Q;
  video_read : string -> Z -> option string
}.

(** The state of the process: the [queue_manager] singleton, the table of
    cases, the counters of the oracles, and two traces of what left the
    process: [snapshots], the argument of every call of [broadcast], and
    [sent], every message that a socket accepted. *)
Record World := mkWorld {
  active_connections : list WebSocket;
  queue_items : list QueueItem;
  db_cases : list Case;
  clock_calls : nat;
  rand_calls : nat;
  uuid_calls : nat;
  snapshots : list (list QueueItem);
  sent : list (WebSocket * list QueueItem)
}.

(** ** The monad of coroutines *)

Definition M (A : Type) : Type := World -> Result A * World.

Definition ret {A} (a : A) : M A := fun w => (Ok a, w).

Definition bind {A B} (c : M A) (k : A -> M B) : M B :=
  fun w => match c w with
           | (Ok a, w') => k a w'
           | (Raise e, w') => (Raise e, w')
           end.

Definition raise {A} (e : exn) : M A := fun w => (Raise e, w).

(** [try: body  except Exception as e: handler e]. *)
Definition try_except {A} (body : M A) (handler : exn -> M A) : M A :=
  fun w => match body w with
           | (Ok a, w') => (Ok a, w')
           | (Raise e, w') => handler e w'
           end.

Definition gets {A} (f : World -> A) : M A := fun w => (Ok (f w), w).

Definition modify (f : World -> World) : M unit := fun w => (Ok tt, f w).

Declare Scope monad_scope.
Delimit Scope monad_scope with monad.
Notation "x <- c ;; k" := (bind c (fun x => k))
  (at level 61, c at next level, right associativity) : monad_scope.
Notation "c ;; k" := (bind c (fun _ => k))
  (at level 61, right associativity) : monad_scope.
Open Scope monad_scope.

(** A [for] loop whose body may raise. *)
Fixpoint for_each {A} (l : list A) (body : A -> M unit) : M unit :=
  match l with
  | [] => ret tt
  | x :: r => body x ;; for_each r body
  end.

Definition set_queue_items (q : list QueueItem) (w : World) : World :=
  mkWorld (active_connections w) q (db_cases w) (clock_calls w) (rand_calls w)
          (uuid_calls w) (snapshots w) (sent w).

Definition set_active_connections (l : list WebSocket) (w : World) : World :=
  mkWorld l (queue_items w) (db_cases w) (clock_calls w) (rand_calls w)
          (uuid_calls w) (snapshots w) (sent w).

Definition set_db_cases (d : list Case) (w : World) : World :=
  mkWorld (active_connections w) (queue_items w) d (clock_calls w) (rand_calls w)
          (uuid_calls w) (snapshots w) (sent w).

Definition log_snapshot (data : list QueueItem) (w : World) : World :=
  mkWorld (active_connections w) (queue_items w) (db_cases w) (clock_calls w)
          (rand_calls w) (uuid_calls w) (snapshots w ++ [data]) (sent w).

Definition log_sent (c : WebSocket) (data : list QueueItem) (w : World) : World :=
  mkWorld (active_connections w) (queue_items w) (db_cases w) (clock_calls w)
          (rand_calls w) (uuid_calls w) (snapshots w) (sent w ++ [(c, data)]).

Definition tick_clock (w : World) : World :=
  mkWorld (active_connections w) (queue_items w) (db_cases w) (S (clock_calls w))
          (rand_calls w) (uuid_calls w) (snapshots w) (sent w).

Definition tick_rand (w : World) : World :=
  mkWorld (active_connections w) (queue_items w) (db_cases w) (clock_calls w)
          (S (rand_calls w)) (uuid_calls w) (snapshots w) (sent w).

Definition tick_uuid (w : World) : World :=
  mkWorld (active_connections w) (queue_items w) (db_cases w) (clock_calls w)
          (rand_calls w) (S (uuid_calls w)) (snapshots w) (sent w).

(** A call of a collaborator outside the process. *)
Definition external {A} (r : Outcome A) : M A :=
  fun w => match r with
           | Returns a => (Ok a, w)
           | Fails msg => (Raise (Exception msg), w)
           end.

(** A loop that carries an accumulator. *)
Fixpoint for_fold {A S} (l : list A) (s : S) (body : S -> A -> M S) : M S :=
  match l with
  | [] => ret s
  | x :: r => s' <- body s x ;; for_fold r s' body
  end.

(** [enumerate(l)]. *)
Definition enumerate {A} (l : list A) : list (nat * A) :=
  combine (seq 0 (List.length l)) l.

(** [a / b] on floats, and on integers. *)
Definition truediv (a b : Q) : M Q :=
  if Qeq_bool b 0 then raise ZeroDivisionError else ret (PyNum.fl (a / b)).

(** [a > b] on floats. *)
Definition Qgtb (a b : Q) : bool := negb (Qle_bool a b).

(** ** The queue manager: pure part *)

(** The body of [QueueManager.update_item]: the first item with the id is
    rewritten, then the loop breaks. *)
Fixpoint update_first (item_id0 : string) (progress : Z) (status0 : string)
         (items : list QueueItem) : list QueueItem :=
  match items with
  | [] => []
  | item :: rest =>
      if String.eqb (item_id item) item_id0
      then mkItem (item_id item) (item_mediaType item) (item_submittedAt item)
                  progress status0 (item_workerId item) :: rest
      else item :: update_first item_id0 progress status0 rest
  end.

(** The comprehension of [QueueManager.remove_item]. *)
Definition without_id (item_id0 : string) (items : list QueueItem) : list QueueItem :=
  filter (fun i => negb (String.eqb (item_id i) item_id0)) items.

(** [list.remove]: the first occurrence goes. *)
Fixpoint remove_first (x : WebSocket) (l : list WebSocket) : list WebSocket :=
  match l with
  | [] => []
  | y :: r => if Nat.eqb y x then r else y :: remove_first x r
  end.

(** The rows of a commit: the session writes the object back to its row,
    the one with its id. *)
Definition write_row (c : Case) (rows : list Case) : list Case :=
  map (fun r => if String.eqb (case_id r) (case_id c) then c else r) rows.

Section Program.

Variable env : Env.

(** ** Oracles *)

Definition utcnow : M Z :=
  fun w => (Ok (clock env (clock_calls w)), tick_clock w).

(** [np.random.random()]. *)
Definition np_random : M Q :=
  fun w => (Ok (rand env (rand_calls w)), tick_rand w).

(** [uuid.uuid4().hex]. *)
Definition uuid4_hex : M string :=
  fun w => (Ok (uuid env (uuid_calls w)), tick_uuid w).

Definition str (e : exn) : string := exn_str env e.

(** ** class QueueManager *)

Definition send_json (connection : WebSocket) (data : list QueueItem) : M unit :=
  fun w => if send_fails env connection
           then (Raise (Exception "send failed"), w)
           else (Ok tt, log_sent connection data w).

Definition connect (websocket : WebSocket) : M unit :=
  modify (fun w => set_active_connections (active_connections w ++ [websocket]) w) ;;
  q <- gets queue_items ;;
  send_json websocket q.

Definition disconnect (websocket : WebSocket) : M unit :=
  modify (fun w =>
    if existsb (Nat.eqb websocket) (active_connections w)
    then set_active_connections (remove_first websocket (active_connections w)) w
    else w).

Definition broadcast (data : list QueueItem) : M unit :=
  modify (set_queue_items data) ;;
  modify (log_snapshot data) ;;
  conns <- gets active_connections ;;
  for_each conns (fun connection =>
    try_except (send_json connection data) (fun _ => ret tt)).

Definition add_item (item : QueueItem) : M unit :=
  modify (fun w => set_queue_items (queue_items w ++ [item]) w).

Definition remove_item (item_id0 : string) : M unit :=
  modify (fun w => set_queue_items (without_id item_id0 (queue_items w)) w).

Definition update_item (item_id0 : string) (progress : Z) (status0 : string) : M unit :=
  modify (fun w =>
    set_queue_items (update_first item_id0 progress status0 (queue_items w)) w).

(** [await queue_manager.broadcast(queue_manager.queue_items)]. *)
Definition broadcast_queue : M unit :=
  q <- gets queue_items ;; broadcast q.

(** ** The table of cases *)

(** [case = Case(...); db.add(case); db.commit()]: the defaults of the
    columns are filled in when the row is written. The id is the primary
    key of the table: it is taken to be new there, and the properties for
    which this matters say so. *)
Definition db_add (mt : MediaType) (filename0 worker : string) : M Case :=
  h <- uuid4_hex ;;
  t <- utcnow ;;
  let case := mkCase ("case-" ++ substring 0 8 h) mt analyzing 0 t None
                     "Processing..." None None None None worker None filename0 in
  modify (fun w => set_db_cases (db_cases w ++ [case]) w) ;;
  ret case.

Definition db_commit (case : Case) : M unit :=
  modify (fun w => set_db_cases (write_row case (db_cases w)) w).

(** [f"worker-{np.random.randint(1, 5)}"]. *)
Definition new_worker_id : M string :=
  u <- np_random ;;
  ret ("worker-" ++ PyStr.of_Z (PyNum.randint 1 5 u)).

Definition queue_item_of (case : Case) (kind : string) : QueueItem :=
  mkItem (case_id case) kind (submitted_at case) 0 "preprocessing" (worker_id case).

(** [int((datetime.utcnow() - start_time).total_seconds() * 1000)], the
    clock counting microseconds. *)
Definition elapsed_ms (start_time now : Z) : Z := Z.quot (now - start_time) 1000.

End Program.

(** ** generate_explanation *)

Definition generate_explanation (is_fake : bool) (confidence0 : Q) (media : string) : string :=
  if is_fake then
    if String.eqb media "image" then
      "Analysis detected manipulation artifacts with " ++ PyNum.format_f 1 confidence0
      ++ "% confidence. Visual inconsistencies were found in facial features, lighting patterns, and texture details that are characteristic of AI-generated or manipulated content."
    else if String.eqb media "video" then
      "Multi-frame analysis detected deepfake indicators with " ++ PyNum.format_f 1 confidence0
      ++ "% confidence. Inconsistencies were found in facial movements, temporal coherence, and lipsync patterns across analyzed frames."
    else
      "Audio analysis detected voice manipulation with " ++ PyNum.format_f 1 confidence0
      ++ "% confidence. Spectral analysis reveals artifacts consistent with voice cloning or synthesis technology."
  else
    "Analysis found no significant manipulation indicators. The content appears authentic with "
    ++ PyNum.format_f 1 (PyNum.fl (100 - confidence0)) ++ "% confidence.".

(** ** The answers of the endpoints *)

Record ImageResponse := mkImageResponse {
  ir_caseId : string;
  ir_filename : string;
  ir_predicted_label : string;
  ir_is_fake : bool;
  ir_confidence : Q;
  ir_verdict : string;
  ir_explanation : string
}.

Record AudioResponse := mkAudioResponse {
  ar_caseId : string;
  ar_similarity_score : Q;
  ar_is_same_speaker : bool;
  ar_threshold : Q;
  ar_confidence : Q;
  ar_verdict : string;
  ar_explanation : string
}.

Record VideoResponse := mkVideoResponse {
  vr_caseId : string;
  vr_filename : string;
  vr_duration_sec : Q;
  vr_frames_analyzed : nat;
  vr_is_fake : bool;
  vr_confidence : Q;
  vr_verdict : string;
  vr_explanation : string;
  vr_frame_details : list (string * Q)
}.

(** ** The except clauses: the failure commit *)

(** Lines 636-638: the image endpoint records the reason. *)
Definition fail_case_with_reason (case : Case) (reason : string) : Case :=
  mkCase (case_id case) (media_type case) failed (confidence case)
         (submitted_at case) (completed_at case) "Analysis Failed"
         (face_score case) (voice_score case) (lipsync_score case)
         (Some reason) (worker_id case) (processing_time_ms case) (filename case).

(** Lines 737-738 and 870-871: the audio and video endpoints do not. *)
Definition fail_case (case : Case) : Case :=
  mkCase (case_id case) (media_type case) failed (confidence case)
         (submitted_at case) (completed_at case) "Analysis Failed"
         (face_score case) (voice_score case) (lipsync_score case)
         (explanation case) (worker_id case) (processing_time_ms case) (filename case).

(** ** The decision rules *)

(** Lines 611-617. [jitter] is the draw of the face score. *)
Definition image_case (case : Case) (is_fake : bool) (confidence0 jitter : Q)
           (explanation0 : string) (now1 now2 start_time : Z) : Case :=
  mkCase (case_id case) (media_type case) completed (PyNum.round confidence0 1)
         (submitted_at case) (Some now1)
         (PyNum.format_f 0 confidence0 ++ "% Likely "
            ++ (if is_fake then "Manipulated" else "Authentic"))
         (Some (if is_fake
                then PyNum.round (confidence0 + PyNum.uniform (-5) 5 jitter) 1
                else PyNum.round (confidence0 - PyNum.uniform 0 10 jitter) 1))
         (voice_score case) (lipsync_score case) (Some explanation0)
         (worker_id case) (Some (elapsed_ms start_time now2)) (filename case).

(** Lines 703-705. The threshold is the float of the literal [0.86], just
    below 86/100. *)
Definition threshold : Q := PyNum.fl (86 # 100).
Definition is_same_speaker (similarity : Q) : bool := Qle_bool threshold similarity.
Definition audio_confidence (similarity : Q) : Q := PyNum.fl (similarity * 100).

(** Line 715. *)
Definition audio_verdict (similarity : Q) : string :=
  (if is_same_speaker similarity then "Same Speaker" else "Different Speakers")
  ++ " (" ++ PyNum.format_f 0 (audio_confidence similarity) ++ "% similarity)".

(** Lines 713-719. *)
Definition audio_case (case : Case) (similarity : Q) (now1 now2 start_time : Z) : Case :=
  mkCase (case_id case) (media_type case) completed
         (PyNum.round (audio_confidence similarity) 1)
         (submitted_at case) (Some now1) (audio_verdict similarity)
         (face_score case) (Some (PyNum.round (audio_confidence similarity) 1))
         (lipsync_score case)
         (Some (generate_explanation (is_same_speaker similarity)
                                     (audio_confidence similarity) "audio"))
         (worker_id case) (Some (elapsed_ms start_time now2)) (filename case).

(** Lines 726-734. *)
Definition audio_response (case : Case) (similarity : Q) : AudioResponse :=
  mkAudioResponse (case_id case) (PyNum.round similarity 4)
                  (is_same_speaker similarity) threshold
                  (PyNum.round (audio_confidence similarity) 2)
                  (audio_verdict similarity)
                  (generate_explanation (is_same_speaker similarity)
                                        (audio_confidence similarity) "audio").

(** Line 832. *)
Definition avg_fake_conf (fake_confidences : list Q) : Q :=
  match fake_confidences with
  | [] => 0
  | _ => PyNum.mean fake_confidences
  end.

(** Line 833. *)
Definition video_is_fake (fake_confidences : list Q) : bool :=
  Qgtb (avg_fake_conf fake_confidences) 60.

(** Line 834; [u] is the draw that [np.random.uniform(70, 90)] would use. *)
Definition video_confidence (fake_confidences : list Q) (u : Q) : Q :=
  let avg := avg_fake_conf fake_confidences in
  if video_is_fake fake_confidences then avg
  else if Qgtb avg 0 then (100 - avg)%Q else PyNum.uniform 70 90 u.

(** Line 834 draws only in its last branch. *)
Definition video_draws (fake_confidences : list Q) : bool :=
  negb (video_is_fake fake_confidences)
  && negb (Qgtb (avg_fake_conf fake_confidences) 0).

(** Lines 842-850; [j1], [j2], [j3] are the draws of the three scores. *)
Definition video_case (case : Case) (is_fake : bool) (confidence0 j1 j2 j3 : Q)
           (now1 now2 start_time : Z) : Case :=
  mkCase (case_id case) (media_type case) completed (PyNum.round confidence0 1)
         (submitted_at case) (Some now1)
         (PyNum.format_f 0 confidence0 ++ "% Likely "
            ++ (if is_fake then "Manipulated" else "Authentic"))
         (Some (PyNum.round (confidence0 + PyNum.uniform (-8) 8 j1) 1))
         (Some (PyNum.round (confidence0 + PyNum.uniform (-10) 5 j2) 1))
         (Some (PyNum.round (confidence0 + PyNum.uniform (-5) 10 j3) 1))
         (Some (generate_explanation is_fake confidence0 "video"))
         (worker_id case) (Some (elapsed_ms start_time now2)) (filename case).

(** [np.linspace(start, stop, num, dtype=int)]: the step is
    [(stop - start) / (num - 1)], the last sample is [stop] itself, and the
    samples are floored. *)
Definition linspace_int (start stop : Z) (num : nat) : list Z :=
  let div := Z.of_nat (Nat.pred num) in
  let step := (inject_Z (stop - start) / inject_Z div)%Q in
  map (fun k =>
         if ((0 <? div)%Z && (Z.of_nat k =? div)%Z)%bool then stop
         else Qfloor (inject_Z start + inject_Z (Z.of_nat k) * step))
      (seq 0 num).

(** Line 790. *)
Definition frame_indices (total : Z) : list Z :=
  linspace_int 0 (Z.max (total - 1) 0) 8.

(** Line 819, inside the loop over [enumerate(frames)]. *)
Definition frame_progress (idx len : nat) : M Z :=
  r <- truediv (inject_Z (Z.of_nat idx)) (inject_Z (Z.of_nat len)) ;;
  ret (30 + PyNum.int (PyNum.fl (r * 40))).

Definition image_suffixes : list string := [".png"; ".jpg"; ".jpeg"; ".bmp"; ".webp"].
Definition audio_suffixes : list string := [".wav"; ".mp3"; ".m4a"; ".ogg"; ".flac"].
Definition video_suffixes : list string := [".mp4"; ".mov"; ".avi"; ".mkv"; ".webm"].

(** ** The endpoints *)

Section Endpoints.

Variable env : Env.

Abbreviation str := (str env).
Abbreviation np_random := (np_random env).
Abbreviation utcnow := (utcnow env).
Abbreviation broadcast_queue := (broadcast_queue env).

(** *** POST /api/detect/image *)

(** Lines 582-597: the network, or the mock when it is not loaded. *)
Definition image_inference (pil_image : string) : M (string * Q * bool) :=
  if models_loaded env then
    r <- external (classify env pil_image) ;;
    let '(label, confidence0) := r in
    ret (label, confidence0,
         PyStr.mem (PyStr.lower label) ["fake"; "deepfake"; "manipulated"])
  else
    u <- np_random ;;
    v <- np_random ;;
    let is_fake := Qgtb u (4 # 10) in
    ret (if is_fake then "Fake" else "Real",
         if is_fake then PyNum.uniform 60 95 v else PyNum.uniform 10 40 v,
         is_fake).

(** Lines 575-633: the [try] block. *)
Definition detect_image_try (image0 : UploadFile) (case : Case) (start_time : Z)
  : M ImageResponse :=
  pil_image <- external (Image_open env (upload_content image0)) ;;
  update_item (case_id case) 30 "analyzing" ;;
  broadcast_queue ;;
  r <- image_inference pil_image ;;
  let '(label, confidence0, is_fake) := r in
  update_item (case_id case) 70 "llm_explaining" ;;
  broadcast_queue ;;
  let explanation0 := generate_explanation is_fake confidence0 "image" in
  update_item (case_id case) 90 "sending_result" ;;
  broadcast_queue ;;
  jitter <- np_random ;;
  now1 <- utcnow ;;
  now2 <- utcnow ;;
  let case' := image_case case is_fake confidence0 jitter explanation0
                          now1 now2 start_time in
  db_commit case' ;;
  remove_item (case_id case) ;;
  broadcast_queue ;;
  ret (mkImageResponse (case_id case) (upload_filename image0) label is_fake
                       (PyNum.round confidence0 2) (verdict case') explanation0).

(** Lines 635-642: the [except] clause. *)
Definition detect_image_except (case : Case) (e : exn) : M ImageResponse :=
  db_commit (fail_case_with_reason case (str e)) ;;
  remove_item (case_id case) ;;
  broadcast_queue ;;
  raise (HTTPException 500 ("Image analysis failed: " ++ str e)).

Definition detect_image_manipulation (image0 : UploadFile) : M ImageResponse :=
  if negb (PyStr.endswith (PyStr.lower (upload_filename image0)) image_suffixes)
  then raise (HTTPException 400
                "Invalid image format. Supported: png, jpg, jpeg, bmp, webp")
  else
    worker <- new_worker_id env ;;
    case <- db_add env image (upload_filename image0) worker ;;
    add_item (queue_item_of case "image") ;;
    broadcast_queue ;;
    start_time <- utcnow ;;
    try_except (detect_image_try image0 case start_time)
               (detect_image_except case).

(** *** POST /api/detect/audio *)

(** Lines 679-687: the body of the loop over [audio_files]. *)
Definition load_audio (case : Case) (arrays : list string) (audio0 : UploadFile)
  : M (list string) :=
  if negb (PyStr.endswith (PyStr.lower (upload_filename audio0)) audio_suffixes)
  then raise (HTTPException 400
                ("Unsupported audio format: " ++ upload_filename audio0))
  else
    update_item (case_id case) (20 + Z.of_nat (List.length arrays) * 15)
                "preprocessing" ;;
    broadcast_queue ;;
    waveform <- external (librosa_load env (upload_content audio0)) ;;
    ret (arrays ++ [waveform])%list.

(** Lines 692-701. *)
Definition audio_similarity (arrays : list string) : M Q :=
  if models_loaded env then external (speaker_similarity env arrays)
  else
    u <- np_random ;;
    ret (PyNum.uniform (5 # 10) (98 # 100) u).

(** Lines 677-734: the [try] block. *)
Definition detect_audio_try (audio_files : list UploadFile) (case : Case)
           (start_time : Z) : M AudioResponse :=
  arrays <- for_fold audio_files [] (load_audio case) ;;
  update_item (case_id case) 50 "analyzing" ;;
  broadcast_queue ;;
  similarity <- audio_similarity arrays ;;
  update_item (case_id case) 80 "llm_explaining" ;;
  broadcast_queue ;;
  now1 <- utcnow ;;
  now2 <- utcnow ;;
  db_commit (audio_case case similarity now1 now2 start_time) ;;
  remove_item (case_id case) ;;
  broadcast_queue ;;
  ret (audio_response case similarity).

(** Lines 736-742: the [except] clause. *)
Definition detect_audio_except (case : Case) (e : exn) : M AudioResponse :=
  db_commit (fail_case case) ;;
  remove_item (case_id case) ;;
  broadcast_queue ;;
  raise (HTTPException 500 ("Audio analysis failed: " ++ str e)).

Definition detect_audio_manipulation (audio_files : list UploadFile)
  : M AudioResponse :=
  if negb (Nat.eqb (List.length audio_files) 2)
  then raise (HTTPException 400
                "Exactly 2 audio files required for speaker verification")
  else
    worker <- new_worker_id env ;;
    let name0 := upload_filename (nth 0 audio_files (mkUpload "" "")) in
    let name1 := upload_filename (nth 1 audio_files (mkUpload "" "")) in
    case <- db_add env audio (name0 ++ " vs " ++ name1) worker ;;
    add_item (queue_item_of case "audio") ;;
    broadcast_queue ;;
    start_time <- utcnow ;;
    try_except (detect_audio_try audio_files case start_time)
               (detect_audio_except case).

(** *** POST /api/detect/video *)

(** Lines 791-797: the frames that could be read. *)
Definition read_frames (temp_file : string) (indices : list Z) : list string :=
  flat_map (fun i => match video_read env temp_file i with
                     | Some frame => [frame]
                     | None => []
                     end) indices.

(** Lines 807-821: one turn of the loop over [enumerate(frames)]. *)
Definition classify_frame (case : Case) (len : nat)
           (acc : list (string * Q) * list Q) (entry : nat * string)
  : M (list (string * Q) * list Q) :=
  r <- external (classify env (snd entry)) ;;
  let '(label, conf) := r in
  let results := (fst acc ++ [(label, conf)])%list in
  let fake_confidences :=
    if PyStr.mem (PyStr.lower label) ["fake"; "deepfake"]
    then (snd acc ++ [conf])%list else snd acc in
  progress <- frame_progress (fst entry) len ;;
  update_item (case_id case) progress "analyzing" ;;
  broadcast_queue ;;
  ret (results, fake_confidences).

(** Lines 824-830: one turn of the mock loop. *)
Definition mock_frame (acc : list (string * Q) * list Q) (frame : string)
  : M (list (string * Q) * list Q) :=
  u <- np_random ;;
  v <- np_random ;;
  let is_fake := Qgtb u (4 # 10) in
  let conf := if is_fake then PyNum.uniform 60 95 v else PyNum.uniform 10 40 v in
  ret ((fst acc ++ [(if is_fake then "Fake" else "Real", conf)])%list,
       if is_fake then (snd acc ++ [conf])%list else snd acc).

(** Lines 803-830: [results] and [fake_confidences]. *)
Definition classify_frames (case : Case) (frames : list string)
  : M (list (string * Q) * list Q) :=
  if models_loaded env
  then for_fold (enumerate frames) ([], []) (classify_frame case (List.length frames))
  else for_fold frames ([], []) mock_frame.

(** Lines 778-867: the [try] block. *)
Definition detect_video_try (video0 : UploadFile) (case : Case) (start_time : Z)
  : M VideoResponse :=
  temp_file <- external (copyfileobj env (upload_content video0)) ;;
  update_item (case_id case) 15 "preprocessing" ;;
  broadcast_queue ;;
  let total := video_frame_count env temp_file in
  let fps := video_fps env temp_file in
  duration <- (if Qgtb fps 0 then truediv (inject_Z total) fps else ret 0%Q) ;;
  let frames := read_frames temp_file (frame_indices total) in
  update_item (case_id case) 30 "analyzing" ;;
  broadcast_queue ;;
  rf <- classify_frames case frames ;;
  let '(results, fake_confidences) := rf in
  u <- (if video_draws fake_confidences then np_random else ret 0%Q) ;;
  let is_fake := video_is_fake fake_confidences in
  let confidence0 := video_confidence fake_confidences u in
  update_item (case_id case) 80 "llm_explaining" ;;
  broadcast_queue ;;
  let explanation0 := generate_explanation is_fake confidence0 "video" in
  j1 <- np_random ;;
  j2 <- np_random ;;
  j3 <- np_random ;;
  now1 <- utcnow ;;
  now2 <- utcnow ;;
  let case' := video_case case is_fake confidence0 j1 j2 j3 now1 now2 start_time in
  db_commit case' ;;
  remove_item (case_id case) ;;
  broadcast_queue ;;
  ret (mkVideoResponse (case_id case) (upload_filename video0)
                       (PyNum.round duration 2) (List.length frames) is_fake
                       (PyNum.round confidence0 2) (verdict case') explanation0
                       results).

(** Lines 869-875: the [except] clause. *)
Definition detect_video_except (case : Case) (e : exn) : M VideoResponse :=
  db_commit (fail_case case) ;;
  remove_item (case_id case) ;;
  broadcast_queue ;;
  raise (HTTPException 500 ("Video processing failed: " ++ str e)).

(** Lines 749-877. The temporary file is created between the start time
    and the [try] block (line 775) and deleted in the [finally] clause
    (line 877); both are taken to succeed and leave no trace here. *)
Definition detect_video_manipulation (video0 : UploadFile) : M VideoResponse :=
  if negb (PyStr.endswith (PyStr.lower (upload_filename video0)) video_suffixes)
  then raise (HTTPException 400
                "Invalid video format. Supported: mp4, mov, avi, mkv, webm")
  else
    worker <- new_worker_id env ;;
    case <- db_add env video (upload_filename video0) worker ;;
    add_item (queue_item_of case "video") ;;
    broadcast_queue ;;
    start_time <- utcnow ;;
    try_except (detect_video_try video0 case start_time)
               (detect_video_except case).

End Endpoints.

(** ** A concrete environment for the scenarios *)

Module Scenario.

Definition env0 (loaded : bool) (broken : WebSocket -> bool)
           (similarity : Outcome Q) (frame_label : string * Q)
           (readable : Z -> bool) : Env :=
  mkEnv (fun e => match e with
                  | HTTPException c d => PyStr.of_Z c ++ ": " ++ d
                  | ZeroDivisionError => "division by zero"
                  | Exception m => m
                  end)
        broken
        (fun n => 1000 * Z.of_nat n)
        (fun _ => 1 # 2)
        (fun n => "0000000" ++ PyStr.of_Z (Z.of_nat n) ++ "ffffffff")
        loaded
        (fun b => if String.eqb b "" then Fails "cannot identify image file"
                  else Returns b)
        (fun _ => Returns frame_label)
        (fun b => if String.eqb b "" then Fails "empty audio" else Returns b)
        (fun _ => similarity)
        (fun b => if String.eqb b "" then Fails "empty video" else Returns b)
        (fun b => Z.of_nat (String.length b))
        (fun _ => 25%Q)
        (fun b i => if readable i then Some b else None).

Definition w0 : World := mkWorld [] [] [] 0 0 0 [] [].

End Scenario.

(** * The vocabulary of the properties *)

Definition healthy (env : Env) (c : WebSocket) : bool := negb (send_fails env c).

(** The messages one broadcast of [data] adds to the trace [sent]. *)
Definition deliveries (env : Env) (data : list QueueItem) (conns : list WebSocket)
  : list (WebSocket * list QueueItem) :=
  map (fun c => (c, data)) (filter (healthy env) conns).

(** [keeps f c]: the coroutine [c] leaves the part [f] of the world as it
    was, whether it returns or raises. *)
Definition keeps {X A} (f : World -> X) (c : M A) : Prop :=
  forall w, f (snd (c w)) = f w.

Definition db_ids (w : World) : list string := map case_id (db_cases w).

(** The id the next case will get. *)
Definition next_case_id (env : Env) (w : World) : string :=
  "case-" ++ substring 0 8 (uuid env (uuid_calls w)).

(** The case as it is first written (lines 551-558). *)
Definition new_case (env : Env) (mt : MediaType) (filename0 : string) (w : World) : Case :=
  mkCase (next_case_id env w) mt analyzing 0 (clock env (clock_calls w)) None
         "Processing..." None None None None
         ("worker-" ++ PyStr.of_Z (PyNum.randint 1 5 (rand env (rand_calls w))))
         None filename0.

(** The world once the case is written, registered and broadcast, and the
    start time is taken (lines 551-572). *)
Definition started (env : Env) (mt : MediaType) (kind filename0 : string) (w : World)
  : World :=
  let q := (queue_items w ++ [queue_item_of (new_case env mt filename0 w) kind])%list in
  mkWorld (active_connections w) q
          (db_cases w ++ [new_case env mt filename0 w])
          (S (S (clock_calls w))) (S (rand_calls w)) (S (uuid_calls w))
          (snapshots w ++ [q])
          (sent w ++ deliveries env q (active_connections w)).

(** The columns a failure commit leaves in the row of the job. *)
Definition failure_committed (env : Env) (w : World) (row : Case) : Prop :=
  case_id row = next_case_id env w
  /\ status row = failed
  /\ verdict row = "Analysis Failed"
  /\ completed_at row = None
  /\ confidence row = 0%Q
  /\ processing_time_ms row = None.

(** Line 816: the labels that count as fake. *)
Definition is_fake_label (label : string) : bool :=
  PyStr.mem (PyStr.lower label) ["fake"; "deepfake"].

(** The confidences of the frames flagged fake, read off the frame details
    of the answer. *)
Definition fakes_of (results : list (string * Q)) : list Q :=
  map snd (filter (fun r => is_fake_label (fst r)) results).

(** The progress values a snapshot shows for the job [i]. *)
Definition progress_of (i : string) (snapshot : list QueueItem) : list Z :=
  map item_progress (filter (fun it => String.eqb (item_id it) i) snapshot).

(** The progress values of the job [i] along a sequence of snapshots. *)
Definition progress_trace (i : string) (snaps : list (list QueueItem)) : list Z :=
  flat_map (progress_of i) snaps.

(** The part of the world the observers see. *)
Definition hub (w : World) : list QueueItem * list (list QueueItem) :=
  (queue_items w, snapshots w).

(** [tracked i s0 b w]: since the snapshots [s0], the progress values
    broadcast for [i] never decreased; they are at most [c], the progress
    of the one entry of [i] in the hub, if there is one; and [c <= b]. *)
Definition tracked (i : string) (s0 : list (list QueueItem)) (b : Z) (w : World) : Prop :=
  exists new c,
    snapshots w = (s0 ++ new)%list
    /\ StronglySorted Z.le (progress_trace i new)
    /\ c <= b
    /\ Forall (fun p => p <= c) (progress_trace i new)
    /\ (progress_of i (queue_items w) = [c] \/ progress_of i (queue_items w) = []).

(** [hoare P c Q E]: from a world in [P], the coroutine [c] either returns
    [a] in a world in [Q a], or raises in a world in [E]. *)
Definition hoare {A} (P : World -> Prop) (c : M A) (Q : A -> World -> Prop)
           (E : World -> Prop) : Prop :=
  forall w, P w ->
            match c w with
            | (Ok a, w') => Q a w'
            | (Raise _, w') => E w'
            end.

(** What one job adds to the snapshots: the progress values broadcast for
    [i] never decrease and stay at most 90. *)
Definition monotone_progress (i : string) (before after : list (list QueueItem)) : Prop :=
  exists new,
    after = (before ++ new)%list
    /\ StronglySorted Z.le (progress_trace i new)
    /\ Forall (fun p => p <= 90) (progress_trace i new).

(** [c] never raises [ZeroDivisionError]. *)
Definition never_divides_by_zero {A} (c : M A) : Prop :=
  forall w, fst (c w) <> Raise ZeroDivisionError.

(** Line 787. *)
Definition duration_of (total fps : Q) : Q :=
  if Qgtb fps 0 then PyNum.fl (total / fps) else 0%Q.

(** * More of the code, and the vocabulary of its properties *)

(** The rows of the other jobs. *)
Definition other_rows (i : string) (rows : list Case) : list Case :=
  filter (fun r => negb (String.eqb (case_id r) i)) rows.

(** What a job with the id [i] has no business changing: the entries of
    the other jobs in the hub, the ids of the table, the rows of the other
    jobs, and the subscriber list. *)
Definition others (i : string) (w : World)
  : list QueueItem * list string * list Case * list WebSocket :=
  (without_id i (queue_items w), db_ids w, other_rows i (db_cases w),
   active_connections w).

(** [settled i st w]: the hub has no entry of the job [i], and every row
    of [i] in the table has the status [st]. *)
Definition settled (i : string) (st : CaseStatus) (w : World) : Prop :=
  ~ In i (map item_id (queue_items w))
  /\ forall row, In row (db_cases w) -> case_id row = i -> status row = st.

(** How a request that was accepted leaves the world [w'], compared with
    the world [w] it found: the hub as it was, one more row in the table,
    with the new id and the status [st], the rows of the other jobs and
    the subscriber list as they were. *)
Definition job_settled (env : Env) (w : World) (st : CaseStatus) (w' : World) : Prop :=
  queue_items w' = queue_items w
  /\ db_ids w' = (db_ids w ++ [next_case_id env w])%list
  /\ (exists row, In row (db_cases w') /\ case_id row = next_case_id env w)
  /\ (forall row, In row (db_cases w') -> case_id row = next_case_id env w ->
                  status row = st)
  /\ other_rows (next_case_id env w) (db_cases w')
     = other_rows (next_case_id env w) (db_cases w)
  /\ active_connections w' = active_connections w.

(** The same when the id of the new case was not in the table: the hub
    and the subscriber list are as they were, and the table is the table
    as it was followed by one row, with the new id and the status [st]. *)
Definition recorded (env : Env) (w : World) (st : CaseStatus) (w' : World) : Prop :=
  queue_items w' = queue_items w
  /\ active_connections w' = active_connections w
  /\ exists row,
      db_cases w' = (db_cases w ++ [row])%list
      /\ case_id row = next_case_id env w
      /\ status row = st.

(** The three answers of an endpoint and what each leaves behind. *)
Definition request_outcome {A} (env : Env) (w : World) (run : Result A * World) : Prop :=
  (exists d, run = (Raise (HTTPException 400 d), w))
  \/ (exists r w', run = (Ok r, w') /\ recorded env w completed w')
  \/ (exists d w', run = (Raise (HTTPException 500 d), w')
                   /\ recorded env w failed w').

(** What each of the three answers leaves behind, when it is given. *)
Definition answered {A} (env : Env) (w : World) (run : Result A * World) : Prop :=
  (forall d, fst run = Raise (HTTPException 400 d) -> snd run = w)
  /\ (forall r, fst run = Ok r -> recorded env w completed (snd run))
  /\ (forall d, fst run = Raise (HTTPException 500 d) ->
                recorded env w failed (snd run)).

(** The subscribers and the two traces. *)
Definition comm (w : World)
  : list WebSocket * list (list QueueItem) * list (WebSocket * list QueueItem) :=
  (active_connections w, snapshots w, sent w).

(** [delivered_all env conns s0 t0 w]: the subscribers are still [conns],
    and since the snapshots [s0] and the messages [t0] every snapshot that
    was broadcast went, in the order of the broadcasts, to every subscriber
    whose socket accepts messages, and nothing else was sent. *)
Definition delivered_all (env : Env) (conns : list WebSocket)
           (s0 : list (list QueueItem)) (t0 : list (WebSocket * list QueueItem))
           (w : World) : Prop :=
  active_connections w = conns
  /\ exists new,
      snapshots w = (s0 ++ new)%list
      /\ sent w = (t0 ++ flat_map (fun snap => deliveries env snap conns) new)%list.

(** [ret] of line 794 for the position [i]. *)
Definition frame_readable (env : Env) (temp_file : string) (i : Z) : bool :=
  match video_read env temp_file i with Some _ => true | None => false end.

(** The clock counts microseconds; a date is a number of days. *)
Definition day_us : Z := 86400000000.

(** [t.date()]. *)
Definition date_of (t : Z) : Z := t / day_us.

(** [datetime.combine(d, datetime.min.time())]. *)
Definition day_start (d : Z) : Z := d * day_us.

(** [datetime.combine(d, datetime.max.time())]. *)
Definition day_end (d : Z) : Z := d * day_us + (day_us - 1).

Definition is_completed (c : Case) : bool :=
  match status c with completed => true | _ => false end.

Record StatsResponse := mkStats {
  totalVerificationsToday : Z;
  deepfakePercentage : Q;
  averageConfidence : Q;
  totalCases : Z
}.

(** [len(l)] as an integer. *)
Definition len {A} (l : list A) : Z := Z.of_nat (List.length l).

(** Lines 434-440. *)
Definition completed_figures (completed_cases : list Case) : Q * Q :=
  match completed_cases with
  | [] => (0%Q, 0%Q)
  | _ =>
      let deepfake_cases := len (filter (fun c => Qgtb (confidence c) 50) completed_cases) in
      ((inject_Z deepfake_cases / inject_Z (len completed_cases) * 100)%Q,
       (fold_right Qplus 0 (map confidence completed_cases)
        / inject_Z (len completed_cases))%Q)
  end.

(** GET /api/stats, lines 425-447, for a caller whose token was accepted. *)
Definition get_stats (env : Env) : M StatsResponse :=
  now <- utcnow env ;;
  let today_start := day_start (date_of now) in
  cases <- gets db_cases ;;
  let total_cases := len cases in
  let today_cases := len (filter (fun c => today_start <=? submitted_at c)%Z cases) in
  let completed_cases := filter is_completed cases in
  let '(deepfake_percentage, avg_confidence) := completed_figures completed_cases in
  ret (mkStats (if (0 <? today_cases)%Z then today_cases else 127)
               (if Qgtb deepfake_percentage 0 then PyNum.round deepfake_percentage 1
                else 68%Q)
               (if Qgtb avg_confidence 0 then PyNum.round avg_confidence 1
                else (825 # 10)%Q)
               (if (0 <? total_cases)%Z then total_cases else 1543)).

Record ChartDataItem := mkChartItem {
  chart_date : Z;
  chart_verifications : Z;
  chart_deepfakes : Z
}.

(** Lines 454-475: one turn of the loop; [i] is the number of days back. *)
Definition chart_day (env : Env) (chart_data : list ChartDataItem) (i : Z)
  : M (list ChartDataItem) :=
  now <- utcnow env ;;
  let date := date_of now - i in
  cases <- gets db_cases ;;
  let day_cases :=
    filter (fun c => (day_start date <=? submitted_at c)%Z
                     && (submitted_at c <=? day_end date)%Z) cases in
  let verifications := len day_cases in
  let deepfakes :=
    len (filter (fun c => Qgtb (confidence c) 50 && is_completed c) day_cases) in
  let '(verifications, deepfakes) :=
    if (verifications =? 0)%Z
    then let v := 45 + (i * 12) + (i mod 3 * 8) in
         (v, PyNum.int (inject_Z v * (68 # 100)))
    else (verifications, deepfakes) in
  ret (chart_data ++ [mkChartItem date verifications deepfakes])%list.

(** GET /api/stats/chart, lines 450-477, for a caller whose token was
    accepted. *)
Definition get_chart_data (env : Env) : M (list ChartDataItem) :=
  for_fold [6; 5; 4; 3; 2; 1; 0] [] (chart_day env).

(** [s.split("/")[-1]]: what follows the last slash; [seg] is the segment
    read so far. *)
Fixpoint last_segment_from (seg s : string) : string :=
  match s with
  | EmptyString => seg
  | String c r =>
      if Ascii.eqb c "/" then last_segment_from "" r
      else last_segment_from (seg ++ String c "") r
  end.

Definition last_segment (s : string) : string := last_segment_from "" s.

(** Lines 902-904: the extension of the temporary file. *)
Definition whatsapp_ext (MediaContentType0 : string) : string :=
  let ext := last_segment MediaContentType0 in
  let ext := if String.eqb ext "" then "jpg" else ext in
  if negb (PyStr.mem ext ["jpeg"; "jpg"; "png"; "webp"]) then "jpg" else ext.

(** Line 905. *)
Definition whatsapp_temp_filename (MessageSid MediaContentType0 : string) : string :=
  "whatsapp_" ++ MessageSid ++ "." ++ whatsapp_ext MediaContentType0.

(** [t] starts with a character of one byte. *)
Definition plain_head (t : string) : Prop :=
  match t with
  | EmptyString => False
  | String h _ => (nat_of_ascii h < 128)%nat
  end.

(** What holds of every entry of the chart. *)
Definition chart_item_ok (it : ChartDataItem) : Prop :=
  1 <= chart_verifications it
  /\ 0 <= chart_deepfakes it <= chart_verifications it.

(** The progress and the stage label a snapshot shows for the job [i]. *)
Definition stages_of (i : string) (snapshot : list QueueItem) : list (Z * string) :=
  map (fun it => (item_progress it, item_status it))
      (filter (fun it => String.eqb (item_id it) i) snapshot).

(** The stages of the job [i] along a sequence of snapshots. *)
Definition stage_trace (i : string) (snaps : list (list QueueItem)) : list (Z * string) :=
  flat_map (stages_of i) snaps.

(** [staged i s0 l w]: since the snapshots [s0] the job [i] was shown with
    the stages [l], and the hub holds one entry for it. *)
Definition staged (i : string) (s0 : list (list QueueItem)) (l : list (Z * string))
           (w : World) : Prop :=
  (exists new, snapshots w = (s0 ++ new)%list /\ stage_trace i new = l)
  /\ exists c, stages_of i (queue_items w) = [c].

(** [shown i s0 l w]: the job [i] was shown with the stages [l] and has
    left the hub. *)
Definition shown (i : string) (s0 : list (list QueueItem)) (l : list (Z * string))
           (w : World) : Prop :=
  (exists new, snapshots w = (s0 ++ new)%list /\ stage_trace i new = l)
  /\ stages_of i (queue_items w) = [].

Definition image_stages : list (Z * string) :=
  [(0, "preprocessing"); (30, "analyzing"); (70, "llm_explaining");
   (90, "sending_result")].

Definition audio_stages : list (Z * string) :=
  [(0, "preprocessing"); (20, "preprocessing"); (35, "preprocessing");
   (50, "analyzing"); (80, "llm_explaining")].

(** The stages a video job shows: with the networks loaded one more
    "analyzing" stage per analysed frame, computed from the frame's rank. *)
Definition frame_stage (len k : nat) : Z * string :=
  (30 + (40 * Z.of_nat k) / Z.of_nat len, "analyzing").

Definition video_stages (loaded : bool) (frames : nat) : list (Z * string) :=
  ([(0, "preprocessing"); (15, "preprocessing"); (30, "analyzing")]
     ++ (if loaded then map (frame_stage frames) (seq 0 frames) else [])
     ++ [(80, "llm_explaining")])%list.

(** * Properties *)

(** ** The queue manager *)

Lemma send_loop_run (env : Env) (data : list QueueItem) (conns : list WebSocket) :
  forall w,
    for_each conns (fun connection =>
      try_except (send_json env connection data) (fun _ => ret tt)) w
    = (Ok tt,
       mkWorld (active_connections w) (queue_items w) (db_cases w) (clock_calls w)
               (rand_calls w) (uuid_calls w) (snapshots w)
               (sent w ++ deliveries env data conns)).
Proof.
  induction conns as [|c conns IH]; intros w.
  - cbn. rewrite app_nil_r. now destruct w.
  - cbn [for_each]. unfold bind at 1, try_except, send_json, deliveries, healthy.
    cbn [filter]. destruct (send_fails env c); cbn [negb ret].
    + rewrite IH. reflexivity.
    + rewrite IH. cbn. now rewrite <- app_assoc.
Qed.

Lemma broadcast_run (env : Env) (data : list QueueItem) (w : World) :
  broadcast env data w
  = (Ok tt,
     mkWorld (active_connections w) data (db_cases w) (clock_calls w)
             (rand_calls w) (uuid_calls w) (snapshots w ++ [data])
             (sent w ++ deliveries env data (active_connections w))).
Proof.
  unfold broadcast, bind, modify, gets. cbn. now rewrite send_loop_run.
Qed.

Lemma broadcast_queue_run (env : Env) (w : World) :
  broadcast_queue env w
  = (Ok tt,
     mkWorld (active_connections w) (queue_items w) (db_cases w) (clock_calls w)
             (rand_calls w) (uuid_calls w) (snapshots w ++ [queue_items w])
             (sent w ++ deliveries env (queue_items w) (active_connections w))).
Proof.
  unfold broadcast_queue, bind, gets. now rewrite broadcast_run.
Qed.

Arguments broadcast_queue : simpl never.

(** C1, as the code has it: a broadcast never fails, hands the snapshot to
    every subscriber whose socket accepts it, once each and in the order of
    the subscriber list, whatever the other sockets do, and leaves the
    subscriber list as it was: a subscriber whose socket failed stays
    subscribed. *)
Theorem broadcast_isolates_failures (env : Env) (data : list QueueItem) (w : World) :
  fst (broadcast env data w) = Ok tt
  /\ sent (snd (broadcast env data w))
     = (sent w ++ map (fun c => (c, data))
                      (filter (fun c => negb (send_fails env c))
                              (active_connections w)))%list
  /\ queue_items (snd (broadcast env data w)) = data
  /\ active_connections (snd (broadcast env data w)) = active_connections w.
Proof.
  rewrite broadcast_run. cbn. repeat split.
Qed.

(** C1 as stated fails: after a broadcast to three subscribers of which the
    second fails, the other two have the snapshot and the failing one is
    still in the subscriber list. *)
Lemma broadcast_keeps_failing_subscriber :
  let env := Scenario.env0 true (fun c => Nat.eqb c 1) (Returns (9 # 10))
                           ("Real", 80%Q) (fun _ => true) in
  let w := mkWorld [0; 1; 2]%nat [] [] 0 0 0 [] [] in
  let w' := snd (broadcast env [] w) in
  send_fails env 1%nat = true
  /\ sent w' = [(0%nat, []); (2%nat, [])]
  /\ ~ (~ In 1%nat (active_connections w')).
Proof.
  cbv zeta. repeat split.
  intros H. apply H. vm_compute. right. left. reflexivity.
Qed.

(** C6 as stated fails: registering an entry whose id is already present
    succeeds, and the hub then holds two entries with that id. *)
Lemma add_item_accepts_duplicate :
  let item := mkItem "case-1" "image" 0 0 "preprocessing" "worker-1" in
  let w := mkWorld [] [item] [] 0 0 0 [] [] in
  fst (add_item item w) = Ok tt
  /\ queue_items (snd (add_item item w)) = [item; item]
  /\ ~ NoDup (map item_id (queue_items (snd (add_item item w)))).
Proof.
  cbv zeta. repeat split.
  cbn. intros H. inversion H as [|x l Hin _]; subst. apply Hin. now left.
Qed.

(** C6, as the code has it: registering appends the entry to the hub and
    never fails; the ids of the hub stay pairwise distinct when the id of
    the new entry is not among them. *)
Theorem add_item_appends (item : QueueItem) (w : World) :
  (fst (add_item item w) = Ok tt
   /\ queue_items (snd (add_item item w)) = (queue_items w ++ [item])%list)
  /\ (NoDup (map item_id (queue_items w)) ->
      ~ In (item_id item) (map item_id (queue_items w)) ->
      NoDup (map item_id (queue_items (snd (add_item item w))))).
Proof.
  split; [split; reflexivity|].
  intros Hnd Hfresh. cbn. rewrite map_app. cbn.
  apply NoDup_app; [exact Hnd | repeat constructor; intros [] | ].
  intros x Hx [Hy|[]]. subst. contradiction.
Qed.

Lemma add_item_appends_witness :
  let item := mkItem "case-2" "image" 0 0 "preprocessing" "worker-1" in
  let w := mkWorld [] [mkItem "case-1" "audio" 0 50 "analyzing" "worker-2"] [] 0 0 0 [] [] in
  NoDup (map item_id (queue_items (snd (add_item item w)))).
Proof.
  cbv zeta.
  apply (add_item_appends
           (mkItem "case-2" "image" 0 0 "preprocessing" "worker-1")
           (mkWorld [] [mkItem "case-1" "audio" 0 50 "analyzing" "worker-2"]
                    [] 0 0 0 [] [])).
  - cbn. repeat constructor. intros [].
  - cbn. intros [H|[]]. discriminate H.
Defined.

(** ** Validation *)

(** C7: an audio request whose number of files is not 2 is answered with
    the client error 400 and the world is left as it was: no case is
    created, the hub and its traces are unchanged. *)
Theorem audio_count_rejected (env : Env) (audio_files : list UploadFile) (w : World) :
  List.length audio_files <> 2%nat ->
  detect_audio_manipulation env audio_files w
  = (Raise (HTTPException 400
              "Exactly 2 audio files required for speaker verification"), w).
Proof.
  intros H. unfold detect_audio_manipulation.
  destruct (Nat.eqb_spec (List.length audio_files) 2) as [E|E]; [contradiction|].
  reflexivity.
Qed.

Lemma audio_count_rejected_witness :
  detect_audio_manipulation
    (Scenario.env0 true (fun _ => false) (Returns (9 # 10)) ("Real", 80%Q)
                   (fun _ => true))
    [mkUpload "a.wav" "x"] Scenario.w0
  = (Raise (HTTPException 400
              "Exactly 2 audio files required for speaker verification"),
     Scenario.w0).
Proof.
  apply (audio_count_rejected _ [mkUpload "a.wav" "x"] Scenario.w0).
  cbn. discriminate.
Defined.

(** The image and video endpoints check the format before anything else. *)
Lemma image_format_rejected (env : Env) (image0 : UploadFile) (w : World) :
  PyStr.endswith (PyStr.lower (upload_filename image0)) image_suffixes = false ->
  detect_image_manipulation env image0 w
  = (Raise (HTTPException 400
              "Invalid image format. Supported: png, jpg, jpeg, bmp, webp"), w).
Proof.
  intros H. unfold detect_image_manipulation. now rewrite H.
Qed.

Lemma video_format_rejected (env : Env) (video0 : UploadFile) (w : World) :
  PyStr.endswith (PyStr.lower (upload_filename video0)) video_suffixes = false ->
  detect_video_manipulation env video0 w
  = (Raise (HTTPException 400
              "Invalid video format. Supported: mp4, mov, avi, mkv, webm"), w).
Proof.
  intros H. unfold detect_video_manipulation. now rewrite H.
Qed.

(** C4 at an audio pair whose first file has a format outside the list:
    the format is checked inside the [try] block, after the case was
    created and registered, and the [except] clause turns the 400 into a
    500. The caller gets a server error, the table has a new failed case
    and two snapshots were broadcast. *)
Theorem audio_format_checked_late :
  let env := Scenario.env0 true (fun _ => false) (Returns (9 # 10))
                           ("Real", 80%Q) (fun _ => true) in
  let files := [mkUpload "a.txt" "x"; mkUpload "b.mp3" "y"] in
  let run := detect_audio_manipulation env files Scenario.w0 in
  PyStr.endswith (PyStr.lower "a.txt") audio_suffixes = false
  /\ fst run = Raise (HTTPException 500
                 "Audio analysis failed: 400: Unsupported audio format: a.txt")
  /\ map (fun c => (case_id c, status c)) (db_cases (snd run))
     = [("case-00000000", failed)]
  /\ List.length (snapshots (snd run)) = 2%nat.
Proof.
  cbv zeta. repeat split; vm_compute; reflexivity.
Qed.

(** ** Reasoning about coroutines *)

Lemma bind_Ok_inv {A B} (c : M A) (k : A -> M B) (w w' : World) (b : B) :
  bind c k w = (Ok b, w') ->
  exists a w1, c w = (Ok a, w1) /\ k a w1 = (Ok b, w').
Proof.
  unfold bind. destruct (c w) as [[a|e] w1]; intros H; [|discriminate].
  now exists a, w1.
Qed.

Lemma bind_run {A B} (c : M A) (k : A -> M B) (w w1 : World) (a : A) :
  c w = (Ok a, w1) -> bind c k w = k a w1.
Proof. intros H. unfold bind. now rewrite H. Qed.

Section Keeps.

Context {X : Type} (f : World -> X).

Lemma keeps_ret {A} (a : A) : keeps f (ret a).
Proof. intros w. reflexivity. Qed.

Lemma keeps_raise {A} (e : exn) : keeps f (@raise A e).
Proof. intros w. reflexivity. Qed.

Lemma keeps_external {A} (r : Outcome A) : keeps f (external r).
Proof. intros w. unfold external. now destruct r. Qed.

Lemma keeps_gets {A} (g : World -> A) : keeps f (gets g).
Proof. intros w. reflexivity. Qed.

Lemma keeps_bind {A B} (c : M A) (k : A -> M B) :
  keeps f c -> (forall a, keeps f (k a)) -> keeps f (bind c k).
Proof.
  intros Hc Hk w. unfold bind. specialize (Hc w).
  destruct (c w) as [[a|e] w1]; cbn in *; [|exact Hc].
  now rewrite Hk.
Qed.

Lemma keeps_try {A} (body : M A) (handler : exn -> M A) :
  keeps f body -> (forall e, keeps f (handler e)) -> keeps f (try_except body handler).
Proof.
  intros Hb Hh w. unfold try_except. specialize (Hb w).
  destruct (body w) as [[a|e] w1]; cbn in *; [exact Hb|].
  now rewrite Hh.
Qed.

Lemma keeps_for_fold {A S} (l : list A) (body : S -> A -> M S) :
  (forall s x, keeps f (body s x)) -> forall s, keeps f (for_fold l s body).
Proof.
  intros Hb. induction l as [|x l IH]; intros s; cbn [for_fold].
  - apply keeps_ret.
  - apply keeps_bind; [apply Hb | exact IH].
Qed.

Lemma keeps_truediv (a b : Q) : keeps f (truediv a b).
Proof. intros w. unfold truediv. now destruct (Qeq_bool b 0). Qed.

Lemma keeps_frame_progress (idx len : nat) : keeps f (frame_progress idx len).
Proof.
  unfold frame_progress. apply keeps_bind; [apply keeps_truediv|].
  intros r. apply keeps_ret.
Qed.

End Keeps.

(** Splits a goal [keeps f c] along the structure of [c]; what is left are
    the primitives that touch the world. *)
Ltac keeps_step :=
  lazymatch goal with
  | |- keeps _ (bind _ _) => apply keeps_bind; [|intros]
  | |- keeps _ (try_except _ _) => apply keeps_try; [|intros]
  | |- keeps _ (for_fold _ _ _) => apply keeps_for_fold; intros
  | |- keeps _ (ret _) => apply keeps_ret
  | |- keeps _ (raise _) => apply keeps_raise
  | |- keeps _ (external _) => apply keeps_external
  | |- keeps _ (gets _) => apply keeps_gets
  | |- keeps _ (truediv _ _) => apply keeps_truediv
  | |- keeps _ (frame_progress _ _) => apply keeps_frame_progress
  | |- keeps _ (if ?b then _ else _) => destruct b
  | |- keeps _ (match ?r with pair _ _ => _ end) => destruct r
  end.

(** *** The ids of the table of cases *)

Lemma write_row_ids (c : Case) (rows : list Case) :
  map case_id (write_row c rows) = map case_id rows.
Proof.
  unfold write_row. rewrite map_map. apply map_ext_in. intros r _.
  destruct (String.eqb_spec (case_id r) (case_id c)) as [E|E]; congruence.
Qed.

Lemma write_row_In (c : Case) (rows : list Case) :
  In (case_id c) (map case_id rows) -> In c (write_row c rows).
Proof.
  intros H. apply in_map_iff in H. destruct H as (r & E & Hr).
  unfold write_row. apply in_map_iff. exists r. split; [|exact Hr].
  now rewrite E, String.eqb_refl.
Qed.

Lemma write_row_only (c : Case) (rows : list Case) (r : Case) :
  In r (write_row c rows) -> case_id r = case_id c -> r = c.
Proof.
  unfold write_row. intros H E. apply in_map_iff in H. destruct H as (r0 & H0 & _).
  destruct (String.eqb_spec (case_id r0) (case_id c)) as [E0|E0]; congruence.
Qed.

Section KeepsIds.

Variable env : Env.

Lemma ids_utcnow : keeps db_ids (utcnow env).
Proof. intros w. reflexivity. Qed.

Lemma ids_np_random : keeps db_ids (np_random env).
Proof. intros w. reflexivity. Qed.

Lemma ids_update_item i p s : keeps db_ids (update_item i p s).
Proof. intros w. reflexivity. Qed.

Lemma ids_remove_item i : keeps db_ids (remove_item i).
Proof. intros w. reflexivity. Qed.

Lemma ids_broadcast_queue : keeps db_ids (broadcast_queue env).
Proof. intros w. now rewrite broadcast_queue_run. Qed.

Lemma ids_db_commit c : keeps db_ids (db_commit c).
Proof. intros w. unfold db_ids. cbn. apply write_row_ids. Qed.

End KeepsIds.

Ltac ids_step :=
  first [ keeps_step
        | apply ids_utcnow | apply ids_np_random | apply ids_update_item
        | apply ids_remove_item | apply ids_broadcast_queue | apply ids_db_commit ].

Lemma ids_detect_image_try env image0 case start_time :
  keeps db_ids (detect_image_try env image0 case start_time).
Proof. unfold detect_image_try, image_inference. repeat ids_step. Qed.

Lemma ids_detect_audio_try env audio_files case start_time :
  keeps db_ids (detect_audio_try env audio_files case start_time).
Proof.
  unfold detect_audio_try, audio_similarity. repeat ids_step.
  unfold load_audio. repeat ids_step.
Qed.

Lemma ids_detect_video_try env video0 case start_time :
  keeps db_ids (detect_video_try env video0 case start_time).
Proof.
  unfold detect_video_try, classify_frames. repeat ids_step.
  - unfold classify_frame. repeat ids_step.
  - unfold mock_frame. repeat ids_step.
Qed.

(** ** The start of a job *)

Lemma start_run {A} (env : Env) (mt : MediaType) (kind filename0 : string)
      (k : Case -> Z -> M A) (w : World) :
  (worker <- new_worker_id env ;;
   case <- db_add env mt filename0 worker ;;
   add_item (queue_item_of case kind) ;;
   broadcast_queue env ;;
   start_time <- utcnow env ;;
   k case start_time) w
  = k (new_case env mt filename0 w) (clock env (S (clock_calls w)))
      (started env mt kind filename0 w).
Proof.
  unfold new_worker_id, db_add, add_item, bind, np_random, uuid4_hex, utcnow,
    modify, ret.
  cbn. rewrite broadcast_queue_run. cbn. reflexivity.
Qed.

Lemma started_ids env mt kind filename0 w :
  db_ids (started env mt kind filename0 w) = (db_ids w ++ [next_case_id env w])%list.
Proof. unfold db_ids. cbn. now rewrite map_app. Qed.

(** ** The failure commit *)

(** What the three [except] clauses do. *)
Lemma except_run (env : Env) (failed_case : Case) (i detail : string) {A} (w : World) :
  (db_commit failed_case ;;
   remove_item i ;;
   broadcast_queue env ;;
   @raise A (HTTPException 500 detail)) w
  = (Raise (HTTPException 500 detail),
     snd (broadcast_queue env (snd (remove_item i (snd (db_commit failed_case w)))))).
Proof.
  unfold bind at 1 2. cbn. unfold bind. rewrite broadcast_queue_run. reflexivity.
Qed.

Lemma except_rows (env : Env) (failed_case : Case) (i : string) (w : World) :
  db_cases (snd (broadcast_queue env (snd (remove_item i (snd (db_commit failed_case w))))))
  = write_row failed_case (db_cases w).
Proof. rewrite broadcast_queue_run. reflexivity. Qed.

(** The shape shared by the three endpoints after validation. *)
Lemma failure_commit_rows {A} (env : Env) (body : M A) (failed_case : exn -> Case)
      (detail : exn -> string) (i : string) (w : World) (d : string) :
  keeps db_ids body ->
  In i (db_ids w) ->
  (forall e, case_id (failed_case e) = i) ->
  fst (try_except body (fun e =>
         db_commit (failed_case e) ;;
         remove_item (case_id (failed_case e)) ;;
         broadcast_queue env ;;
         raise (HTTPException 500 (detail e))) w)
  = Raise (HTTPException 500 d) ->
  exists e,
    d = detail e /\ fst (body w) = Raise e
    /\ In (failed_case e)
          (db_cases (snd (try_except body (fun e =>
             db_commit (failed_case e) ;;
             remove_item (case_id (failed_case e)) ;;
             broadcast_queue env ;;
             raise (HTTPException 500 (detail e))) w))).
Proof.
  intros Hk Hi Hid. unfold try_except. specialize (Hk w).
  destruct (body w) as [[a|e] w1]; cbn [fst snd] in *; [discriminate|].
  rewrite except_run. cbn [fst snd]. intros H. exists e.
  split; [congruence|split; [reflexivity|]].
  rewrite except_rows. apply write_row_In. rewrite Hid.
  unfold db_ids in *. now rewrite Hk.
Qed.

(** C2 as stated fails: when the decoder rejects the image, the failure
    commit leaves [completed_at] empty. *)
Lemma failure_commit_has_no_completion_time :
  let env := Scenario.env0 true (fun _ => false) (Returns (9 # 10))
                           ("Real", 80%Q) (fun _ => true) in
  let run := detect_image_manipulation env (mkUpload "a.png" "") Scenario.w0 in
  fst run = Raise (HTTPException 500
              "Image analysis failed: cannot identify image file")
  /\ map (fun c => (status c, verdict c, explanation c, completed_at c))
         (db_cases (snd run))
     = [(failed, "Analysis Failed", Some "cannot identify image file", None)]
  /\ ~ (exists now, map completed_at (db_cases (snd run)) = [Some now]).
Proof.
  cbv zeta. split; [|split]; try (vm_compute; reflexivity).
  intros [now H]. vm_compute in H. discriminate H.
Qed.

Lemma fail_case_committed env mt filename0 w :
  failure_committed env w (fail_case (new_case env mt filename0 w)).
Proof. repeat split. Qed.

Lemma fail_case_with_reason_committed env mt filename0 w reason :
  failure_committed env w (fail_case_with_reason (new_case env mt filename0 w) reason).
Proof. repeat split. Qed.

(** C2, as the code has it: when an endpoint answers with the server error
    500, the table holds the row of the job with status [failed] and
    verdict ["Analysis Failed"], and with no completion time: [completed_at]
    is still empty, as it was when the case was created. The image endpoint
    also stores the reason of the failure as the explanation. *)
Theorem failure_commit (env : Env) (w : World) (d : string) :
  (forall image0,
      fst (detect_image_manipulation env image0 w) = Raise (HTTPException 500 d) ->
      exists e row,
        d = "Image analysis failed: " ++ exn_str env e
        /\ In row (db_cases (snd (detect_image_manipulation env image0 w)))
        /\ failure_committed env w row
        /\ explanation row = Some (exn_str env e))
  /\ (forall audio_files,
      fst (detect_audio_manipulation env audio_files w) = Raise (HTTPException 500 d) ->
      exists row,
        In row (db_cases (snd (detect_audio_manipulation env audio_files w)))
        /\ failure_committed env w row)
  /\ (forall video0,
      fst (detect_video_manipulation env video0 w) = Raise (HTTPException 500 d) ->
      exists row,
        In row (db_cases (snd (detect_video_manipulation env video0 w)))
        /\ failure_committed env w row).
Proof.
  split; [|split].
  - intros image0. unfold detect_image_manipulation.
    destruct (negb _); [discriminate|].
    rewrite start_run. unfold detect_image_except. intros H.
    apply (failure_commit_rows env _
             (fun e => fail_case_with_reason _ (str env e))
             (fun e => "Image analysis failed: " ++ str env e)
             (next_case_id env w)) in H.
    + destruct H as (e & Hd & _ & Hin). exists e. eexists.
      split; [exact Hd|]. split; [exact Hin|].
      split; [apply fail_case_with_reason_committed|reflexivity].
    + apply ids_detect_image_try.
    + rewrite started_ids. apply in_or_app. right. now left.
    + reflexivity.
  - intros audio_files. unfold detect_audio_manipulation.
    destruct (negb _); [discriminate|].
    rewrite start_run. unfold detect_audio_except. intros H.
    apply (failure_commit_rows env _ (fun _ => fail_case _)
             (fun e => "Audio analysis failed: " ++ str env e)
             (next_case_id env w)) in H.
    + destruct H as (e & _ & _ & Hin). eexists.
      split; [exact Hin|apply fail_case_committed].
    + apply ids_detect_audio_try.
    + rewrite started_ids. apply in_or_app. right. now left.
    + reflexivity.
  - intros video0. unfold detect_video_manipulation.
    destruct (negb _); [discriminate|].
    rewrite start_run. unfold detect_video_except. intros H.
    apply (failure_commit_rows env _ (fun _ => fail_case _)
             (fun e => "Video processing failed: " ++ str env e)
             (next_case_id env w)) in H.
    + destruct H as (e & _ & _ & Hin). eexists.
      split; [exact Hin|apply fail_case_committed].
    + apply ids_detect_video_try.
    + rewrite started_ids. apply in_or_app. right. now left.
    + reflexivity.
Qed.

Lemma failure_commit_witness :
  let env := Scenario.env0 true (fun _ => false) (Returns (9 # 10))
                           ("Real", 80%Q) (fun _ => true) in
  exists row,
    In row (db_cases (snd (detect_video_manipulation env (mkUpload "v.mp4" "")
                             (mkWorld [] [] [] 0 0 0 [] []))))
    /\ failure_committed env (mkWorld [] [] [] 0 0 0 [] []) row.
Proof.
  cbv zeta.
  apply (proj2 (proj2 (failure_commit
           (Scenario.env0 true (fun _ => false) (Returns (9 # 10))
                          ("Real", 80%Q) (fun _ => true))
           (mkWorld [] [] [] 0 0 0 [] [])
           "Video processing failed: empty video"))
         (mkUpload "v.mp4" "")).
  vm_compute. reflexivity.
Defined.

(** ** Rationals that are equal as numbers format and round alike *)

Lemma round_half_even_comp (x y : Q) : x == y -> PyNum.round_half_even x = PyNum.round_half_even y.
Proof.
  intros H. unfold PyNum.round_half_even.
  rewrite (Qfloor_comp _ _ H).
  assert (E : (x - inject_Z (Qfloor y) ?= 1 # 2)%Q = (y - inject_Z (Qfloor y) ?= 1 # 2)%Q).
  { apply Qcompare_comp; [now rewrite H | reflexivity]. }
  now rewrite E.
Qed.

Lemma Qle_bool_comp (a x y : Q) : x == y -> Qle_bool a x = Qle_bool a y.
Proof.
  intros H. apply eq_true_iff_eq. rewrite !Qle_bool_iff. now rewrite H.
Qed.

Lemma format_f_comp (nd : nat) (x y : Q) : x == y -> PyNum.format_f nd x = PyNum.format_f nd y.
Proof.
  intros H. unfold PyNum.format_f.
  rewrite (round_half_even_comp (x * _) (y * inject_Z (PyNum.pow10 nd))) by now rewrite H.
  now rewrite (Qle_bool_comp 0 x y H).
Qed.

Lemma round_comp (nd : nat) (x y : Q) : x == y -> PyNum.round x nd = PyNum.round y nd.
Proof.
  intros H. unfold PyNum.round.
  now rewrite (round_half_even_comp (x * _) (y * inject_Z (PyNum.pow10 nd))) by now rewrite H.
Qed.

(** ** The runs that return *)

(** Follows a run that returned through its binds. *)
Ltac run_inv H :=
  let a := fresh "a" in let w1 := fresh "w" in
  let H1 := fresh "Hrun" in
  apply bind_Ok_inv in H; destruct H as (a & w1 & H1 & H).

Lemma keeps_run {X A} (f : World -> X) (c : M A) (w w1 : World) (r : Result A) :
  keeps f c -> c w = (r, w1) -> f w1 = f w.
Proof. intros Hk H. specialize (Hk w). now rewrite H in Hk. Qed.

Lemma try_except_Ok_inv {A} (body : M A) (handler : exn -> M A) (w w' : World) (a : A) :
  (forall e w1, fst (handler e w1) <> Ok a) ->
  try_except body handler w = (Ok a, w') -> body w = (Ok a, w').
Proof.
  intros Hh. unfold try_except. destruct (body w) as [[b|e] w1]; [trivial|].
  intros H. exfalso. apply (Hh e w1). now rewrite H.
Qed.

Lemma ids_load_audio env case arrays audio0 : keeps db_ids (load_audio env case arrays audio0).
Proof. unfold load_audio. repeat ids_step. Qed.

Lemma load_audio_inv (env : Env) (case : Case) (arrays arrays' : list string)
      (audio0 : UploadFile) (w w' : World) :
  load_audio env case arrays audio0 w = (Ok arrays', w') ->
  exists waveform,
    librosa_load env (upload_content audio0) = Returns waveform
    /\ arrays' = (arrays ++ [waveform])%list
    /\ db_ids w' = db_ids w.
Proof.
  intros H. pose proof (keeps_run db_ids _ _ _ _ (ids_load_audio env case arrays audio0) H) as Hk.
  unfold load_audio in H. destruct (negb _); [discriminate|].
  do 3 run_inv H. rename a1 into waveform. exists waveform.
  injection H as <- _. split; [|split; [reflexivity|exact Hk]].
  unfold external in Hrun1.
  destruct (librosa_load env (upload_content audio0)); [|discriminate].
  now injection Hrun1 as ->.
Qed.

(** A run of the audio endpoint that returns: the two files were decoded, in
    the order of the submission, the comparator was asked about the two
    waveforms, and its answer gives the response and the committed case. *)
Lemma detect_audio_success (env : Env) (audio_files : list UploadFile)
      (w w' : World) (r : AudioResponse) :
  detect_audio_manipulation env audio_files w = (Ok r, w') ->
  exists case a b x y similarity wa wb now1 now2 start_time,
    case_id case = next_case_id env w
    /\ audio_files = [a; b]
    /\ librosa_load env (upload_content a) = Returns x
    /\ librosa_load env (upload_content b) = Returns y
    /\ audio_similarity env [x; y] wa = (Ok similarity, wb)
    /\ r = audio_response case similarity
    /\ In (audio_case case similarity now1 now2 start_time) (db_cases w').
Proof.
  unfold detect_audio_manipulation.
  destruct (Nat.eqb_spec (List.length audio_files) 2) as [Hlen|Hlen];
    cbn [negb]; [|discriminate].
  destruct audio_files as [|a [|b [|c l]]]; try discriminate Hlen. clear Hlen.
  rewrite start_run. intros H.
  apply try_except_Ok_inv in H.
  2:{ intros e w1. unfold detect_audio_except. rewrite except_run. discriminate. }
  match type of H with
  | detect_audio_try _ _ ?c _ ?w0 = _ =>
      set (case := c) in *; assert (Hid : In (case_id case) (db_ids w0))
  end.
  { rewrite started_ids. apply in_or_app. right. now left. }
  unfold detect_audio_try in H.
  run_inv H. rename a0 into arrays.
  cbn [for_fold] in Hrun. run_inv Hrun. run_inv Hrun.
  injection Hrun as <- <-.
  apply load_audio_inv in Hrun0. destruct Hrun0 as (x & Hx & -> & Hk0).
  apply load_audio_inv in Hrun1. destruct Hrun1 as (y & Hy & -> & Hk1).
  rewrite <- Hk0, <- Hk1 in Hid. clear Hk0 Hk1. cbn [app] in H.
  apply bind_Ok_inv in H. destruct H as (u1 & v1 & R1 & H).
  apply bind_Ok_inv in H. destruct H as (u2 & v2 & R2 & H).
  apply bind_Ok_inv in H. destruct H as (similarity & v3 & R3 & H).
  exists case, a, b, x, y, similarity, v2, v3.
  assert (Hid3 : In (case_id case) (db_ids v3)).
  { apply (keeps_run db_ids) in R3; [|unfold audio_similarity; repeat ids_step].
    apply (keeps_run db_ids) in R2; [|repeat ids_step].
    apply (keeps_run db_ids) in R1; [|repeat ids_step].
    congruence. }
  clear R1 R2 Hid.
  apply bind_Ok_inv in H. destruct H as (u4 & v4 & R4 & H).
  apply bind_Ok_inv in H. destruct H as (u5 & v5 & R5 & H).
  apply bind_Ok_inv in H. destruct H as (now1 & v6 & R6 & H).
  apply bind_Ok_inv in H. destruct H as (now2 & v7 & R7 & H).
  apply bind_Ok_inv in H. destruct H as (u8 & v8 & R8 & H).
  apply bind_Ok_inv in H. destruct H as (u9 & v9 & R9 & H).
  apply bind_Ok_inv in H. destruct H as (u10 & v10 & R10 & H).
  exists now1, now2, (clock env (S (clock_calls w))).
  split; [reflexivity|]. split; [reflexivity|]. split; [exact Hx|].
  split; [exact Hy|]. split; [exact R3|].
  injection H as <- <-. split; [reflexivity|].
  apply (keeps_run db_cases) in R10; [|intros ?; now rewrite broadcast_queue_run].
  apply (keeps_run db_cases) in R9; [|intros ?; reflexivity].
  rewrite R10, R9.
  unfold db_commit, modify in R8. injection R8 as _ E. subst v8.
  cbn [db_cases set_db_cases]. apply write_row_In.
  apply (keeps_run db_ids) in R7; [|repeat ids_step].
  apply (keeps_run db_ids) in R6; [|repeat ids_step].
  apply (keeps_run db_ids) in R5; [|repeat ids_step].
  apply (keeps_run db_ids) in R4; [|repeat ids_step].
  unfold audio_case; cbn [case_id]. fold (db_ids v7). congruence.
Qed.

(** ** The audio decision *)

Lemma audio_similarity_inv (env : Env) (arrays : list string) (wa wb : World) (s : Q) :
  audio_similarity env arrays wa = (Ok s, wb) ->
  if models_loaded env then speaker_similarity env arrays = Returns s
  else s = PyNum.uniform (5 # 10) (98 # 100) (rand env (rand_calls wa)).
Proof.
  unfold audio_similarity. destruct (models_loaded env).
  - unfold external. destruct (speaker_similarity env arrays); intros H.
    + injection H as -> _. reflexivity.
    + discriminate H.
  - unfold bind, np_random, ret. intros H. injection H as <- _. reflexivity.
Qed.

Lemma is_same_speaker_iff (s : Q) :
  is_same_speaker s = true <-> (PyNum.fl (86 # 100) <= s)%Q.
Proof. unfold is_same_speaker, threshold. apply Qle_bool_iff. Qed.

(** The float 0.86 is 7746191359077253 / 2^53, just below 86/100. *)
Lemma threshold_float :
  threshold = 7746191359077253 # 9007199254740992 /\ (threshold < 86 # 100)%Q.
Proof. split; vm_compute; reflexivity. Qed.

(** Floats that are equal as numbers are the same float. *)
Lemma fl_comp (x y : Q) : x == y -> PyNum.fl x = PyNum.fl y.
Proof. intros H. unfold PyNum.fl. now rewrite (Qred_complete x y H). Qed.

(** C8: when the audio endpoint returns, the two files were decoded and
    the similarity [s] that the comparator gave for the two waveforms (the
    speaker network, or the mock draw when the networks are not loaded)
    decides the answer: same speaker exactly when [s >= 0.86], the
    threshold being the float 0.86, which is also the threshold reported;
    the verdict quotes the float product [s * 100] without decimals; and
    for the float [s = 0.90] the verdict is "Same Speaker (90% similarity)"
    with confidence 90. *)
Theorem same_speaker_rule (env : Env) (audio_files : list UploadFile)
        (w w' : World) (r : AudioResponse) :
  detect_audio_manipulation env audio_files w = (Ok r, w') ->
  exists a b x y wa wb s,
    audio_files = [a; b]
    /\ librosa_load env (upload_content a) = Returns x
    /\ librosa_load env (upload_content b) = Returns y
    /\ audio_similarity env [x; y] wa = (Ok s, wb)
    /\ (models_loaded env = true -> speaker_similarity env [x; y] = Returns s)
    /\ (ar_is_same_speaker r = true <-> (PyNum.fl (86 # 100) <= s)%Q)
    /\ ar_threshold r = PyNum.fl (86 # 100)
    /\ ar_verdict r
       = (if ar_is_same_speaker r then "Same Speaker" else "Different Speakers")
         ++ " (" ++ PyNum.format_f 0 (PyNum.fl (s * 100)) ++ "% similarity)"
    /\ (s == PyNum.fl (9 # 10) ->
        ar_is_same_speaker r = true
        /\ ar_verdict r = "Same Speaker (90% similarity)"
        /\ ar_confidence r = 90%Q).
Proof.
  intros H. apply detect_audio_success in H.
  destruct H as (case & a & b & x & y & s & wa & wb & _ & _ & _
                 & _ & -> & Hx & Hy & Hs & -> & _).
  exists a, b, x, y, wa, wb, s. split; [reflexivity|]. split; [exact Hx|].
  split; [exact Hy|]. split; [exact Hs|].
  split.
  { intros Hl. apply audio_similarity_inv in Hs. now rewrite Hl in Hs. }
  cbn [audio_response ar_is_same_speaker ar_threshold ar_verdict ar_confidence].
  split; [apply is_same_speaker_iff|]. split; [reflexivity|].
  split; [reflexivity|].
  intros E.
  assert (Hsame : is_same_speaker s = true).
  { apply is_same_speaker_iff. rewrite E. vm_compute. discriminate. }
  split; [exact Hsame|]. unfold audio_verdict, audio_confidence. rewrite Hsame.
  rewrite (fl_comp (s * 100) (PyNum.fl (9 # 10) * 100)) by (rewrite E; reflexivity).
  split; vm_compute; reflexivity.
Qed.

Lemma same_speaker_rule_witness :
  let env := Scenario.env0 true (fun _ => false) (Returns (PyNum.fl (9 # 10)))
                           ("Real", 80%Q) (fun _ => true) in
  let files := [mkUpload "a.wav" "x"; mkUpload "b.mp3" "y"] in
  let r := audio_response (new_case env audio "a.wav vs b.mp3" Scenario.w0)
                          (PyNum.fl (9 # 10)) in
  exists a b x y wa wb s,
    files = [a; b]
    /\ librosa_load env (upload_content a) = Returns x
    /\ librosa_load env (upload_content b) = Returns y
    /\ audio_similarity env [x; y] wa = (Ok s, wb)
    /\ (models_loaded env = true -> speaker_similarity env [x; y] = Returns s)
    /\ (ar_is_same_speaker r = true <-> (PyNum.fl (86 # 100) <= s)%Q)
    /\ ar_threshold r = PyNum.fl (86 # 100)
    /\ ar_verdict r
       = (if ar_is_same_speaker r then "Same Speaker" else "Different Speakers")
         ++ " (" ++ PyNum.format_f 0 (PyNum.fl (s * 100)) ++ "% similarity)"
    /\ (s == PyNum.fl (9 # 10) ->
        ar_is_same_speaker r = true
        /\ ar_verdict r = "Same Speaker (90% similarity)"
        /\ ar_confidence r = 90%Q).
Proof.
  cbv zeta.
  apply (same_speaker_rule
           (Scenario.env0 true (fun _ => false) (Returns (PyNum.fl (9 # 10)))
                          ("Real", 80%Q) (fun _ => true))
           [mkUpload "a.wav" "x"; mkUpload "b.mp3" "y"]
           Scenario.w0
           (snd (detect_audio_manipulation
                   (Scenario.env0 true (fun _ => false) (Returns (PyNum.fl (9 # 10)))
                                  ("Real", 80%Q) (fun _ => true))
                   [mkUpload "a.wav" "x"; mkUpload "b.mp3" "y"] Scenario.w0))).
  vm_compute. reflexivity.
Defined.

(** C10 as stated fails: for the float similarity 0.8512 the committed
    confidence is 85.1, which is not the product of the similarity and
    100. *)
Lemma committed_confidence_is_rounded :
  let s := PyNum.fl (8512 # 10000) in
  let env := Scenario.env0 true (fun _ => false) (Returns s)
                           ("Real", 80%Q) (fun _ => true) in
  let files := [mkUpload "a.wav" "x"; mkUpload "b.mp3" "y"] in
  let run := detect_audio_manipulation env files Scenario.w0 in
  map (fun c => (status c, verdict c, confidence c)) (db_cases (snd run))
  = [(completed, "Different Speakers (85% similarity)", 851 # 10)]
  /\ ~ (851 # 10 == PyNum.fl (s * 100))%Q.
Proof.
  cbv zeta. split; [vm_compute; reflexivity|]. vm_compute. intros H. discriminate H.
Qed.

(** C10, as the code has it: the confidence committed by a successful
    audio job is the float product of the similarity and 100 rounded to one
    decimal, whichever verdict is reported; below the threshold, the float
    0.86, the verdict is "Different Speakers (...% similarity)" and the
    confidence is still the rounded product. The similarity is the one the
    comparator gave for the decoded waveforms of the two files. *)
Theorem committed_audio_confidence (env : Env) (audio_files : list UploadFile)
        (w w' : World) (r : AudioResponse) :
  detect_audio_manipulation env audio_files w = (Ok r, w') ->
  exists a b x y wa wb s row,
    audio_files = [a; b]
    /\ librosa_load env (upload_content a) = Returns x
    /\ librosa_load env (upload_content b) = Returns y
    /\ audio_similarity env [x; y] wa = (Ok s, wb)
    /\ In row (db_cases w')
    /\ case_id row = next_case_id env w
    /\ status row = completed
    /\ confidence row = PyNum.round (PyNum.fl (s * 100)) 1
    /\ verdict row = ar_verdict r
    /\ ((s < PyNum.fl (86 # 100))%Q ->
        verdict row
        = "Different Speakers (" ++ PyNum.format_f 0 (PyNum.fl (s * 100))
          ++ "% similarity)").
Proof.
  intros H. apply detect_audio_success in H.
  destruct H as (case & a & b & x & y & s & wa & wb & n1 & n2 & t0
                 & Hid & -> & Hx & Hy & Hs & -> & Hin).
  exists a, b, x, y, wa, wb, s, (audio_case case s n1 n2 t0).
  split; [reflexivity|]. split; [exact Hx|]. split; [exact Hy|].
  split; [exact Hs|]. split; [exact Hin|]. split; [exact Hid|].
  split; [reflexivity|]. split; [reflexivity|]. split; [reflexivity|].
  intros Hlt. cbn [audio_case verdict]. unfold audio_verdict.
  destruct (is_same_speaker s) eqn:E; [|reflexivity].
  apply is_same_speaker_iff in E. exfalso. apply (Qlt_not_le _ _ Hlt E).
Qed.

Lemma committed_audio_confidence_witness :
  let env := Scenario.env0 true (fun _ => false) (Returns (PyNum.fl (8512 # 10000)))
                           ("Real", 80%Q) (fun _ => true) in
  let w' := snd (detect_audio_manipulation env
                   [mkUpload "a.wav" "x"; mkUpload "b.mp3" "y"] Scenario.w0) in
  let r := audio_response (new_case env audio "a.wav vs b.mp3" Scenario.w0)
                          (PyNum.fl (8512 # 10000)) in
  exists a b x y wa wb s row,
    [mkUpload "a.wav" "x"; mkUpload "b.mp3" "y"] = [a; b]
    /\ librosa_load env (upload_content a) = Returns x
    /\ librosa_load env (upload_content b) = Returns y
    /\ audio_similarity env [x; y] wa = (Ok s, wb)
    /\ In row (db_cases w')
    /\ case_id row = next_case_id env Scenario.w0
    /\ status row = completed
    /\ confidence row = PyNum.round (PyNum.fl (s * 100)) 1
    /\ verdict row = ar_verdict r
    /\ ((s < PyNum.fl (86 # 100))%Q ->
        verdict row
        = "Different Speakers (" ++ PyNum.format_f 0 (PyNum.fl (s * 100))
          ++ "% similarity)").
Proof.
  cbv zeta.
  apply (committed_audio_confidence
           (Scenario.env0 true (fun _ => false) (Returns (PyNum.fl (8512 # 10000)))
                          ("Real", 80%Q) (fun _ => true))
           [mkUpload "a.wav" "x"; mkUpload "b.mp3" "y"] Scenario.w0).
  vm_compute. reflexivity.
Defined.

(** ** The video decision *)

Lemma fakes_of_app (l : list (string * Q)) (label : string) (conf : Q) :
  fakes_of (l ++ [(label, conf)])
  = if is_fake_label label then (fakes_of l ++ [conf])%list else fakes_of l.
Proof.
  unfold fakes_of. rewrite filter_app, map_app. cbn [filter fst].
  destruct (is_fake_label label); cbn [map snd]; [reflexivity|apply app_nil_r].
Qed.

Lemma classify_frame_fakes env case n acc entry w a w' :
  classify_frame env case n acc entry w = (Ok a, w') ->
  snd acc = fakes_of (fst acc) -> snd a = fakes_of (fst a).
Proof.
  unfold classify_frame. intros H Hacc.
  run_inv H. destruct a0 as [label conf].
  run_inv H. run_inv H. run_inv H.
  injection H as <- _. cbn [fst snd]. rewrite fakes_of_app.
  fold (is_fake_label label). now rewrite Hacc.
Qed.

Lemma mock_frame_fakes env acc frame w a w' :
  mock_frame env acc frame w = (Ok a, w') ->
  snd acc = fakes_of (fst acc) -> snd a = fakes_of (fst a).
Proof.
  unfold mock_frame. intros H Hacc.
  run_inv H. run_inv H. injection H as <- _. cbn [fst snd].
  rewrite fakes_of_app. destruct (Qgtb a0 (4 # 10)); now rewrite Hacc.
Qed.

Lemma for_fold_invariant {A S} (P : S -> Prop) (body : S -> A -> M S) (l : list A) :
  (forall s x w s' w', body s x w = (Ok s', w') -> P s -> P s') ->
  forall s w s' w', for_fold l s body w = (Ok s', w') -> P s -> P s'.
Proof.
  intros Hb. induction l as [|x l IH]; intros s w s' w' H Hs; cbn [for_fold] in H.
  - injection H as <- _. exact Hs.
  - run_inv H. eapply IH; [exact H|]. eapply Hb; eassumption.
Qed.

Lemma classify_frames_fakes env case frames w results fake_confidences w' :
  classify_frames env case frames w = (Ok (results, fake_confidences), w') ->
  fake_confidences = fakes_of results.
Proof.
  unfold classify_frames. intros H.
  change (snd (results, fake_confidences) = fakes_of (fst (results, fake_confidences))).
  destruct (models_loaded env).
  - eapply (for_fold_invariant (fun a => snd a = fakes_of (fst a))); [|exact H|reflexivity].
    intros. eapply classify_frame_fakes; eassumption.
  - eapply (for_fold_invariant (fun a => snd a = fakes_of (fst a))); [|exact H|reflexivity].
    intros. eapply mock_frame_fakes; eassumption.
Qed.

Lemma detect_video_success (env : Env) (video0 : UploadFile) (w w' : World)
      (r : VideoResponse) :
  detect_video_manipulation env video0 w = (Ok r, w') ->
  exists u wu,
    vr_is_fake r = video_is_fake (fakes_of (vr_frame_details r))
    /\ vr_confidence r
       = PyNum.round (video_confidence (fakes_of (vr_frame_details r)) u) 2
    /\ (video_draws (fakes_of (vr_frame_details r)) = true ->
        u = rand env (rand_calls wu)).
Proof.
  unfold detect_video_manipulation. destruct (negb _); [discriminate|].
  rewrite start_run. intros H.
  apply try_except_Ok_inv in H.
  2:{ intros e w1. unfold detect_video_except. rewrite except_run. discriminate. }
  unfold detect_video_try in H.
  do 7 run_inv H. rename a5 into rf. destruct rf as [results fake_confidences].
  apply classify_frames_fakes in Hrun5. subst fake_confidences.
  run_inv H. rename a5 into u. exists u, w6.
  do 10 run_inv H. injection H as <- _.
  cbn [vr_is_fake vr_confidence vr_frame_details].
  split; [reflexivity|]. split; [reflexivity|].
  intros Hd.
  match goal with
  | Hx : (if video_draws _ then _ else _) _ = _ |- _ =>
      rewrite Hd in Hx; unfold np_random in Hx; injection Hx as <- _
  end.
  reflexivity.
Qed.

Lemma Qgtb_iff (a b : Q) : Qgtb a b = true <-> (b < a)%Q.
Proof.
  unfold Qgtb. rewrite negb_true_iff. split.
  - intros H. apply Qnot_le_lt. intros Hle. apply Qle_bool_iff in Hle. congruence.
  - intros H. destruct (Qle_bool a b) eqn:E; [|reflexivity].
    apply Qle_bool_iff in E. exfalso. exact (Qlt_not_le _ _ H E).
Qed.

Lemma uniform_range (a b u : Q) :
  (a <= b)%Q -> (0 <= u)%Q -> (u < 1)%Q ->
  (a <= PyNum.uniform a b u)%Q /\ (a < b -> PyNum.uniform a b u < b)%Q.
Proof.
  unfold PyNum.uniform. intros Hab H0 H1. split.
  - assert (0 <= (b - a) * u)%Q by (apply Qmult_le_0_compat; [lra|exact H0]). lra.
  - intros Hlt. assert ((b - a) * u < (b - a) * 1)%Q.
    { apply Qmult_lt_l; lra. }
    lra.
Qed.

(** C3 as stated fails: a video none of whose frames is flagged fake is
    reported authentic with a confidence drawn between 70 and 90 (80 here),
    not with 100 minus the mean fake confidence, which is 100. *)
Lemma video_without_fake_frames :
  let env := Scenario.env0 true (fun _ => false) (Returns (9 # 10))
                           ("Real", 80%Q) (fun _ => true) in
  let run := detect_video_manipulation env (mkUpload "v.mp4" "0123456789")
                                       Scenario.w0 in
  exists r,
    fst run = Ok r
    /\ vr_is_fake r = false
    /\ avg_fake_conf (fakes_of (vr_frame_details r)) = 0%Q
    /\ vr_confidence r = 80%Q
    /\ ~ (vr_confidence r == 100 - avg_fake_conf (fakes_of (vr_frame_details r)))%Q.
Proof.
  cbv zeta. eexists. split; [vm_compute; reflexivity|].
  split; [reflexivity|]. split; [reflexivity|]. split; [reflexivity|].
  intros H. vm_compute in H. discriminate H.
Qed.

(** C3, as the code has it: when the video endpoint returns, with [avg]
    the mean confidence of the frames flagged fake (0 when there is none),
    the verdict is fake exactly when [avg > 60]; the confidence reported is
    [avg] when fake, [100 - avg] when [0 < avg <= 60], and a draw from
    [70, 90) when no frame is flagged fake ([avg] is 0); it is rounded to
    two decimals. *)
Theorem video_decision (env : Env) (video0 : UploadFile) (w w' : World)
        (r : VideoResponse) :
  detect_video_manipulation env video0 w = (Ok r, w') ->
  let avg := avg_fake_conf (fakes_of (vr_frame_details r)) in
  (vr_is_fake r = true <-> (60 < avg)%Q)
  /\ ((60 < avg)%Q -> vr_confidence r = PyNum.round avg 2)
  /\ ((0 < avg)%Q -> (avg <= 60)%Q -> vr_confidence r = PyNum.round (100 - avg) 2)
  /\ ((avg <= 0)%Q ->
      exists k,
        vr_confidence r = PyNum.round (PyNum.uniform 70 90 (rand env k)) 2
        /\ ((0 <= rand env k)%Q -> (rand env k < 1)%Q ->
            (70 <= PyNum.uniform 70 90 (rand env k))%Q
            /\ (PyNum.uniform 70 90 (rand env k) < 90)%Q)).
Proof.
  intros H avg. apply detect_video_success in H.
  destruct H as (u & wu & Hf & Hc & Hu). fold avg in Hf.
  assert (Hfake : vr_is_fake r = true <-> (60 < avg)%Q).
  { rewrite Hf. unfold video_is_fake. apply Qgtb_iff. }
  split; [exact Hfake|].
  unfold video_confidence, video_draws in *. fold avg in Hc, Hu.
  rewrite <- Hf in Hc, Hu.
  split; [|split].
  - intros Hgt. apply Hfake in Hgt. now rewrite Hgt in Hc.
  - intros Hpos Hle.
    destruct (vr_is_fake r) eqn:E.
    + exfalso. apply (Qlt_not_le 60 avg); [now apply Hfake|exact Hle].
    + apply Qgtb_iff in Hpos. now rewrite Hpos in Hc.
  - intros Hle.
    assert (E0 : Qgtb avg 0 = false).
    { destruct (Qgtb avg 0) eqn:E; [|reflexivity].
      apply Qgtb_iff in E. exfalso. exact (Qlt_not_le _ _ E Hle). }
    destruct (vr_is_fake r) eqn:E.
    + exfalso. assert (60 < avg)%Q by now apply Hfake. lra.
    + rewrite E0 in Hc, Hu. cbn in Hu. rewrite (Hu eq_refl) in Hc.
      exists (rand_calls wu). split; [exact Hc|].
      intros H0 H1. destruct (uniform_range 70 90 _ ltac:(lra) H0 H1) as [Ha Hb].
      split; [exact Ha|apply Hb; lra].
Qed.

Lemma video_decision_witness :
  let env := Scenario.env0 true (fun _ => false) (Returns (9 # 10))
                           ("Fake", 80%Q) (fun _ => true) in
  let r := mkVideoResponse "case-00000000" "v.mp4" (2 # 5) 8 true 80
             "80% Likely Manipulated"
             (generate_explanation true 80 "video")
             (repeat ("Fake", 80%Q) 8) in
  let avg := avg_fake_conf (fakes_of (vr_frame_details r)) in
  (vr_is_fake r = true <-> (60 < avg)%Q)
  /\ ((60 < avg)%Q -> vr_confidence r = PyNum.round avg 2)
  /\ ((0 < avg)%Q -> (avg <= 60)%Q -> vr_confidence r = PyNum.round (100 - avg) 2)
  /\ ((avg <= 0)%Q ->
      exists k,
        vr_confidence r = PyNum.round (PyNum.uniform 70 90 (rand env k)) 2
        /\ ((0 <= rand env k)%Q -> (rand env k < 1)%Q ->
            (70 <= PyNum.uniform 70 90 (rand env k))%Q
            /\ (PyNum.uniform 70 90 (rand env k) < 90)%Q)).
Proof.
  cbv zeta.
  apply (video_decision
           (Scenario.env0 true (fun _ => false) (Returns (9 # 10))
                          ("Fake", 80%Q) (fun _ => true))
           (mkUpload "v.mp4" "0123456789") Scenario.w0
           (snd (detect_video_manipulation
                   (Scenario.env0 true (fun _ => false) (Returns (9 # 10))
                                  ("Fake", 80%Q) (fun _ => true))
                   (mkUpload "v.mp4" "0123456789") Scenario.w0))).
  vm_compute. reflexivity.
Defined.

(** ** The progress of a job *)

Lemma progress_of_app i q1 q2 :
  progress_of i (q1 ++ q2) = (progress_of i q1 ++ progress_of i q2)%list.
Proof. unfold progress_of. now rewrite filter_app, map_app. Qed.

Lemma progress_of_fresh i q :
  ~ In i (map item_id q) -> progress_of i q = [].
Proof.
  induction q as [|it q IH]; intros H; [reflexivity|].
  unfold progress_of in *. cbn in *.
  destruct (String.eqb_spec (item_id it) i) as [E|E].
  - exfalso. apply H. now left.
  - apply IH. intros Hin. apply H. now right.
Qed.

Lemma progress_of_update i p s q :
  progress_of i (update_first i p s q)
  = match progress_of i q with [] => [] | _ :: r => p :: r end.
Proof.
  induction q as [|it q IH]; [reflexivity|].
  unfold progress_of in *. cbn [update_first filter].
  destruct (String.eqb_spec (item_id it) i) as [E|E]; cbn [filter item_id map].
  - rewrite E, String.eqb_refl. reflexivity.
  - destruct (String.eqb_spec (item_id it) i) as [E'|_]; [contradiction|]. exact IH.
Qed.

Lemma progress_of_without i q : progress_of i (without_id i q) = [].
Proof.
  induction q as [|it q IH]; [reflexivity|].
  unfold progress_of, without_id in *. cbn [filter].
  destruct (String.eqb_spec (item_id it) i) as [E|E]; cbn [negb filter]; [exact IH|].
  destruct (String.eqb_spec (item_id it) i) as [E'|_]; [contradiction|]. exact IH.
Qed.

Lemma progress_trace_app i s1 s2 :
  progress_trace i (s1 ++ s2) = (progress_trace i s1 ++ progress_trace i s2)%list.
Proof. unfold progress_trace. apply flat_map_app. Qed.

Lemma StronglySorted_snoc (l : list Z) (x : Z) :
  StronglySorted Z.le l -> Forall (fun p => p <= x) l -> StronglySorted Z.le (l ++ [x]).
Proof.
  induction 1 as [|a l Hs IH Ha]; intros Hf; cbn.
  - repeat constructor.
  - inversion Hf as [|? ? Hax Hl]; subst. constructor; [now apply IH|].
    apply Forall_app. split; [exact Ha|now repeat constructor].
Qed.

Lemma tracked_weaken i s0 b b' w : b <= b' -> tracked i s0 b w -> tracked i s0 b' w.
Proof.
  intros Hb (new & c & H1 & H2 & H3 & H4 & H5). exists new, c. repeat split; try assumption. lia.
Qed.

Section Hoare.

Context {A : Type}.

Lemma hoare_ret (P : World -> Prop) (a : A) (Q : A -> World -> Prop) E :
  (forall w, P w -> Q a w) -> hoare P (ret a) Q E.
Proof. intros H w Hw. now apply H. Qed.

Lemma hoare_raise (P : World -> Prop) (e : exn) (Q : A -> World -> Prop)
      (E : World -> Prop) :
  (forall w, P w -> E w) -> hoare P (@raise A e) Q E.
Proof. intros H w Hw. now apply H. Qed.

Lemma hoare_bind {B} (P : World -> Prop) (c : M A) (R : A -> World -> Prop)
      (k : A -> M B) (Q : B -> World -> Prop) (E : World -> Prop) :
  hoare P c R E -> (forall a, hoare (R a) (k a) Q E) -> hoare P (bind c k) Q E.
Proof.
  intros Hc Hk w Hw. unfold bind. specialize (Hc w Hw).
  destruct (c w) as [[a|e] w1]; [now apply Hk|exact Hc].
Qed.

Lemma hoare_try (P : World -> Prop) (body : M A) (handler : exn -> M A)
      (Q : A -> World -> Prop) (E' E : World -> Prop) :
  hoare P body Q E' -> (forall e, hoare E' (handler e) Q E) ->
  hoare P (try_except body handler) Q E.
Proof.
  intros Hb Hh w Hw. unfold try_except. specialize (Hb w Hw).
  destruct (body w) as [[a|e] w1]; [exact Hb|now apply Hh].
Qed.

Lemma hoare_conseq (P P' : World -> Prop) (c : M A) (Q Q' : A -> World -> Prop)
      (E E' : World -> Prop) :
  hoare P c Q E -> (forall w, P' w -> P w) -> (forall a w, Q a w -> Q' a w) ->
  (forall w, E w -> E' w) -> hoare P' c Q' E'.
Proof.
  intros H HP HQ HE w Hw. specialize (H w (HP w Hw)).
  destruct (c w) as [[a|e] w1]; [now apply HQ|now apply HE].
Qed.

(** A step whose result is known and that leaves the world alone. *)
Lemma hoare_det {B} (P : World -> Prop) (c : M A) (a : A) (k : A -> M B)
      (Q : B -> World -> Prop) (E : World -> Prop) :
  (forall w, c w = (Ok a, w)) -> hoare P (k a) Q E -> hoare P (bind c k) Q E.
Proof. intros Hc Hk w Hw. unfold bind. rewrite Hc. now apply Hk. Qed.

End Hoare.

Section Tracking.

Variable env : Env.
Variable i : string.
Variable s0 : list (list QueueItem).

Lemma tracked_hub b w w' : hub w' = hub w -> tracked i s0 b w -> tracked i s0 b w'.
Proof.
  unfold hub. intros E (new & c & H1 & H2 & H3 & H4 & H5). injection E as Eq Es.
  exists new, c. rewrite Eq, Es. repeat split; assumption.
Qed.

(** A step that does not touch the hub. *)
Lemma hoare_silent {A} (c : M A) b :
  keeps hub c -> hoare (tracked i s0 b) c (fun _ => tracked i s0 b) (tracked i s0 b).
Proof.
  intros Hc w Hw. specialize (Hc w).
  destruct (c w) as [[a|e] w1]; cbn [snd] in Hc; now apply (tracked_hub b w).
Qed.

Lemma hoare_bind_silent {A B} (c : M A) (k : A -> M B) (Q : B -> World -> Prop) b top :
  keeps hub c -> b <= top ->
  (forall a, hoare (tracked i s0 b) (k a) Q (tracked i s0 top)) ->
  hoare (tracked i s0 b) (bind c k) Q (tracked i s0 top).
Proof.
  intros Hc Hb Hk. eapply hoare_bind; [|exact Hk].
  eapply hoare_conseq;
    [apply (hoare_silent c b Hc)|intros w H; exact H|intros a w H; exact H|].
  intros w. now apply tracked_weaken.
Qed.

(** [queue_manager.update_item(i, p, s)] with [p] at least the bound. *)
Lemma hoare_update (p : Z) (s : string) b E :
  b <= p -> hoare (tracked i s0 b) (update_item i p s) (fun _ => tracked i s0 p) E.
Proof.
  intros Hp w (new & c & H1 & H2 & H3 & H4 & H5).
  unfold update_item, modify.
  destruct H5 as [H5|H5].
  - exists new, p. cbn [snapshots queue_items set_queue_items].
    rewrite progress_of_update, H5.
    repeat split; try assumption; try lia; [|now left].
    eapply Forall_impl; [|exact H4]. cbn beta. intros. lia.
  - exists new, c. cbn [snapshots queue_items set_queue_items].
    rewrite progress_of_update, H5.
    repeat split; try assumption; try lia. now right.
Qed.

(** [await queue_manager.broadcast(queue_manager.queue_items)]. *)
Lemma hoare_broadcast b E :
  hoare (tracked i s0 b) (broadcast_queue env) (fun _ => tracked i s0 b) E.
Proof.
  intros w (new & c & H1 & H2 & H3 & H4 & H5).
  rewrite broadcast_queue_run.
  exists (new ++ [queue_items w])%list, c. cbn [snapshots queue_items].
  rewrite H1, <- app_assoc, progress_trace_app. cbn [progress_trace flat_map].
  rewrite app_nil_r. destruct H5 as [H5|H5]; rewrite H5.
  - repeat split; try assumption; [now apply StronglySorted_snoc| |now left].
    apply Forall_app. split; [exact H4|]. repeat constructor. lia.
  - rewrite app_nil_r. repeat split; try assumption. now right.
Qed.

(** [queue_manager.remove_item(i)]. *)
Lemma hoare_remove b E :
  hoare (tracked i s0 b) (remove_item i) (fun _ => tracked i s0 b) E.
Proof.
  intros w (new & c & H1 & H2 & H3 & H4 & H5).
  unfold remove_item, modify. exists new, c.
  cbn [snapshots queue_items set_queue_items]. rewrite progress_of_without.
  repeat split; try assumption. now right.
Qed.

End Tracking.

(** *** What does not touch the hub *)

Lemma hub_utcnow env : keeps hub (utcnow env).
Proof. intros w. reflexivity. Qed.

Lemma hub_np_random env : keeps hub (np_random env).
Proof. intros w. reflexivity. Qed.

Lemma hub_db_commit c : keeps hub (db_commit c).
Proof. intros w. reflexivity. Qed.

Ltac hub_step :=
  first [ keeps_step | apply hub_utcnow | apply hub_np_random | apply hub_db_commit ].

(** Closes [tracked i s0 b w -> tracked i s0 b' w] when [b <= b']. *)
Ltac weaken :=
  intros; cbn beta in *;
  lazymatch goal with
  | H : tracked _ _ _ ?w |- tracked _ _ _ ?w =>
      refine (tracked_weaken _ _ _ _ _ _ H); lia
  end.

(** Walks through a coroutine, from the bound reached so far. *)
Ltac track :=
  lazymatch goal with
  | |- hoare _ (update_item _ _ _ ;; _) _ _ =>
      eapply hoare_bind; [apply hoare_update; lia|intro; cbn beta]
  | |- hoare _ (broadcast_queue _ ;; _) _ _ =>
      eapply hoare_bind; [apply hoare_broadcast|intro; cbn beta]
  | |- hoare _ (remove_item _ ;; _) _ _ =>
      eapply hoare_bind; [apply hoare_remove|intro; cbn beta]
  | |- hoare _ (ret _) _ _ => apply hoare_ret; weaken
  | |- hoare _ (raise _) _ _ => apply hoare_raise; weaken
  | |- hoare _ (if ?b then _ else _) _ _ => destruct b
  | |- hoare _ (match ?r with pair _ _ => _ end) _ _ => destruct r
  | |- hoare _ (bind _ _) _ _ =>
      apply hoare_bind_silent; [solve [repeat hub_step] | lia | intros]
  end.

Lemma track_image_try env i s0 image0 case start_time :
  case_id case = i ->
  hoare (tracked i s0 0) (detect_image_try env image0 case start_time)
        (fun _ => tracked i s0 90) (tracked i s0 90).
Proof.
  intros <-. unfold detect_image_try. do 3 track.
  apply hoare_bind_silent; [unfold image_inference; repeat hub_step|lia|intros r].
  destruct r as [[label confidence0] is_fake]. repeat track.
Qed.

Lemma track_except env i s0 failed_case detail {A} b :
  b <= 90 ->
  hoare (tracked i s0 b)
        (db_commit failed_case ;; remove_item i ;; broadcast_queue env ;;
         @raise A (HTTPException 500 detail))
        (fun _ => tracked i s0 90) (tracked i s0 90).
Proof. intros Hb. repeat track. Qed.

Lemma track_load_audio env i s0 case arrays audio0 b :
  case_id case = i -> b <= 20 + 15 * Z.of_nat (List.length arrays) ->
  hoare (tracked i s0 b) (load_audio env case arrays audio0)
        (fun arrays' w => List.length arrays' = S (List.length arrays)
                          /\ tracked i s0 (20 + 15 * Z.of_nat (List.length arrays)) w)
        (tracked i s0 (20 + 15 * Z.of_nat (List.length arrays))).
Proof.
  intros <- Hb. unfold load_audio. track; [track|].
  eapply hoare_bind; [apply hoare_update; lia|intro; cbn beta].
  do 2 track. apply hoare_ret. intros w Hw. split; [|weaken].
  rewrite length_app. cbn. lia.
Qed.

Lemma track_audio_loop env i s0 case (l : list UploadFile) :
  case_id case = i ->
  forall arrays b top,
    b <= 20 + 15 * Z.of_nat (List.length arrays) ->
    b <= top ->
    5 + 15 * Z.of_nat (List.length arrays + List.length l) <= top ->
    hoare (tracked i s0 b) (for_fold l arrays (load_audio env case))
          (fun _ => tracked i s0 top) (tracked i s0 top).
Proof.
  intros Hi. induction l as [|x l IH]; intros arrays b top Hb Htop Hl; cbn [for_fold].
  - track.
  - cbn [List.length] in Hl. eapply hoare_bind.
    + eapply hoare_conseq; [apply (track_load_audio env i s0 case arrays x b Hi Hb)
                          |intros w H; exact H| |].
      * intros a w H. exact H.
      * weaken.
    + intros arrays'. intros w [Hlen Hw]. revert w Hw.
      apply IH; rewrite ?Hlen; lia.
Qed.

Lemma track_audio_try env i s0 audio_files case start_time :
  case_id case = i -> List.length audio_files = 2%nat ->
  hoare (tracked i s0 0) (detect_audio_try env audio_files case start_time)
        (fun _ => tracked i s0 90) (tracked i s0 90).
Proof.
  intros Hi Hlen. unfold detect_audio_try.
  eapply hoare_bind.
  - eapply hoare_conseq;
      [apply (track_audio_loop env i s0 case audio_files Hi [] 0 35);
       rewrite ?Hlen; cbn; lia
      |intros w H; exact H|intros a w H; exact H|weaken].
  - intros arrays. subst i. do 2 track.
    apply hoare_bind_silent; [unfold audio_similarity; repeat hub_step|lia|intros s].
    repeat track.
Qed.

(** *** The progress of the frames *)

(** The frames are at most 8: one for each sampled position that could be
    read. *)
Lemma read_frames_at_most (env : Env) (temp_file : string) (indices : list Z) :
  (List.length (read_frames env temp_file indices) <= List.length indices)%nat.
Proof.
  induction indices as [|i indices IH]; [apply Nat.le_refl|].
  cbn [read_frames flat_map List.length]. fold (read_frames env temp_file indices).
  rewrite length_app. destruct (video_read env temp_file i); cbn [List.length]; lia.
Qed.

Lemma frames_at_most_8 (env : Env) (temp_file : string) (total : Z) :
  (List.length (read_frames env temp_file (frame_indices total)) <= 8)%nat.
Proof. apply (read_frames_at_most env temp_file (frame_indices total)). Qed.

(** For at most 8 frames the floats of line 819 give the integer quotient:
    the rounding of the quotient and of the product never reaches the next
    integer. *)
Lemma int_of_ratio (idx len : nat) :
  (idx < len)%nat -> (len <= 8)%nat ->
  PyNum.int (PyNum.fl (PyNum.fl (inject_Z (Z.of_nat idx) / inject_Z (Z.of_nat len)) * 40))
  = (40 * Z.of_nat idx) / Z.of_nat len.
Proof.
  intros Hidx Hlen.
  do 9 (destruct len as [|len]; [do 8 (destruct idx as [|idx]; [vm_compute; reflexivity || lia|]); lia|]).
  lia.
Qed.

Lemma frame_progress_run (idx len : nat) (w : World) :
  (idx < len)%nat -> (len <= 8)%nat ->
  frame_progress idx len w = (Ok (30 + (40 * Z.of_nat idx) / Z.of_nat len), w).
Proof.
  intros Hidx Hlen. unfold frame_progress, truediv.
  destruct (Qeq_bool (inject_Z (Z.of_nat len)) 0) eqn:E.
  - apply Qeq_bool_iff in E. unfold Qeq in E. cbn in E. lia.
  - unfold bind, ret. now rewrite int_of_ratio.
Qed.

Lemma frame_progress_zero (idx : nat) (w : World) :
  frame_progress idx 0 w = (Raise ZeroDivisionError, w).
Proof. reflexivity. Qed.

Lemma frame_progress_bounds (idx len : nat) :
  (idx < len)%nat ->
  30 <= 30 + (40 * Z.of_nat idx) / Z.of_nat len <= 70
  /\ 30 + (40 * Z.of_nat idx) / Z.of_nat len
     <= 30 + (40 * Z.of_nat (S idx)) / Z.of_nat len.
Proof.
  intros H.
  assert (Hn : 0 < Z.of_nat len) by lia.
  assert (H0 : 0 <= (40 * Z.of_nat idx) / Z.of_nat len) by (apply Z.div_pos; lia).
  assert (H1 : (40 * Z.of_nat idx) / Z.of_nat len <= 40).
  { apply Z.div_le_upper_bound; [lia|]. nia. }
  assert (H2 : (40 * Z.of_nat idx) / Z.of_nat len <= (40 * Z.of_nat (S idx)) / Z.of_nat len).
  { apply Z.div_le_mono; lia. }
  lia.
Qed.

Lemma track_classify_frame env i s0 case len acc idx frame b :
  case_id case = i -> (idx < len)%nat -> (len <= 8)%nat ->
  b <= 30 + (40 * Z.of_nat idx) / Z.of_nat len ->
  hoare (tracked i s0 b) (classify_frame env case len acc (idx, frame))
        (fun _ => tracked i s0 (30 + (40 * Z.of_nat idx) / Z.of_nat len))
        (tracked i s0 70).
Proof.
  intros <- Hidx Hlen Hb. unfold classify_frame. cbn [fst snd].
  destruct (frame_progress_bounds idx len Hidx) as [Hr _].
  track. destruct a as [label conf].
  eapply hoare_det; [intros w; apply frame_progress_run; assumption|].
  repeat track.
Qed.

Lemma track_classify_loop env i s0 case len (frames : list string) :
  case_id case = i -> (len <= 8)%nat ->
  forall k acc b,
    (k + List.length frames <= len)%nat ->
    b <= 70 ->
    (frames <> [] -> b <= 30 + (40 * Z.of_nat k) / Z.of_nat len) ->
    hoare (tracked i s0 b)
          (for_fold (combine (seq k (List.length frames)) frames) acc
                    (classify_frame env case len))
          (fun _ => tracked i s0 70) (tracked i s0 70).
Proof.
  intros Hi Hlen. induction frames as [|frame frames IH]; intros k acc b Hk Hb70 Hb;
    cbn [List.length seq combine for_fold].
  - track.
  - cbn [List.length] in Hk.
    destruct (frame_progress_bounds k len ltac:(lia)) as [Hr Hs].
    eapply hoare_bind.
    + apply (track_classify_frame env i s0 case len acc k frame b Hi); [lia|exact Hlen|].
      apply Hb. discriminate.
    + intros acc'. apply IH; [lia|lia|]. intros _. exact Hs.
Qed.

Lemma hub_mock_frame env acc frame : keeps hub (mock_frame env acc frame).
Proof. unfold mock_frame. repeat hub_step. Qed.

Lemma track_classify_frames env i s0 case frames :
  case_id case = i -> (List.length frames <= 8)%nat ->
  hoare (tracked i s0 30) (classify_frames env case frames)
        (fun _ => tracked i s0 70) (tracked i s0 70).
Proof.
  intros Hi Hlen. unfold classify_frames, enumerate. destruct (models_loaded env).
  - apply (track_classify_loop env i s0 case (List.length frames) frames Hi Hlen 0%nat);
      [lia|lia|].
    intros _. change (40 * Z.of_nat 0) with 0. rewrite Zdiv_0_l. lia.
  - eapply hoare_conseq;
      [apply (hoare_silent i s0 _ 30); apply keeps_for_fold; intros;
       apply hub_mock_frame
      |intros w H; exact H|weaken|weaken].
Qed.

Lemma track_video_try env i s0 video0 case start_time :
  case_id case = i ->
  hoare (tracked i s0 0) (detect_video_try env video0 case start_time)
        (fun _ => tracked i s0 90) (tracked i s0 90).
Proof.
  intros Hi. unfold detect_video_try. subst i. cbv zeta. do 6 track.
  eapply hoare_bind.
  - eapply hoare_conseq;
      [apply track_classify_frames; [reflexivity|apply frames_at_most_8]
      |intros w H; exact H|intros rf w H; exact H|weaken].
  - intros rf. destruct rf as [results fake_confidences]. repeat track.
Qed.

(** *** The three endpoints *)

Lemma tracked_monotone i s0 b w :
  b <= 90 -> tracked i s0 b w -> monotone_progress i s0 (snapshots w).
Proof.
  intros Hb (new & c & H1 & H2 & H3 & H4 & _). exists new.
  split; [exact H1|]. split; [exact H2|].
  eapply Forall_impl; [|exact H4]. cbn beta. intros. lia.
Qed.

Lemma monotone_progress_refl i s0 : monotone_progress i s0 s0.
Proof.
  exists []. rewrite app_nil_r. repeat split; constructor.
Qed.

Lemma started_tracked env mt kind filename0 w :
  ~ In (next_case_id env w) (map item_id (queue_items w)) ->
  tracked (next_case_id env w) (snapshots w) 0 (started env mt kind filename0 w).
Proof.
  intros Hfresh.
  assert (Hp : progress_of (next_case_id env w)
                 (queue_items w ++ [queue_item_of (new_case env mt filename0 w) kind])
               = [0]).
  { rewrite progress_of_app, (progress_of_fresh _ _ Hfresh).
    unfold progress_of. cbn [filter queue_item_of item_id new_case case_id app].
    now rewrite String.eqb_refl. }
  eexists _, 0. unfold started. cbn [snapshots queue_items].
  split; [reflexivity|]. cbn [progress_trace flat_map]. rewrite Hp. cbn [app].
  repeat split; try lia; [repeat constructor|repeat constructor; lia|now left].
Qed.

Lemma hoare_run {A} (P : World -> Prop) (c : M A) (Q : World -> Prop) (w : World) :
  hoare P c (fun _ => Q) Q -> P w -> Q (snd (c w)).
Proof.
  intros H Hw. specialize (H w Hw). now destruct (c w) as [[a|e] w1].
Qed.

(** C5 as stated fails: an image job that completes shows the progress
    values 0, 30, 70, 90 and is then removed from the hub; 100 is never
    written. *)
Lemma completed_job_never_shows_100 :
  let env := Scenario.env0 true (fun _ => false) (Returns (9 # 10))
                           ("Real", 80%Q) (fun _ => true) in
  let run := detect_image_manipulation env (mkUpload "a.png" "pix") Scenario.w0 in
  map status (db_cases (snd run)) = [completed]
  /\ progress_trace "case-00000000" (snapshots (snd run)) = [0; 30; 70; 90]
  /\ ~ In 100 (progress_trace "case-00000000" (snapshots (snd run))).
Proof.
  cbv zeta. split; [vm_compute; reflexivity|]. split; [vm_compute; reflexivity|].
  vm_compute. intros H. repeat (destruct H as [H|H]; [discriminate H|]). exact H.
Qed.

(** C5, as the code has it: for a job whose id is not yet in the hub, the
    progress values that the snapshots broadcast during the job show for it
    never decrease, and they stay at most 90: no endpoint writes 100, the
    entry is removed when the job ends. *)
Theorem progress_never_decreases (env : Env) (w : World) :
  ~ In (next_case_id env w) (map item_id (queue_items w)) ->
  (forall image0,
      monotone_progress (next_case_id env w) (snapshots w)
        (snapshots (snd (detect_image_manipulation env image0 w))))
  /\ (forall audio_files,
      monotone_progress (next_case_id env w) (snapshots w)
        (snapshots (snd (detect_audio_manipulation env audio_files w))))
  /\ (forall video0,
      monotone_progress (next_case_id env w) (snapshots w)
        (snapshots (snd (detect_video_manipulation env video0 w)))).
Proof.
  intros Hfresh. split; [|split].
  - intros image0. unfold detect_image_manipulation.
    destruct (negb _); [apply monotone_progress_refl|].
    rewrite start_run. apply (tracked_monotone _ _ 90); [lia|].
    apply (hoare_run (tracked (next_case_id env w) (snapshots w) 0));
      [|now apply started_tracked].
    eapply hoare_try; [apply track_image_try; reflexivity|].
    intros e. unfold detect_image_except. apply track_except. lia.
  - intros audio_files. unfold detect_audio_manipulation.
    destruct (Nat.eqb_spec (List.length audio_files) 2) as [Hlen|Hlen];
      cbn [negb]; [|apply monotone_progress_refl].
    rewrite start_run. apply (tracked_monotone _ _ 90); [lia|].
    apply (hoare_run (tracked (next_case_id env w) (snapshots w) 0));
      [|now apply started_tracked].
    eapply hoare_try; [apply track_audio_try; [reflexivity|exact Hlen]|].
    intros e. unfold detect_audio_except. apply track_except. lia.
  - intros video0. unfold detect_video_manipulation.
    destruct (negb _); [apply monotone_progress_refl|].
    rewrite start_run. apply (tracked_monotone _ _ 90); [lia|].
    apply (hoare_run (tracked (next_case_id env w) (snapshots w) 0));
      [|now apply started_tracked].
    eapply hoare_try; [apply track_video_try; reflexivity|].
    intros e. unfold detect_video_except. apply track_except. lia.
Qed.

Lemma progress_never_decreases_witness :
  let env := Scenario.env0 true (fun _ => false) (Returns (9 # 10))
                           ("Fake", 80%Q) (fun _ => true) in
  let w := mkWorld [1%nat] [mkItem "case-1a2b3c4d" "audio" 0 50 "analyzing" "worker-2"]
                   [] 0 0 0 [] [] in
  monotone_progress (next_case_id env w) (snapshots w)
    (snapshots (snd (detect_video_manipulation env (mkUpload "v.mp4" "0123456789") w))).
Proof.
  cbv zeta.
  apply (proj2 (proj2 (progress_never_decreases
           (Scenario.env0 true (fun _ => false) (Returns (9 # 10))
                          ("Fake", 80%Q) (fun _ => true))
           (mkWorld [1%nat]
                    [mkItem "case-1a2b3c4d" "audio" 0 50 "analyzing" "worker-2"]
                    [] 0 0 0 [] [])
           ltac:(vm_compute; intros [H|H]; [discriminate H|exact H])))).
Defined.

(** ** Divisions *)

Section Safe.

Lemma safe_ret {A} (a : A) : never_divides_by_zero (ret a).
Proof. intros w. discriminate. Qed.

Lemma safe_raise_http {A} code detail :
  never_divides_by_zero (@raise A (HTTPException code detail)).
Proof. intros w. discriminate. Qed.

Lemma safe_external {A} (r : Outcome A) : never_divides_by_zero (external r).
Proof. intros w. unfold external. destruct r; discriminate. Qed.

Lemma safe_modify f : never_divides_by_zero (modify f).
Proof. intros w. discriminate. Qed.

Lemma safe_gets {A} (g : World -> A) : never_divides_by_zero (gets g).
Proof. intros w. discriminate. Qed.

Lemma safe_bind {A B} (c : M A) (k : A -> M B) :
  never_divides_by_zero c -> (forall a, never_divides_by_zero (k a)) ->
  never_divides_by_zero (bind c k).
Proof.
  intros Hc Hk w. unfold bind. specialize (Hc w).
  destruct (c w) as [[a|e] w1]; cbn [fst] in *; [apply Hk|].
  intros E. apply Hc. injection E as ->. reflexivity.
Qed.

Lemma safe_for_fold {A S} (l : list A) (body : S -> A -> M S) :
  (forall s x, In x l -> never_divides_by_zero (body s x)) ->
  forall s, never_divides_by_zero (for_fold l s body).
Proof.
  induction l as [|x l IH]; intros Hb s; cbn [for_fold].
  - apply safe_ret.
  - apply safe_bind; [apply Hb; now left|].
    intros s'. apply IH. intros s1 y Hy. apply Hb. now right.
Qed.

Lemma safe_utcnow env : never_divides_by_zero (utcnow env).
Proof. intros w. discriminate. Qed.

Lemma safe_np_random env : never_divides_by_zero (np_random env).
Proof. intros w. discriminate. Qed.

Lemma safe_broadcast_queue env : never_divides_by_zero (broadcast_queue env).
Proof. intros w. rewrite broadcast_queue_run. discriminate. Qed.

(** The guard of line 787: the division happens only when [fps > 0]. *)
Lemma safe_duration (total fps : Q) :
  never_divides_by_zero (if Qgtb fps 0 then truediv total fps else ret 0%Q).
Proof.
  destruct (Qgtb fps 0) eqn:E; [|apply safe_ret].
  intros w. unfold truediv. destruct (Qeq_bool fps 0) eqn:E0; [|discriminate].
  exfalso. apply Qeq_bool_iff in E0. apply Qgtb_iff in E. rewrite E0 in E.
  discriminate E.
Qed.

(** Line 819 runs inside the loop, so [len(frames)] is not 0 there. *)
Lemma safe_frame_progress (idx len : nat) :
  len <> 0%nat -> never_divides_by_zero (frame_progress idx len).
Proof.
  intros H w. unfold frame_progress, truediv.
  destruct (Qeq_bool (inject_Z (Z.of_nat len)) 0) eqn:E; [|discriminate].
  apply Qeq_bool_iff in E. unfold Qeq in E. cbn in E. lia.
Qed.

End Safe.

Ltac safe_step :=
  lazymatch goal with
  | |- never_divides_by_zero (bind _ _) => apply safe_bind; [|intros]
  | |- never_divides_by_zero (ret _) => apply safe_ret
  | |- never_divides_by_zero (external _) => apply safe_external
  | |- never_divides_by_zero (update_item _ _ _) => apply safe_modify
  | |- never_divides_by_zero (remove_item _) => apply safe_modify
  | |- never_divides_by_zero (db_commit _) => apply safe_modify
  | |- never_divides_by_zero (broadcast_queue _) => apply safe_broadcast_queue
  | |- never_divides_by_zero (utcnow _) => apply safe_utcnow
  | |- never_divides_by_zero (np_random _) => apply safe_np_random
  | |- never_divides_by_zero (if Qgtb _ 0 then truediv _ _ else _) => apply safe_duration
  | |- never_divides_by_zero (if ?b then _ else _) => destruct b
  | |- never_divides_by_zero (match ?r with pair _ _ => _ end) => destruct r
  end.

Lemma safe_classify_frames env case frames :
  never_divides_by_zero (classify_frames env case frames).
Proof.
  unfold classify_frames. destruct (models_loaded env).
  - apply safe_for_fold. intros acc entry Hin.
    assert (Hlen : List.length frames <> 0%nat).
    { destruct frames; [destruct Hin|discriminate]. }
    unfold classify_frame.
    apply safe_bind; [apply safe_external|intros [label conf]].
    apply safe_bind; [apply safe_frame_progress; exact Hlen|intros].
    repeat safe_step.
  - apply safe_for_fold. intros acc frame _. unfold mock_frame. repeat safe_step.
Qed.

Lemma safe_detect_video_try env video0 case start_time :
  never_divides_by_zero (detect_video_try env video0 case start_time).
Proof.
  unfold detect_video_try. cbv zeta.
  repeat first [ apply safe_classify_frames | safe_step ].
Qed.

Lemma frame_indices_small (total : Z) :
  total <= 1 -> frame_indices total = [0; 0; 0; 0; 0; 0; 0; 0].
Proof.
  intros H. unfold frame_indices. replace (Z.max (total - 1) 0) with 0 by lia.
  reflexivity.
Qed.

Lemma frame_indices_shape (total : Z) :
  List.length (frame_indices total) = 8%nat /\ hd_error (frame_indices total) = Some 0.
Proof.
  split; [reflexivity|].
  unfold frame_indices, linspace_int. cbn [seq map hd_error Nat.pred Z.of_nat].
  change ((0 <? Z.pos (PosDef.Pos.of_succ_nat 6))%Z
          && (0 =? Z.pos (PosDef.Pos.of_succ_nat 6))%Z)%bool with false.
  cbv iota. f_equal.
Qed.

Lemma duration_run (total fps : Q) (w : World) :
  (if Qgtb fps 0 then truediv total fps else ret 0%Q) w = (Ok (duration_of total fps), w).
Proof.
  unfold duration_of. destruct (Qgtb fps 0) eqn:E; [|reflexivity].
  unfold truediv. destruct (Qeq_bool fps 0) eqn:E0; [|reflexivity].
  exfalso. apply Qeq_bool_iff in E0. apply Qgtb_iff in E. rewrite E0 in E.
  discriminate E.
Qed.

Lemma read_frames_none env temp_file indices :
  (forall i, video_read env temp_file i = None) ->
  read_frames env temp_file indices = [].
Proof.
  intros H. unfold read_frames. induction indices as [|i l IH]; [reflexivity|].
  cbn [flat_map]. now rewrite H, IH.
Qed.

Lemma classify_no_frames env case w :
  classify_frames env case [] w = (Ok ([], []), w).
Proof. unfold classify_frames. now destruct (models_loaded env). Qed.

(** Runs the next statement of a coroutine whose outcome is known, and
    brings the world back to a record of its fields. *)
Ltac tidy_world :=
  cbn [active_connections queue_items db_cases clock_calls rand_calls uuid_calls
       snapshots sent set_queue_items set_active_connections set_db_cases
       log_snapshot log_sent tick_clock tick_rand tick_uuid].

Ltac run_step :=
  erewrite bind_run;
  [| first [ apply broadcast_queue_run | apply duration_run
           | apply classify_no_frames | reflexivity ] ];
  tidy_world.

Lemma video_without_frames_run (env : Env) (video0 : UploadFile) (temp_file : string)
      (w : World) :
  PyStr.endswith (PyStr.lower (upload_filename video0)) video_suffixes = true ->
  copyfileobj env (upload_content video0) = Returns temp_file ->
  (forall i, video_read env temp_file i = None) ->
  exists r w',
    detect_video_manipulation env video0 w = (Ok r, w')
    /\ vr_frames_analyzed r = 0%nat
    /\ vr_frame_details r = []
    /\ vr_is_fake r = false
    /\ vr_confidence r
       = PyNum.round (PyNum.uniform 70 90 (rand env (S (rand_calls w)))) 2.
Proof.
  intros Hname Hcopy Hread. unfold detect_video_manipulation.
  rewrite Hname. cbn [negb]. rewrite start_run. unfold started. cbv zeta.
  unfold try_except, detect_video_try. cbv zeta.
  erewrite bind_run; [|unfold external; rewrite Hcopy; reflexivity].
  rewrite (read_frames_none env temp_file _ Hread).
  do 6 run_step. cbv iota beta.
  change (video_draws []) with true. cbv iota.
  do 11 run_step.
  unfold ret. eexists _, _. split; [reflexivity|].
  cbn [vr_frames_analyzed vr_frame_details vr_is_fake vr_confidence List.length].
  repeat split.
Qed.

(** The answers the video endpoint can give. *)
Lemma video_outcomes (env : Env) (video0 : UploadFile) (w : World) :
  (exists r, fst (detect_video_manipulation env video0 w) = Ok r)
  \/ (exists d, fst (detect_video_manipulation env video0 w) = Raise (HTTPException 400 d))
  \/ (exists d, fst (detect_video_manipulation env video0 w) = Raise (HTTPException 500 d)).
Proof.
  unfold detect_video_manipulation. destruct (negb _).
  - right. left. eexists. reflexivity.
  - rewrite start_run. unfold try_except.
    destruct (detect_video_try _ _ _ _ _) as [[r|e] w1].
    + left. eexists. reflexivity.
    + right. right. unfold detect_video_except. rewrite except_run.
      eexists. reflexivity.
Qed.

(** C9: the video pipeline has no division by zero. There are always 8
    sampled positions and the first is position 0, whatever the number of
    frames (they are all 0 when there is at most one frame); the [try]
    block never raises [ZeroDivisionError], the division
    of line 819 being inside the loop over the frames and the one of line
    787 behind the test [fps > 0]; the endpoint always answers, with a
    result or with an HTTP error; and for a video none of whose frames can
    be read it answers with a result: no frame analysed, verdict not fake,
    and a confidence drawn from the interval from 70 to 90. *)
Theorem video_never_divides_by_zero (env : Env) (video0 : UploadFile) :
  (forall total,
      List.length (frame_indices total) = 8%nat
      /\ hd_error (frame_indices total) = Some 0
      /\ (total <= 1 -> frame_indices total = [0; 0; 0; 0; 0; 0; 0; 0]))
  /\ (forall case start_time,
      never_divides_by_zero (detect_video_try env video0 case start_time))
  /\ (forall w,
      (exists r, fst (detect_video_manipulation env video0 w) = Ok r)
      \/ (exists d, fst (detect_video_manipulation env video0 w)
                    = Raise (HTTPException 400 d))
      \/ (exists d, fst (detect_video_manipulation env video0 w)
                    = Raise (HTTPException 500 d)))
  /\ (forall w temp_file,
      PyStr.endswith (PyStr.lower (upload_filename video0)) video_suffixes = true ->
      copyfileobj env (upload_content video0) = Returns temp_file ->
      (forall i, video_read env temp_file i = None) ->
      exists r w',
        detect_video_manipulation env video0 w = (Ok r, w')
        /\ vr_frames_analyzed r = 0%nat
        /\ vr_frame_details r = []
        /\ vr_is_fake r = false
        /\ vr_confidence r
           = PyNum.round (PyNum.uniform 70 90 (rand env (S (rand_calls w)))) 2).
Proof.
  split; [|split; [|split]].
  - intros total. destruct (frame_indices_shape total) as [H1 H2].
    split; [exact H1|]. split; [exact H2|apply frame_indices_small].
  - intros case start_time. apply safe_detect_video_try.
  - intros w. apply video_outcomes.
  - intros w temp_file. apply video_without_frames_run.
Qed.

Lemma video_never_divides_by_zero_witness :
  let env := Scenario.env0 true (fun _ => false) (Returns (9 # 10))
                           ("Fake", 80%Q) (fun _ => false) in
  exists r w',
    detect_video_manipulation env (mkUpload "clip.MP4" "raw") Scenario.w0 = (Ok r, w')
    /\ vr_frames_analyzed r = 0%nat
    /\ vr_frame_details r = []
    /\ vr_is_fake r = false
    /\ vr_confidence r = PyNum.round (PyNum.uniform 70 90 (rand env 1)) 2.
Proof.
  cbv zeta.
  apply (proj2 (proj2 (proj2 (video_never_divides_by_zero
           (Scenario.env0 true (fun _ => false) (Returns (9 # 10))
                          ("Fake", 80%Q) (fun _ => false))
           (mkUpload "clip.MP4" "raw")))) Scenario.w0 "raw").
  - vm_compute. reflexivity.
  - reflexivity.
  - intros i. reflexivity.
Defined.

(** * More properties *)

(** ** More on the queue manager *)

Lemma set_queue_items_same (w : World) : set_queue_items (queue_items w) w = w.
Proof. now destruct w. Qed.

Lemma update_first_absent (i : string) (p : Z) (s : string) (q : list QueueItem) :
  ~ In i (map item_id q) -> update_first i p s q = q.
Proof.
  induction q as [|it q IH]; intros H; [reflexivity|]. cbn [update_first].
  destruct (String.eqb_spec (item_id it) i) as [E|E].
  - exfalso. apply H. now left.
  - rewrite IH; [reflexivity|]. intros Hin. apply H. now right.
Qed.

(** X1. [update_item] for an id that is not in the hub changes nothing and
    does not fail: the update is dropped. *)
Theorem update_item_absent (i : string) (p : Z) (s : string) (w : World) :
  ~ In i (map item_id (queue_items w)) ->
  update_item i p s w = (Ok tt, w).
Proof.
  intros H. unfold update_item, modify.
  now rewrite (update_first_absent i p s _ H), set_queue_items_same.
Qed.

Lemma update_item_absent_witness :
  update_item "case-9" 50 "analyzing"
    (mkWorld [] [mkItem "case-1" "image" 0 30 "analyzing" "worker-1"] [] 0 0 0 [] [])
  = (Ok tt, mkWorld [] [mkItem "case-1" "image" 0 30 "analyzing" "worker-1"] [] 0 0 0 [] []).
Proof.
  apply (update_item_absent "case-9" 50 "analyzing"
           (mkWorld [] [mkItem "case-1" "image" 0 30 "analyzing" "worker-1"]
                    [] 0 0 0 [] [])).
  cbn. intros [H|H]; [discriminate H|exact H].
Defined.

(** X2. [update_item] rewrites the progress and the status of the first
    entry with the id and of no other entry: the entries before and after
    it, a later entry with the same id among them, and the other fields of
    the entry itself stay as they were. *)
Theorem update_item_first_match (it : QueueItem) (p : Z) (s : string)
        (before after : list QueueItem) (w : World) :
  queue_items w = (before ++ it :: after)%list ->
  ~ In (item_id it) (map item_id before) ->
  queue_items (snd (update_item (item_id it) p s w))
  = (before ++ mkItem (item_id it) (item_mediaType it) (item_submittedAt it) p s
                      (item_workerId it) :: after)%list.
Proof.
  intros Hq Hfresh. unfold update_item, modify. cbn [snd queue_items set_queue_items].
  rewrite Hq. clear Hq. induction before as [|b before IH]; cbn [app update_first].
  - now rewrite String.eqb_refl.
  - destruct (String.eqb_spec (item_id b) (item_id it)) as [E|E].
    + exfalso. apply Hfresh. now left.
    + rewrite IH; [reflexivity|]. intros Hin. apply Hfresh. now right.
Qed.

Lemma update_item_first_match_witness :
  let a := mkItem "case-1" "image" 0 30 "analyzing" "worker-1" in
  let b := mkItem "case-2" "audio" 5 20 "preprocessing" "worker-2" in
  queue_items (snd (update_item "case-2" 50 "analyzing"
                      (mkWorld [] [a; b; b] [] 0 0 0 [] [])))
  = [a; mkItem "case-2" "audio" 5 50 "analyzing" "worker-2"; b].
Proof.
  cbv zeta.
  apply (update_item_first_match
           (mkItem "case-2" "audio" 5 20 "preprocessing" "worker-2") 50 "analyzing"
           [mkItem "case-1" "image" 0 30 "analyzing" "worker-1"]
           [mkItem "case-2" "audio" 5 20 "preprocessing" "worker-2"]).
  - reflexivity.
  - cbn. intros [H|H]; [discriminate H|exact H].
Defined.

Lemma without_id_fresh (i : string) (q : list QueueItem) :
  ~ In i (map item_id q) -> without_id i q = q.
Proof.
  induction q as [|it q IH]; intros H; [reflexivity|]. unfold without_id in *.
  cbn [filter]. destruct (String.eqb_spec (item_id it) i) as [E|E]; cbn [negb].
  - exfalso. apply H. now left.
  - rewrite IH; [reflexivity|]. intros Hin. apply H. now right.
Qed.

Lemma without_id_In (i : string) (q : list QueueItem) (it : QueueItem) :
  In it (without_id i q) <-> In it q /\ item_id it <> i.
Proof.
  unfold without_id. rewrite filter_In, negb_true_iff.
  destruct (String.eqb_spec (item_id it) i); intuition congruence.
Qed.

(** X3. After [remove_item] no entry with the id is left, however many
    there were; the entries with another id are all kept; and it never
    fails, also when the id is absent. *)
Theorem remove_item_clears (i : string) (w : World) :
  fst (remove_item i w) = Ok tt
  /\ ~ In i (map item_id (queue_items (snd (remove_item i w))))
  /\ (forall it, In it (queue_items (snd (remove_item i w)))
                 <-> In it (queue_items w) /\ item_id it <> i)
  /\ queue_items (snd (remove_item i (snd (remove_item i w))))
     = queue_items (snd (remove_item i w)).
Proof.
  unfold remove_item, modify. cbn [fst snd queue_items set_queue_items].
  split; [reflexivity|]. split; [|split].
  - intros H. apply in_map_iff in H. destruct H as (it & E & Hin).
    apply without_id_In in Hin. tauto.
  - intros it. apply without_id_In.
  - apply without_id_fresh. intros H. apply in_map_iff in H.
    destruct H as (it & E & Hin). apply without_id_In in Hin. tauto.
Qed.

(** X4. Registering an entry whose id is new and removing it again gives
    back the world as it was. *)
Theorem add_then_remove (it : QueueItem) (w : World) :
  ~ In (item_id it) (map item_id (queue_items w)) ->
  (add_item it ;; remove_item (item_id it)) w = (Ok tt, w).
Proof.
  intros H. unfold bind, add_item, remove_item, modify.
  cbn [queue_items set_queue_items]. unfold without_id. rewrite filter_app.
  fold (without_id (item_id it) (queue_items w)).
  rewrite (without_id_fresh _ _ H). cbn [filter]. rewrite String.eqb_refl.
  cbn [negb]. rewrite app_nil_r. f_equal. now destruct w.
Qed.

Lemma add_then_remove_witness :
  let w := mkWorld [] [mkItem "case-1" "image" 0 30 "analyzing" "worker-1"] [] 0 0 0 [] [] in
  (add_item (mkItem "case-2" "audio" 5 0 "preprocessing" "worker-2") ;;
   remove_item "case-2") w = (Ok tt, w).
Proof.
  cbv zeta.
  apply (add_then_remove (mkItem "case-2" "audio" 5 0 "preprocessing" "worker-2")).
  cbn. intros [H|H]; [discriminate H|exact H].
Defined.

Lemma without_id_update (i : string) (p : Z) (s : string) (q : list QueueItem) :
  without_id i (update_first i p s q) = without_id i q.
Proof.
  induction q as [|it q IH]; [reflexivity|]. unfold without_id in *.
  cbn [update_first]. destruct (String.eqb_spec (item_id it) i) as [E|E].
  - cbn [filter item_id]. destruct (String.eqb_spec (item_id it) i); [reflexivity|contradiction].
  - cbn [filter]. destruct (String.eqb_spec (item_id it) i); [contradiction|].
    cbn [negb]. now rewrite IH.
Qed.

Lemma without_id_idem (i : string) (q : list QueueItem) :
  without_id i (without_id i q) = without_id i q.
Proof.
  apply without_id_fresh. intros H. apply in_map_iff in H.
  destruct H as (it & E & Hin). apply without_id_In in Hin. tauto.
Qed.

Lemma other_rows_write (c : Case) (rows : list Case) :
  other_rows (case_id c) (write_row c rows) = other_rows (case_id c) rows.
Proof.
  unfold other_rows, write_row. induction rows as [|r rows IH]; [reflexivity|].
  cbn [map filter]. destruct (String.eqb_spec (case_id r) (case_id c)) as [E|E].
  - rewrite String.eqb_refl. cbn [negb]. exact IH.
  - destruct (String.eqb_spec (case_id r) (case_id c)); [contradiction|].
    cbn [negb]. now rewrite IH.
Qed.

Section Others.

Variable env : Env.
Variable i : string.

Lemma others_utcnow : keeps (others i) (utcnow env).
Proof. intros w. reflexivity. Qed.

Lemma others_np_random : keeps (others i) (np_random env).
Proof. intros w. reflexivity. Qed.

Lemma others_update_item p s : keeps (others i) (update_item i p s).
Proof.
  intros w. unfold others, update_item, modify.
  cbn [snd queue_items set_queue_items db_ids db_cases active_connections].
  now rewrite without_id_update.
Qed.

Lemma others_remove_item : keeps (others i) (remove_item i).
Proof.
  intros w. unfold others, remove_item, modify.
  cbn [snd queue_items set_queue_items db_ids db_cases active_connections].
  now rewrite without_id_idem.
Qed.

Lemma others_broadcast_queue : keeps (others i) (broadcast_queue env).
Proof. intros w. now rewrite broadcast_queue_run. Qed.

Lemma others_db_commit c : case_id c = i -> keeps (others i) (db_commit c).
Proof.
  intros <- w. unfold others, db_commit, modify, db_ids.
  cbn [snd queue_items set_db_cases db_cases active_connections].
  now rewrite write_row_ids, other_rows_write.
Qed.

End Others.

Ltac others_step :=
  first [ keeps_step | apply others_utcnow | apply others_np_random
        | apply others_update_item | apply others_remove_item
        | apply others_broadcast_queue | apply others_db_commit; reflexivity ].

Lemma others_image_try env image0 case start_time :
  keeps (others (case_id case)) (detect_image_try env image0 case start_time).
Proof. unfold detect_image_try, image_inference. repeat others_step. Qed.

Lemma others_audio_try env audio_files case start_time :
  keeps (others (case_id case)) (detect_audio_try env audio_files case start_time).
Proof.
  unfold detect_audio_try, audio_similarity. repeat others_step.
  unfold load_audio. repeat others_step.
Qed.

Lemma others_video_try env video0 case start_time :
  keeps (others (case_id case)) (detect_video_try env video0 case start_time).
Proof.
  unfold detect_video_try, classify_frames. cbv zeta. repeat others_step.
  - unfold classify_frame. repeat others_step.
  - unfold mock_frame. repeat others_step.
Qed.

(** *** The end of a job *)

Lemma hoare_true {A} (P : World -> Prop) (c : M A) :
  hoare P c (fun _ _ => True) (fun _ => True).
Proof. intros w _. now destruct (c w) as [[a|e] w1]. Qed.

Lemma settled_after (env : Env) (c : Case) (w : World) :
  settled (case_id c) (status c)
          (snd (broadcast_queue env (snd (remove_item (case_id c) (snd (db_commit c w)))))).
Proof.
  rewrite broadcast_queue_run. unfold remove_item, db_commit, modify.
  cbn [snd queue_items db_cases set_queue_items set_db_cases]. split.
  - intros H. apply in_map_iff in H. destruct H as (it & E & Hin).
    apply without_id_In in Hin. tauto.
  - intros row Hin E. now rewrite (write_row_only c _ row Hin E).
Qed.

(** The last statements of a [try] block. *)
Lemma settle_return {A} (env : Env) (c : Case) (i : string) (r : A)
      (P E : World -> Prop) :
  case_id c = i -> status c = completed ->
  hoare P (db_commit c ;; remove_item i ;; broadcast_queue env ;; ret r)
        (fun _ => settled i completed) E.
Proof.
  intros <- Hst w _. unfold bind at 1 2. cbn [db_commit remove_item modify].
  unfold bind. rewrite broadcast_queue_run. cbn [ret].
  rewrite <- Hst.
  pose proof (settled_after env c w) as H. rewrite broadcast_queue_run in H. exact H.
Qed.

(** The [except] clauses. *)
Lemma settle_raise {A} (env : Env) (c : Case) (i detail : string)
      (P : World -> Prop) (Q : A -> World -> Prop) :
  case_id c = i -> status c = failed ->
  hoare P (db_commit c ;; remove_item i ;; broadcast_queue env ;;
           raise (HTTPException 500 detail))
        Q (settled i failed).
Proof.
  intros <- Hst w _. rewrite except_run. rewrite <- Hst. apply settled_after.
Qed.

(** Walks to the last statements of a [try] block. *)
Ltac settle :=
  lazymatch goal with
  | |- hoare _ (db_commit _ ;; remove_item _ ;; broadcast_queue _ ;; ret _) _ _ =>
      apply settle_return; reflexivity
  | |- hoare _ (if ?b then _ else _) _ _ => destruct b
  | |- hoare _ (match ?r with pair _ _ => _ end) _ _ => destruct r
  | |- hoare _ (raise _) _ _ => apply hoare_raise; intros; exact I
  | |- hoare _ (bind _ _) _ _ =>
      eapply hoare_bind; [apply hoare_true|intros; cbn beta]
  end.

Lemma settle_image_try env image0 case start_time :
  hoare (fun _ => True) (detect_image_try env image0 case start_time)
        (fun _ => settled (case_id case) completed) (fun _ => True).
Proof. unfold detect_image_try. cbv zeta. repeat settle. Qed.

Lemma settle_audio_try env audio_files case start_time :
  hoare (fun _ => True) (detect_audio_try env audio_files case start_time)
        (fun _ => settled (case_id case) completed) (fun _ => True).
Proof. unfold detect_audio_try. repeat settle. Qed.

Lemma settle_video_try env video0 case start_time :
  hoare (fun _ => True) (detect_video_try env video0 case start_time)
        (fun _ => settled (case_id case) completed) (fun _ => True).
Proof. unfold detect_video_try. cbv zeta. repeat settle. Qed.

Lemma except_settles (env : Env) (c : Case) (i detail : string) {A} (w : World) :
  case_id c = i -> status c = failed ->
  let run := (db_commit c ;; remove_item i ;; broadcast_queue env ;;
              @raise A (HTTPException 500 detail)) w in
  fst run = Raise (HTTPException 500 detail)
  /\ settled i failed (snd run)
  /\ others i (snd run) = others i w.
Proof.
  intros Hi Hst. cbv zeta. rewrite except_run. cbn [fst snd]. split; [reflexivity|].
  split.
  - subst i. rewrite <- Hst. apply settled_after.
  - assert (K : keeps (others i)
                  (db_commit c ;; remove_item i ;; broadcast_queue env ;;
                   @raise A (HTTPException 500 detail))).
    { repeat others_step. apply others_db_commit. exact Hi. }
    specialize (K w). rewrite except_run in K. exact K.
Qed.

Lemma started_others env mt kind filename0 w :
  ~ In (next_case_id env w) (map item_id (queue_items w)) ->
  others (next_case_id env w) (started env mt kind filename0 w)
  = (queue_items w, (db_ids w ++ [next_case_id env w])%list,
     other_rows (next_case_id env w) (db_cases w), active_connections w).
Proof.
  intros Hfresh. unfold others, started, db_ids. cbv zeta.
  cbn [queue_items db_cases active_connections].
  unfold without_id, other_rows. rewrite !filter_app, map_app.
  cbn [filter map queue_item_of item_id new_case case_id].
  rewrite String.eqb_refl. cbn [negb]. rewrite !app_nil_r.
  fold (without_id (next_case_id env w) (queue_items w)).
  now rewrite (without_id_fresh _ _ Hfresh).
Qed.

Lemma settled_job env mt kind filename0 w w' st :
  ~ In (next_case_id env w) (map item_id (queue_items w)) ->
  others (next_case_id env w) w'
  = others (next_case_id env w) (started env mt kind filename0 w) ->
  settled (next_case_id env w) st w' ->
  job_settled env w st w'.
Proof.
  intros Hfresh Ho [Hclean Hrows]. rewrite (started_others _ _ _ _ _ Hfresh) in Ho.
  unfold others in Ho. injection Ho as Hq Hids Hother Hconn.
  rewrite (without_id_fresh _ _ Hclean) in Hq.
  assert (Hin : In (next_case_id env w) (db_ids w')).
  { rewrite Hids. apply in_or_app. right. now left. }
  unfold db_ids in Hin. apply in_map_iff in Hin. destruct Hin as (row & E & Hin).
  split; [exact Hq|]. split; [exact Hids|]. split; [now exists row|].
  split; [exact Hrows|]. split; [exact Hother|exact Hconn].
Qed.

Lemma other_rows_fresh (i : string) (rows : list Case) :
  ~ In i (map case_id rows) -> other_rows i rows = rows.
Proof.
  induction rows as [|row rows IH]; intros H; [reflexivity|].
  cbn [other_rows filter map In] in *.
  destruct (String.eqb_spec (case_id row) i) as [E|E]; [tauto|].
  cbn [negb]. f_equal. apply IH. tauto.
Qed.

(** With an id that is new in the table, the row of the job is the one row
    that was added. *)
Lemma job_settled_recorded env w st w' :
  ~ In (next_case_id env w) (db_ids w) ->
  job_settled env w st w' -> recorded env w st w'.
Proof.
  intros Hnew (Hq & Hids & _ & Hst & Hother & Hconn).
  split; [exact Hq|]. split; [exact Hconn|].
  rewrite (other_rows_fresh _ (db_cases w) Hnew) in Hother.
  unfold db_ids in Hids.
  induction (db_cases w') as [|r0 rows' _] using rev_ind.
  { cbn in Hids. destruct (map case_id (db_cases w)); discriminate Hids. }
  rewrite map_app in Hids. cbn [map] in Hids.
  apply app_inj_tail in Hids. destruct Hids as [Hrows Hid].
  exists r0. split.
  - f_equal. rewrite <- Hother. unfold other_rows. rewrite filter_app.
    cbn [filter]. rewrite Hid, String.eqb_refl. cbn [negb]. rewrite app_nil_r.
    symmetry. apply (other_rows_fresh (next_case_id env w) rows').
    fold db_ids in Hnew. unfold db_ids in Hnew. now rewrite Hrows.
  - split; [exact Hid|]. apply Hst; [|exact Hid]. apply in_or_app. right. now left.
Qed.

(** A job that was started settles, however its [try] block ends. *)
Lemma started_job_settles {A} env mt kind filename0 (body : M A)
      (handler : exn -> M A) (w : World) :
  ~ In (next_case_id env w) (map item_id (queue_items w)) ->
  ~ In (next_case_id env w) (db_ids w) ->
  keeps (others (next_case_id env w)) body ->
  hoare (fun _ => True) body (fun _ => settled (next_case_id env w) completed)
        (fun _ => True) ->
  (forall e w1, exists d,
      fst (handler e w1) = Raise (HTTPException 500 d)
      /\ settled (next_case_id env w) failed (snd (handler e w1))
      /\ others (next_case_id env w) (snd (handler e w1))
         = others (next_case_id env w) w1) ->
  request_outcome env w
    (try_except body handler (started env mt kind filename0 w)).
Proof.
  intros Hfresh Hnew Hk Hs Hh. unfold try_except.
  specialize (Hk (started env mt kind filename0 w)).
  specialize (Hs (started env mt kind filename0 w) I).
  destruct (body (started env mt kind filename0 w)) as [[r|e] w1]; cbn [snd] in Hk.
  - right. left. exists r, w1. split; [reflexivity|].
    apply job_settled_recorded; [exact Hnew|].
    apply (settled_job env mt kind filename0); assumption.
  - right. right. destruct (Hh e w1) as (d & Hd & Hset & Ho).
    exists d, (snd (handler e w1)). split.
    + rewrite <- Hd. now destruct (handler e w1).
    + apply job_settled_recorded; [exact Hnew|].
      apply (settled_job env mt kind filename0); [exact Hfresh| |exact Hset].
      rewrite Ho. exact Hk.
Qed.

Lemma request_outcome_answered {A} env w (run : Result A * World) :
  request_outcome env w run -> answered env w run.
Proof.
  intros [(d & ->)|[(r & w' & -> & H)|(d & w' & -> & H)]]; cbn [fst snd];
    (split; [|split]); intros x E; try discriminate E.
  - reflexivity.
  - exact H.
  - exact H.
Qed.

(** X8. An image request for which the id of the new case is neither in
    the hub nor in the table has one of three outcomes. It is rejected with
    400 and leaves the world untouched; or it returns, and the table is
    the table as it was followed by one row, the row of the new case, with
    the status completed; or it fails with 500, and that row has the status
    failed. In the last two cases the entries of the hub and the subscriber
    list are exactly as they were before the request. *)
Theorem image_request_settles (env : Env) (image0 : UploadFile) (w : World) :
  ~ In (next_case_id env w) (map item_id (queue_items w)) ->
  ~ In (next_case_id env w) (db_ids w) ->
  request_outcome env w (detect_image_manipulation env image0 w).
Proof.
  intros Hfresh Hnew. unfold detect_image_manipulation. destruct (negb _).
  - left. eexists. reflexivity.
  - rewrite start_run. apply started_job_settles; [exact Hfresh|exact Hnew| | |].
    + match goal with
      | |- keeps _ (detect_image_try _ _ ?c _) => apply (others_image_try _ _ c)
      end.
    + match goal with
      | |- hoare _ (detect_image_try _ _ ?c _) _ _ => apply (settle_image_try _ _ c)
      end.
    + intros e w1. eexists. unfold detect_image_except.
      apply except_settles; reflexivity.
Qed.

(** X9. The same for an audio request: with an id that is new in the hub
    and in the table, it is rejected with 400 and leaves the world
    untouched, or returns and leaves one more row, completed, or fails with
    500 and leaves one more row, failed, the hub and the subscriber list
    being as before. *)
Theorem audio_request_settles (env : Env) (audio_files : list UploadFile) (w : World) :
  ~ In (next_case_id env w) (map item_id (queue_items w)) ->
  ~ In (next_case_id env w) (db_ids w) ->
  request_outcome env w (detect_audio_manipulation env audio_files w).
Proof.
  intros Hfresh Hnew. unfold detect_audio_manipulation. destruct (negb _).
  - left. eexists. reflexivity.
  - rewrite start_run. apply started_job_settles; [exact Hfresh|exact Hnew| | |].
    + match goal with
      | |- keeps _ (detect_audio_try _ _ ?c _) => apply (others_audio_try _ _ c)
      end.
    + match goal with
      | |- hoare _ (detect_audio_try _ _ ?c _) _ _ => apply (settle_audio_try _ _ c)
      end.
    + intros e w1. eexists. unfold detect_audio_except.
      apply except_settles; reflexivity.
Qed.

(** X10. What the video endpoint leaves behind when it answers, for an id
    of the new case that is neither in the hub nor in the table. When it
    answers 400 the world is untouched; when it returns, the table is the
    table as it was followed by the row of the new case, completed; when it
    answers 500, that row is failed; and in the last two cases the entries
    of the hub and the subscriber list are as before. (The code can also
    end with an exception of the temporary file, raised outside the [try]
    block: nothing is said about that.) *)
Theorem video_request_settles (env : Env) (video0 : UploadFile) (w : World) :
  ~ In (next_case_id env w) (map item_id (queue_items w)) ->
  ~ In (next_case_id env w) (db_ids w) ->
  answered env w (detect_video_manipulation env video0 w).
Proof.
  intros Hfresh Hnew. apply request_outcome_answered.
  unfold detect_video_manipulation. destruct (negb _).
  - left. eexists. reflexivity.
  - rewrite start_run. apply started_job_settles; [exact Hfresh|exact Hnew| | |].
    + match goal with
      | |- keeps _ (detect_video_try _ _ ?c _) => apply (others_video_try _ _ c)
      end.
    + match goal with
      | |- hoare _ (detect_video_try _ _ ?c _) _ _ => apply (settle_video_try _ _ c)
      end.
    + intros e w1. eexists. unfold detect_video_except.
      apply except_settles; reflexivity.
Qed.

Lemma image_request_settles_witness :
  let env := Scenario.env0 true (fun _ => false) (Returns (9 # 10))
                           ("Fake", 80%Q) (fun _ => true) in
  let w := mkWorld [1%nat] [mkItem "case-1a2b3c4d" "audio" 0 50 "analyzing" "worker-2"]
                   [mkCase "case-1a2b3c4d" audio analyzing 0 0 None "Processing..."
                           None None None None "worker-2" None "a.wav vs b.wav"]
                   0 0 0 [] [] in
  request_outcome env w (detect_image_manipulation env (mkUpload "a.png" "pix") w).
Proof.
  cbv zeta.
  apply (image_request_settles
           (Scenario.env0 true (fun _ => false) (Returns (9 # 10))
                          ("Fake", 80%Q) (fun _ => true))
           (mkUpload "a.png" "pix")
           (mkWorld [1%nat]
                    [mkItem "case-1a2b3c4d" "audio" 0 50 "analyzing" "worker-2"]
                    [mkCase "case-1a2b3c4d" audio analyzing 0 0 None "Processing..."
                            None None None None "worker-2" None "a.wav vs b.wav"]
                    0 0 0 [] [])).
  - vm_compute. intros [H|H]; [discriminate H|exact H].
  - vm_compute. intros [H|H]; [discriminate H|exact H].
Defined.

Lemma audio_request_settles_witness :
  let env := Scenario.env0 true (fun _ => false) (Returns (9 # 10))
                           ("Fake", 80%Q) (fun _ => true) in
  let w := mkWorld [1%nat] [mkItem "case-1a2b3c4d" "audio" 0 50 "analyzing" "worker-2"]
                   [mkCase "case-1a2b3c4d" audio analyzing 0 0 None "Processing..."
                           None None None None "worker-2" None "a.wav vs b.wav"]
                   0 0 0 [] [] in
  request_outcome env w
    (detect_audio_manipulation env [mkUpload "a.wav" "x"; mkUpload "b.txt" "y"] w).
Proof.
  cbv zeta.
  apply (audio_request_settles
           (Scenario.env0 true (fun _ => false) (Returns (9 # 10))
                          ("Fake", 80%Q) (fun _ => true))
           [mkUpload "a.wav" "x"; mkUpload "b.txt" "y"]
           (mkWorld [1%nat]
                    [mkItem "case-1a2b3c4d" "audio" 0 50 "analyzing" "worker-2"]
                    [mkCase "case-1a2b3c4d" audio analyzing 0 0 None "Processing..."
                            None None None None "worker-2" None "a.wav vs b.wav"]
                    0 0 0 [] [])).
  - vm_compute. intros [H|H]; [discriminate H|exact H].
  - vm_compute. intros [H|H]; [discriminate H|exact H].
Defined.

Lemma video_request_settles_witness :
  let env := Scenario.env0 true (fun _ => false) (Returns (9 # 10))
                           ("Fake", 80%Q) (fun _ => true) in
  let w := mkWorld [1%nat] [mkItem "case-1a2b3c4d" "audio" 0 50 "analyzing" "worker-2"]
                   [mkCase "case-1a2b3c4d" audio analyzing 0 0 None "Processing..."
                           None None None None "worker-2" None "a.wav vs b.wav"]
                   0 0 0 [] [] in
  answered env w (detect_video_manipulation env (mkUpload "v.mp4" "") w).
Proof.
  cbv zeta.
  apply (video_request_settles
           (Scenario.env0 true (fun _ => false) (Returns (9 # 10))
                          ("Fake", 80%Q) (fun _ => true))
           (mkUpload "v.mp4" "")
           (mkWorld [1%nat]
                    [mkItem "case-1a2b3c4d" "audio" 0 50 "analyzing" "worker-2"]
                    [mkCase "case-1a2b3c4d" audio analyzing 0 0 None "Processing..."
                            None None None None "worker-2" None "a.wav vs b.wav"]
                    0 0 0 [] [])).
  - vm_compute. intros [H|H]; [discriminate H|exact H].
  - vm_compute. intros [H|H]; [discriminate H|exact H].
Defined.

(** ** Subscribing and unsubscribing *)

Lemma existsb_eqb_In (x : WebSocket) (l : list WebSocket) :
  existsb (Nat.eqb x) l = true <-> In x l.
Proof.
  rewrite existsb_exists. split.
  - intros (y & Hy & E). apply Nat.eqb_eq in E. now subst.
  - intros H. exists x. split; [exact H|apply Nat.eqb_refl].
Qed.

Lemma remove_first_absent (x : WebSocket) (l : list WebSocket) :
  ~ In x l -> remove_first x l = l.
Proof.
  induction l as [|y l IH]; intros H; [reflexivity|]. cbn [remove_first].
  destruct (Nat.eqb_spec y x) as [E|E].
  - exfalso. apply H. now left.
  - rewrite IH; [reflexivity|]. intros Hin. apply H. now right.
Qed.

Lemma remove_first_app_fresh (x : WebSocket) (l : list WebSocket) :
  ~ In x l -> remove_first x (l ++ [x]) = l.
Proof.
  induction l as [|y l IH]; intros H; cbn [app remove_first].
  - now rewrite Nat.eqb_refl.
  - destruct (Nat.eqb_spec y x) as [E|E].
    + exfalso. apply H. now left.
    + rewrite IH; [reflexivity|]. intros Hin. apply H. now right.
Qed.

(** X5. [disconnect] of a socket that is not subscribed changes nothing,
    so a second [disconnect] of a socket that was subscribed once is
    harmless; and [disconnect] never fails. *)
Theorem disconnect_absent (websocket : WebSocket) (w : World) :
  ~ In websocket (active_connections w) ->
  disconnect websocket w = (Ok tt, w).
Proof.
  intros H. unfold disconnect, modify.
  destruct (existsb (Nat.eqb websocket) (active_connections w)) eqn:E; [|reflexivity].
  apply existsb_eqb_In in E. contradiction.
Qed.

Lemma disconnect_absent_witness :
  disconnect 7%nat (mkWorld [1; 2]%nat [] [] 0 0 0 [] [])
  = (Ok tt, mkWorld [1; 2]%nat [] [] 0 0 0 [] []).
Proof.
  apply (disconnect_absent 7%nat (mkWorld [1; 2]%nat [] [] 0 0 0 [] [])).
  cbn. intros [H|[H|H]]; [discriminate H|discriminate H|exact H].
Defined.

(** X6. A socket that subscribes gets the current snapshot as its first
    message and is added at the end of the subscriber list; when it then
    unsubscribes, the subscriber list is what it was before. *)
Theorem connect_then_disconnect (env : Env) (websocket : WebSocket) (w : World) :
  send_fails env websocket = false ->
  ~ In websocket (active_connections w) ->
  fst (connect env websocket w) = Ok tt
  /\ active_connections (snd (connect env websocket w))
     = (active_connections w ++ [websocket])%list
  /\ sent (snd (connect env websocket w))
     = (sent w ++ [(websocket, queue_items w)])%list
  /\ queue_items (snd (connect env websocket w)) = queue_items w
  /\ active_connections (snd ((connect env websocket ;; disconnect websocket) w))
     = active_connections w.
Proof.
  intros Hok Hfresh. unfold bind, connect, disconnect, modify, gets, send_json, bind.
  cbn [active_connections set_active_connections queue_items]. rewrite Hok.
  cbn [fst snd active_connections sent queue_items log_sent set_active_connections].
  repeat split.
  assert (E : existsb (Nat.eqb websocket) (active_connections w ++ [websocket]) = true).
  { apply existsb_eqb_In. apply in_or_app. right. now left. }
  rewrite E. cbn [active_connections snd set_active_connections].
  now apply remove_first_app_fresh.
Qed.

Lemma connect_then_disconnect_witness :
  let env := Scenario.env0 true (fun c => Nat.eqb c 1) (Returns (9 # 10))
                           ("Real", 80%Q) (fun _ => true) in
  let w := mkWorld [1; 2]%nat [mkItem "case-1" "image" 0 30 "analyzing" "worker-1"]
                   [] 0 0 0 [] [] in
  fst (connect env 3%nat w) = Ok tt
  /\ active_connections (snd (connect env 3%nat w)) = [1; 2; 3]%nat
  /\ sent (snd (connect env 3%nat w))
     = [(3%nat, [mkItem "case-1" "image" 0 30 "analyzing" "worker-1"])]
  /\ queue_items (snd (connect env 3%nat w)) = queue_items w
  /\ active_connections (snd ((connect env 3%nat ;; disconnect 3%nat) w)) = [1; 2]%nat.
Proof.
  cbv zeta.
  apply (connect_then_disconnect
           (Scenario.env0 true (fun c => Nat.eqb c 1) (Returns (9 # 10))
                          ("Real", 80%Q) (fun _ => true))
           3%nat
           (mkWorld [1; 2]%nat [mkItem "case-1" "image" 0 30 "analyzing" "worker-1"]
                    [] 0 0 0 [] [])).
  - reflexivity.
  - cbn. intros [H|[H|H]]; [discriminate H|discriminate H|exact H].
Defined.

(** X7. When the first send to a subscribing socket fails, [connect]
    raises, nothing is recorded as sent, and the socket is nevertheless in
    the subscriber list: it was appended before the send. *)
Theorem connect_failing_socket_stays (env : Env) (websocket : WebSocket) (w : World) :
  send_fails env websocket = true ->
  (exists e, fst (connect env websocket w) = Raise e)
  /\ In websocket (active_connections (snd (connect env websocket w)))
  /\ sent (snd (connect env websocket w)) = sent w.
Proof.
  intros Hfail. unfold connect, bind, modify, gets, send_json.
  cbn [active_connections set_active_connections queue_items]. rewrite Hfail.
  cbn [fst snd active_connections sent set_active_connections].
  split; [eexists; reflexivity|]. split; [|reflexivity].
  apply in_or_app. right. now left.
Qed.

Lemma connect_failing_socket_stays_witness :
  let env := Scenario.env0 true (fun c => Nat.eqb c 1) (Returns (9 # 10))
                           ("Real", 80%Q) (fun _ => true) in
  (exists e, fst (connect env 1%nat Scenario.w0) = Raise e)
  /\ In 1%nat (active_connections (snd (connect env 1%nat Scenario.w0)))
  /\ sent (snd (connect env 1%nat Scenario.w0)) = sent Scenario.w0.
Proof.
  cbv zeta.
  apply (connect_failing_socket_stays
           (Scenario.env0 true (fun c => Nat.eqb c 1) (Returns (9 # 10))
                          ("Real", 80%Q) (fun _ => true))
           1%nat Scenario.w0).
  reflexivity.
Defined.

Section Delivery.

Variable env : Env.
Variable conns : list WebSocket.
Variable s0 : list (list QueueItem).
Variable t0 : list (WebSocket * list QueueItem).

Let I := delivered_all env conns s0 t0.

Lemma deliver_silent {A} (c : M A) : keeps comm c -> hoare I c (fun _ => I) I.
Proof.
  intros Hc w Hw. specialize (Hc w). unfold comm in Hc.
  assert (Hw1 : I (snd (c w))).
  { injection Hc as Ha Hs Ht. unfold I, delivered_all in *. now rewrite Ha, Hs, Ht. }
  now destruct (c w) as [[a|e] w1].
Qed.

Lemma deliver_broadcast : hoare I (broadcast_queue env) (fun _ => I) I.
Proof.
  intros w [Ha (new & Hs & Ht)]. rewrite broadcast_queue_run.
  split; [exact Ha|]. exists (new ++ [queue_items w])%list.
  cbn [snapshots sent]. rewrite Hs, Ht, Ha, flat_map_app, <- !app_assoc.
  cbn [flat_map]. now rewrite app_nil_r.
Qed.

Lemma deliver_ret {A} (a : A) : hoare I (ret a) (fun _ => I) I.
Proof. apply hoare_ret. trivial. Qed.

Lemma deliver_raise {A} (e : exn) : hoare I (@raise A e) (fun _ => I) I.
Proof. apply hoare_raise. trivial. Qed.

Lemma deliver_for_fold {A S} (l : list A) (body : S -> A -> M S) :
  (forall s x, hoare I (body s x) (fun _ => I) I) ->
  forall s, hoare I (for_fold l s body) (fun _ => I) I.
Proof.
  intros Hb. induction l as [|x l IH]; intros s; cbn [for_fold].
  - apply deliver_ret.
  - eapply hoare_bind; [apply Hb|]. intros s'. apply IH.
Qed.

End Delivery.

Lemma comm_utcnow env : keeps comm (utcnow env).
Proof. intros w. reflexivity. Qed.

Lemma comm_np_random env : keeps comm (np_random env).
Proof. intros w. reflexivity. Qed.

Lemma comm_update_item i p s : keeps comm (update_item i p s).
Proof. intros w. reflexivity. Qed.

Lemma comm_remove_item i : keeps comm (remove_item i).
Proof. intros w. reflexivity. Qed.

Lemma comm_db_commit c : keeps comm (db_commit c).
Proof. intros w. reflexivity. Qed.

Ltac comm_step :=
  first [ apply comm_utcnow | apply comm_np_random | apply comm_update_item
        | apply comm_remove_item | apply comm_db_commit
        | apply keeps_ret | apply keeps_raise | apply keeps_external
        | apply keeps_truediv | apply keeps_frame_progress
        | lazymatch goal with
          | |- keeps _ (if ?b then _ else _) => destruct b
          end ].

(** Walks through a coroutine, one statement at a time. *)
Ltac deliver :=
  lazymatch goal with
  | |- hoare _ (broadcast_queue _) _ _ => apply deliver_broadcast
  | |- hoare _ (ret _) _ _ => apply deliver_ret
  | |- hoare _ (raise _) _ _ => apply deliver_raise
  | |- hoare _ (if ?b then _ else _) _ _ => destruct b
  | |- hoare _ (match ?r with pair _ _ => _ end) _ _ => destruct r
  | |- hoare _ (try_except _ _) _ _ => eapply hoare_try; [|intros]
  | |- hoare _ (for_fold _ _ _) _ _ => apply deliver_for_fold; intros
  | |- hoare _ (bind _ _) _ _ => eapply hoare_bind; [|intros; cbn beta]
  | |- hoare _ _ _ _ => apply deliver_silent; solve [repeat comm_step]
  end.

Lemma deliver_image env conns s0 t0 image0 case start_time :
  hoare (delivered_all env conns s0 t0)
        (try_except (detect_image_try env image0 case start_time)
                    (detect_image_except env case))
        (fun _ => delivered_all env conns s0 t0) (delivered_all env conns s0 t0).
Proof.
  unfold detect_image_try, detect_image_except, image_inference. cbv zeta.
  repeat deliver.
Qed.

Lemma deliver_audio env conns s0 t0 audio_files case start_time :
  hoare (delivered_all env conns s0 t0)
        (try_except (detect_audio_try env audio_files case start_time)
                    (detect_audio_except env case))
        (fun _ => delivered_all env conns s0 t0) (delivered_all env conns s0 t0).
Proof.
  unfold detect_audio_try, detect_audio_except, audio_similarity, load_audio.
  repeat deliver.
Qed.

Lemma deliver_video env conns s0 t0 video0 case start_time :
  hoare (delivered_all env conns s0 t0)
        (try_except (detect_video_try env video0 case start_time)
                    (detect_video_except env case))
        (fun _ => delivered_all env conns s0 t0) (delivered_all env conns s0 t0).
Proof.
  unfold detect_video_try, detect_video_except, classify_frames, classify_frame,
    mock_frame. cbv zeta.
  repeat deliver.
Qed.

Lemma delivered_refl env w :
  delivered_all env (active_connections w) (snapshots w) (sent w) w.
Proof.
  split; [reflexivity|]. exists []. now rewrite !app_nil_r.
Qed.

Lemma started_delivered env mt kind filename0 w :
  delivered_all env (active_connections w) (snapshots w) (sent w)
                (started env mt kind filename0 w).
Proof.
  split; [reflexivity|]. unfold started. cbv zeta. eexists [_].
  cbn [snapshots sent flat_map]. now rewrite app_nil_r.
Qed.

(** X11. Whatever a request does, every snapshot it broadcasts goes to
    every subscriber whose socket accepts messages, in the order of the
    broadcasts and of the subscriber list; nothing else is sent, and the
    subscriber list is not changed. *)
Theorem requests_deliver_every_snapshot (env : Env) (w : World) :
  (forall image0,
      delivered_all env (active_connections w) (snapshots w) (sent w)
                    (snd (detect_image_manipulation env image0 w)))
  /\ (forall audio_files,
      delivered_all env (active_connections w) (snapshots w) (sent w)
                    (snd (detect_audio_manipulation env audio_files w)))
  /\ (forall video0,
      delivered_all env (active_connections w) (snapshots w) (sent w)
                    (snd (detect_video_manipulation env video0 w))).
Proof.
  split; [|split].
  - intros image0. unfold detect_image_manipulation.
    destruct (negb _); [apply delivered_refl|]. rewrite start_run.
    apply (hoare_run (delivered_all env (active_connections w) (snapshots w) (sent w)));
      [apply deliver_image|apply started_delivered].
  - intros audio_files. unfold detect_audio_manipulation.
    destruct (negb _); [apply delivered_refl|]. rewrite start_run.
    apply (hoare_run (delivered_all env (active_connections w) (snapshots w) (sent w)));
      [apply deliver_audio|apply started_delivered].
  - intros video0. unfold detect_video_manipulation.
    destruct (negb _); [apply delivered_refl|]. rewrite start_run.
    apply (hoare_run (delivered_all env (active_connections w) (snapshots w) (sent w)));
      [apply deliver_video|apply started_delivered].
Qed.

(** ** The image decision *)

Lemma image_inference_inv (env : Env) (pil : string) (wa wb : World)
      (label : string) (conf : Q) (is_fake : bool) :
  image_inference env pil wa = (Ok (label, conf, is_fake), wb) ->
  if models_loaded env
  then classify env pil = Returns (label, conf)
       /\ is_fake = PyStr.mem (PyStr.lower label) ["fake"; "deepfake"; "manipulated"]
  else is_fake = Qgtb (rand env (rand_calls wa)) (4 # 10)
       /\ label = (if is_fake then "Fake" else "Real")
       /\ conf = (if is_fake
                  then PyNum.uniform 60 95 (rand env (S (rand_calls wa)))
                  else PyNum.uniform 10 40 (rand env (S (rand_calls wa)))).
Proof.
  unfold image_inference. destruct (models_loaded env).
  - unfold bind, external. destruct (classify env pil) as [[l c]|msg]; [|discriminate].
    unfold ret. intros H. injection H as <- <- <- _. split; reflexivity.
  - unfold bind, np_random, ret. cbn [rand_calls tick_rand].
    intros H. injection H as <- <- <- _. repeat split.
Qed.

Lemma detect_image_success (env : Env) (image0 : UploadFile) (w w' : World)
      (r : ImageResponse) :
  detect_image_manipulation env image0 w = (Ok r, w') ->
  exists case pil wa wb label conf is_fake jitter now1 now2 start_time,
    case_id case = next_case_id env w
    /\ Image_open env (upload_content image0) = Returns pil
    /\ image_inference env pil wa = (Ok (label, conf, is_fake), wb)
    /\ r = mkImageResponse (case_id case) (upload_filename image0) label is_fake
             (PyNum.round conf 2)
             (verdict (image_case case is_fake conf jitter
                         (generate_explanation is_fake conf "image")
                         now1 now2 start_time))
             (generate_explanation is_fake conf "image")
    /\ In (image_case case is_fake conf jitter
             (generate_explanation is_fake conf "image") now1 now2 start_time)
          (db_cases w').
Proof.
  unfold detect_image_manipulation. destruct (negb _); [discriminate|].
  rewrite start_run. intros H.
  apply try_except_Ok_inv in H.
  2:{ intros e w1. unfold detect_image_except. rewrite except_run. discriminate. }
  match type of H with
  | detect_image_try _ _ ?c _ ?w0 = _ =>
      set (case := c) in *; assert (Hid : In (case_id case) (db_ids w0))
  end.
  { rewrite started_ids. apply in_or_app. right. now left. }
  unfold detect_image_try in H.
  run_inv H. rename a into pil.
  assert (Hopen : Image_open env (upload_content image0) = Returns pil).
  { unfold external in Hrun. destruct (Image_open env (upload_content image0));
      [injection Hrun as -> _; reflexivity|discriminate]. }
  apply (keeps_run db_ids) in Hrun; [|repeat ids_step].
  rewrite <- Hrun in Hid. clear Hrun.
  run_inv H. apply (keeps_run db_ids) in Hrun; [|repeat ids_step].
  rewrite <- Hrun in Hid. clear Hrun.
  run_inv H. apply (keeps_run db_ids) in Hrun; [|repeat ids_step].
  rewrite <- Hrun in Hid. clear Hrun.
  run_inv H. destruct a1 as [[label conf] is_fake].
  pose proof Hrun as Hinf.
  apply (keeps_run db_ids) in Hrun; [|unfold image_inference; repeat ids_step].
  rewrite <- Hrun in Hid. clear Hrun.
  do 4 (run_inv H; apply (keeps_run db_ids) in Hrun; [|repeat ids_step];
        rewrite <- Hrun in Hid; clear Hrun).
  run_inv H. rename a5 into jitter.
  apply (keeps_run db_ids) in Hrun; [|repeat ids_step]. rewrite <- Hrun in Hid. clear Hrun.
  run_inv H. rename a5 into now1.
  apply (keeps_run db_ids) in Hrun; [|repeat ids_step]. rewrite <- Hrun in Hid. clear Hrun.
  run_inv H. rename a5 into now2.
  apply (keeps_run db_ids) in Hrun; [|repeat ids_step]. rewrite <- Hrun in Hid. clear Hrun.
  run_inv H. unfold db_commit, modify in Hrun. injection Hrun as _ E. subst.
  run_inv H. apply (keeps_run db_cases) in Hrun; [|intros ?; reflexivity].
  run_inv H. apply (keeps_run db_cases) in Hrun0;
    [|intros ?; now rewrite broadcast_queue_run].
  injection H as <- <-.
  exists case, pil. do 2 eexists. exists label, conf, is_fake, jitter, now1, now2.
  eexists. split; [reflexivity|]. split; [exact Hopen|]. split; [exact Hinf|].
  split; [reflexivity|].
  rewrite Hrun0, Hrun. cbn [db_cases set_db_cases]. apply write_row_In.
  unfold image_case; cbn [case_id]. exact Hid.
Qed.

(** X12. When the image endpoint returns with the networks loaded, the
    image is reported as manipulated exactly when the label the network
    predicts is, in lower case, fake, deepfake or manipulated; there is no
    threshold on the confidence. The confidence in the answer and in the
    committed case is the one of the predicted label, rounded to two and to
    one decimal, and the verdict is that confidence without decimals
    followed by "% Likely Manipulated" or "% Likely Authentic". *)
Theorem image_decision (env : Env) (image0 : UploadFile) (w w' : World)
        (r : ImageResponse) :
  detect_image_manipulation env image0 w = (Ok r, w') ->
  models_loaded env = true ->
  exists pil conf row,
    Image_open env (upload_content image0) = Returns pil
    /\ classify env pil = Returns (ir_predicted_label r, conf)
    /\ ir_is_fake r
       = PyStr.mem (PyStr.lower (ir_predicted_label r))
                   ["fake"; "deepfake"; "manipulated"]
    /\ ir_confidence r = PyNum.round conf 2
    /\ ir_verdict r
       = PyNum.format_f 0 conf ++ "% Likely "
         ++ (if ir_is_fake r then "Manipulated" else "Authentic")
    /\ In row (db_cases w')
    /\ case_id row = ir_caseId r
    /\ case_id row = next_case_id env w
    /\ status row = completed
    /\ confidence row = PyNum.round conf 1
    /\ verdict row = ir_verdict r
    /\ explanation row = Some (ir_explanation r).
Proof.
  intros H Hl. apply detect_image_success in H.
  destruct H as (case & pil & wa & wb & label & conf & is_fake & jitter & n1 & n2
                 & t0 & Hid & Hopen & Hinf & -> & Hin).
  apply image_inference_inv in Hinf. rewrite Hl in Hinf. destruct Hinf as [Hc Hf].
  exists pil, conf. eexists. split; [exact Hopen|]. split; [exact Hc|].
  split; [exact Hf|]. split; [reflexivity|]. split; [reflexivity|].
  split; [exact Hin|]. repeat split. exact Hid.
Qed.

Lemma image_decision_witness :
  let env := Scenario.env0 true (fun _ => false) (Returns (9 # 10))
                           ("Manipulated", 55%Q) (fun _ => true) in
  let r := mkImageResponse "case-00000000" "a.png" "Manipulated" true 55
             "55% Likely Manipulated" (generate_explanation true 55 "image") in
  let w' := snd (detect_image_manipulation env (mkUpload "a.png" "pix") Scenario.w0) in
  exists pil conf row,
    Image_open env "pix" = Returns pil
    /\ classify env pil = Returns (ir_predicted_label r, conf)
    /\ ir_is_fake r
       = PyStr.mem (PyStr.lower (ir_predicted_label r))
                   ["fake"; "deepfake"; "manipulated"]
    /\ ir_confidence r = PyNum.round conf 2
    /\ ir_verdict r
       = PyNum.format_f 0 conf ++ "% Likely "
         ++ (if ir_is_fake r then "Manipulated" else "Authentic")
    /\ In row (db_cases w')
    /\ case_id row = ir_caseId r
    /\ case_id row = next_case_id env Scenario.w0
    /\ status row = completed
    /\ confidence row = PyNum.round conf 1
    /\ verdict row = ir_verdict r
    /\ explanation row = Some (ir_explanation r).
Proof.
  cbv zeta.
  apply (image_decision
           (Scenario.env0 true (fun _ => false) (Returns (9 # 10))
                          ("Manipulated", 55%Q) (fun _ => true))
           (mkUpload "a.png" "pix") Scenario.w0).
  - vm_compute. reflexivity.
  - reflexivity.
Defined.

(** X13. Without the networks the image endpoint draws its answer: fake
    exactly when the first draw exceeds 0.4; a fake answer has the label
    "Fake" and a confidence from 60 up to 95, an authentic one the label
    "Real" and a confidence from 10 up to 40. *)
Theorem image_mock_ranges (env : Env) (pil : string) (wa wb : World)
        (label : string) (conf : Q) (is_fake : bool) :
  models_loaded env = false ->
  (forall n, (0 <= rand env n)%Q /\ (rand env n < 1)%Q) ->
  image_inference env pil wa = (Ok (label, conf, is_fake), wb) ->
  (is_fake = true <-> (4 # 10 < rand env (rand_calls wa))%Q)
  /\ (is_fake = true -> label = "Fake" /\ (60 <= conf)%Q /\ (conf < 95)%Q)
  /\ (is_fake = false -> label = "Real" /\ (10 <= conf)%Q /\ (conf < 40)%Q).
Proof.
  intros Hl Hr H. apply image_inference_inv in H. rewrite Hl in H.
  destruct H as (Hf & Hlab & Hc).
  destruct (Hr (S (rand_calls wa))) as [H0 H1].
  split; [rewrite Hf; apply Qgtb_iff|]. split.
  - intros E. rewrite E in Hlab, Hc. subst label conf. split; [reflexivity|].
    destruct (uniform_range 60 95 _ ltac:(lra) H0 H1) as [Ha Hb].
    split; [exact Ha|apply Hb; lra].
  - intros E. rewrite E in Hlab, Hc. subst label conf. split; [reflexivity|].
    destruct (uniform_range 10 40 _ ltac:(lra) H0 H1) as [Ha Hb].
    split; [exact Ha|apply Hb; lra].
Qed.

Lemma image_mock_ranges_witness :
  let env := Scenario.env0 false (fun _ => false) (Returns (9 # 10))
                           ("Real", 80%Q) (fun _ => true) in
  (true = true <-> (4 # 10 < rand env (rand_calls Scenario.w0))%Q)
  /\ (true = true -> "Fake" = "Fake" /\ (60 <= 155 # 2)%Q /\ (155 # 2 < 95)%Q)
  /\ (true = false -> "Fake" = "Real" /\ (10 <= 155 # 2)%Q /\ (155 # 2 < 40)%Q).
Proof.
  cbv zeta.
  apply (image_mock_ranges
           (Scenario.env0 false (fun _ => false) (Returns (9 # 10))
                          ("Real", 80%Q) (fun _ => true))
           "pix" Scenario.w0
           (snd (image_inference
                   (Scenario.env0 false (fun _ => false) (Returns (9 # 10))
                                  ("Real", 80%Q) (fun _ => true))
                   "pix" Scenario.w0))).
  - reflexivity.
  - intros n. cbn. split; [discriminate|reflexivity].
  - vm_compute. reflexivity.
Defined.

(** X14. When the audio endpoint returns, the similarity behind its
    answer is, with the networks loaded, what the speaker network gives for
    the decoded waveforms of the first and of the second file, in this
    order; without the networks it is a draw from 0.5 up to 0.98, whatever
    the files hold. The answer reports this similarity rounded to four
    decimals, and reports the same speaker exactly when it is at least the
    float 0.86. *)
Theorem audio_similarity_source (env : Env) (audio_files : list UploadFile)
        (w w' : World) (r : AudioResponse) :
  (forall n, (0 <= rand env n)%Q /\ (rand env n < 1)%Q) ->
  detect_audio_manipulation env audio_files w = (Ok r, w') ->
  exists a b x y s,
    audio_files = [a; b]
    /\ librosa_load env (upload_content a) = Returns x
    /\ librosa_load env (upload_content b) = Returns y
    /\ ar_similarity_score r = PyNum.round s 4
    /\ ar_is_same_speaker r = Qle_bool (PyNum.fl (86 # 100)) s
    /\ (models_loaded env = true -> speaker_similarity env [x; y] = Returns s)
    /\ (models_loaded env = false -> (5 # 10 <= s)%Q /\ (s < 98 # 100)%Q).
Proof.
  intros Hrand H. apply detect_audio_success in H.
  destruct H as (case & a & b & x & y & s & wa & wb & _ & _ & _
                 & _ & -> & Hx & Hy & Hs & -> & _).
  exists a, b, x, y, s. split; [reflexivity|]. split; [exact Hx|].
  split; [exact Hy|]. split; [reflexivity|]. split; [reflexivity|].
  apply audio_similarity_inv in Hs. split; intros Hl; rewrite Hl in Hs.
  - exact Hs.
  - subst s. destruct (Hrand (rand_calls wa)) as [H0 H1].
    destruct (uniform_range (5 # 10) (98 # 100) _ ltac:(lra) H0 H1) as [Ha Hb].
    split; [exact Ha|apply Hb; lra].
Qed.

Lemma audio_similarity_source_witness :
  let env := Scenario.env0 false (fun _ => false) (Returns (9 # 10))
                           ("Real", 80%Q) (fun _ => true) in
  let r := audio_response (new_case env audio "a.wav vs b.mp3" Scenario.w0)
                          (14800 # 20000) in
  exists a b x y s,
    [mkUpload "a.wav" "x"; mkUpload "b.mp3" "y"] = [a; b]
    /\ librosa_load env (upload_content a) = Returns x
    /\ librosa_load env (upload_content b) = Returns y
    /\ ar_similarity_score r = PyNum.round s 4
    /\ ar_is_same_speaker r = Qle_bool (PyNum.fl (86 # 100)) s
    /\ (models_loaded env = true -> speaker_similarity env [x; y] = Returns s)
    /\ (models_loaded env = false -> (5 # 10 <= s)%Q /\ (s < 98 # 100)%Q).
Proof.
  cbv zeta.
  apply (audio_similarity_source
           (Scenario.env0 false (fun _ => false) (Returns (9 # 10))
                          ("Real", 80%Q) (fun _ => true))
           [mkUpload "a.wav" "x"; mkUpload "b.mp3" "y"] Scenario.w0
           (snd (detect_audio_manipulation
                   (Scenario.env0 false (fun _ => false) (Returns (9 # 10))
                                  ("Real", 80%Q) (fun _ => true))
                   [mkUpload "a.wav" "x"; mkUpload "b.mp3" "y"] Scenario.w0))).
  - intros n. cbn. split; [discriminate|reflexivity].
  - vm_compute. reflexivity.
Defined.

(** X15. The audio endpoint passes its same-speaker flag where
    [generate_explanation] expects the fake flag. So when the two files
    are found to be the same speaker the explanation is the one about
    voice manipulation, quoting as confidence the float product of the
    similarity and 100 with one decimal; when they are found different it
    is the one about authentic content, quoting the float difference of
    100 and that product. The similarity is the one the comparator gave
    for the decoded waveforms of the two files. *)
Theorem audio_explanation (env : Env) (audio_files : list UploadFile)
        (w w' : World) (r : AudioResponse) :
  detect_audio_manipulation env audio_files w = (Ok r, w') ->
  exists a b x y wa wb s,
    audio_files = [a; b]
    /\ librosa_load env (upload_content a) = Returns x
    /\ librosa_load env (upload_content b) = Returns y
    /\ audio_similarity env [x; y] wa = (Ok s, wb)
    /\ (ar_is_same_speaker r = true ->
        ar_explanation r
        = "Audio analysis detected voice manipulation with "
          ++ PyNum.format_f 1 (PyNum.fl (s * 100))
          ++ "% confidence. Spectral analysis reveals artifacts consistent with voice cloning or synthesis technology.")
    /\ (ar_is_same_speaker r = false ->
        ar_explanation r
        = "Analysis found no significant manipulation indicators. The content appears authentic with "
          ++ PyNum.format_f 1 (PyNum.fl (100 - PyNum.fl (s * 100)))
          ++ "% confidence.").
Proof.
  intros H. apply detect_audio_success in H.
  destruct H as (case & a & b & x & y & s & wa & wb & _ & _ & _
                 & _ & -> & Hx & Hy & Hs & -> & _).
  exists a, b, x, y, wa, wb, s. split; [reflexivity|]. split; [exact Hx|].
  split; [exact Hy|]. split; [exact Hs|].
  cbn [audio_response ar_is_same_speaker ar_explanation].
  unfold generate_explanation, audio_confidence.
  split; intros E; rewrite E; reflexivity.
Qed.

Lemma audio_explanation_witness :
  let env := Scenario.env0 true (fun _ => false) (Returns (PyNum.fl (9 # 10)))
                           ("Real", 80%Q) (fun _ => true) in
  let r := audio_response (new_case env audio "a.wav vs b.mp3" Scenario.w0)
                          (PyNum.fl (9 # 10)) in
  exists a b x y wa wb s,
    [mkUpload "a.wav" "x"; mkUpload "b.mp3" "y"] = [a; b]
    /\ librosa_load env (upload_content a) = Returns x
    /\ librosa_load env (upload_content b) = Returns y
    /\ audio_similarity env [x; y] wa = (Ok s, wb)
    /\ (ar_is_same_speaker r = true ->
        ar_explanation r
        = "Audio analysis detected voice manipulation with "
          ++ PyNum.format_f 1 (PyNum.fl (s * 100))
          ++ "% confidence. Spectral analysis reveals artifacts consistent with voice cloning or synthesis technology.")
    /\ (ar_is_same_speaker r = false ->
        ar_explanation r
        = "Analysis found no significant manipulation indicators. The content appears authentic with "
          ++ PyNum.format_f 1 (PyNum.fl (100 - PyNum.fl (s * 100)))
          ++ "% confidence.").
Proof.
  cbv zeta.
  apply (audio_explanation
           (Scenario.env0 true (fun _ => false) (Returns (PyNum.fl (9 # 10)))
                          ("Real", 80%Q) (fun _ => true))
           [mkUpload "a.wav" "x"; mkUpload "b.mp3" "y"] Scenario.w0
           (snd (detect_audio_manipulation
                   (Scenario.env0 true (fun _ => false) (Returns (PyNum.fl (9 # 10)))
                                  ("Real", 80%Q) (fun _ => true))
                   [mkUpload "a.wav" "x"; mkUpload "b.mp3" "y"] Scenario.w0))).
  vm_compute. reflexivity.
Defined.

(** ** The frames of a video *)

Lemma read_frames_length env temp_file indices :
  List.length (read_frames env temp_file indices)
  = List.length (filter (frame_readable env temp_file) indices).
Proof.
  unfold read_frames, frame_readable. induction indices as [|i l IH]; [reflexivity|].
  cbn [flat_map filter]. destruct (video_read env temp_file i); cbn; now rewrite ?IH.
Qed.

Lemma for_fold_length {A B C} (body : list B * C -> A -> M (list B * C)) (l : list A) :
  (forall s x w s' w', body s x w = (Ok s', w') ->
                       List.length (fst s') = S (List.length (fst s))) ->
  forall s w s' w', for_fold l s body w = (Ok s', w') ->
                    List.length (fst s') = (List.length (fst s) + List.length l)%nat.
Proof.
  intros Hb. induction l as [|x l IH]; intros s w s' w' H; cbn [for_fold] in H.
  - injection H as <- _. cbn. lia.
  - run_inv H. apply IH in H. apply Hb in Hrun. cbn [List.length]. lia.
Qed.

Lemma classify_frames_length env case frames w results fake_confidences w' :
  classify_frames env case frames w = (Ok (results, fake_confidences), w') ->
  List.length results = List.length frames.
Proof.
  unfold classify_frames. intros H. destruct (models_loaded env).
  - apply for_fold_length in H.
    + cbn [fst List.length] in H. rewrite H. unfold enumerate.
      rewrite length_combine, length_seq. lia.
    + clear. intros s x w s' w' H. unfold classify_frame in H.
      run_inv H. destruct a as [label conf]. do 3 run_inv H.
      injection H as <- _. cbn [fst]. rewrite length_app. cbn. lia.
  - apply for_fold_length in H.
    + cbn [fst List.length] in H. exact H.
    + clear. intros s x w s' w' H. unfold mock_frame in H.
      do 2 run_inv H. injection H as <- _. cbn [fst]. rewrite length_app. cbn. lia.
Qed.

Lemma detect_video_frames (env : Env) (video0 : UploadFile) (w w' : World)
      (r : VideoResponse) :
  detect_video_manipulation env video0 w = (Ok r, w') ->
  exists temp_file,
    copyfileobj env (upload_content video0) = Returns temp_file
    /\ vr_frames_analyzed r
       = List.length (read_frames env temp_file
                        (frame_indices (video_frame_count env temp_file)))
    /\ List.length (vr_frame_details r) = vr_frames_analyzed r
    /\ vr_duration_sec r
       = PyNum.round (duration_of (inject_Z (video_frame_count env temp_file))
                                  (video_fps env temp_file)) 2
    /\ vr_filename r = upload_filename video0
    /\ vr_caseId r = next_case_id env w.
Proof.
  unfold detect_video_manipulation. destruct (negb _); [discriminate|].
  rewrite start_run. intros H.
  apply try_except_Ok_inv in H.
  2:{ intros e w1. unfold detect_video_except. rewrite except_run. discriminate. }
  unfold detect_video_try in H. cbv zeta in H.
  run_inv H. rename a into temp_file. exists temp_file.
  assert (Hcopy : copyfileobj env (upload_content video0) = Returns temp_file).
  { unfold external in Hrun. destruct (copyfileobj env (upload_content video0));
      [injection Hrun as -> _; reflexivity|discriminate]. }
  split; [exact Hcopy|]. clear Hrun.
  do 2 run_inv H. run_inv H. rename a1 into duration.
  rewrite duration_run in Hrun1. injection Hrun1 as <- _.
  do 2 run_inv H. run_inv H. destruct a3 as [results fake_confidences].
  apply classify_frames_length in Hrun3.
  do 11 run_inv H. injection H as <- _.
  cbn [vr_frames_analyzed vr_frame_details vr_duration_sec vr_filename vr_caseId].
  repeat split. exact Hrun3.
Qed.

Lemma frame_indices_length total : List.length (frame_indices total) = 8%nat.
Proof. reflexivity. Qed.

(** X16. When the video endpoint returns, the number of frames it reports
    as analysed is the number of the 8 sampled positions at which a frame
    could be read, so at most 8, and the answer has one frame detail per
    analysed frame. *)
Theorem video_frames_analyzed (env : Env) (video0 : UploadFile) (w w' : World)
        (r : VideoResponse) :
  detect_video_manipulation env video0 w = (Ok r, w') ->
  exists temp_file,
    copyfileobj env (upload_content video0) = Returns temp_file
    /\ vr_frames_analyzed r
       = List.length (filter (frame_readable env temp_file)
                             (frame_indices (video_frame_count env temp_file)))
    /\ (vr_frames_analyzed r <= 8)%nat
    /\ List.length (vr_frame_details r) = vr_frames_analyzed r.
Proof.
  intros H. apply detect_video_frames in H.
  destruct H as (temp_file & Hcopy & Hn & Hd & _). exists temp_file.
  rewrite read_frames_length in Hn. split; [exact Hcopy|]. split; [exact Hn|].
  split; [|exact Hd]. rewrite Hn.
  etransitivity; [apply filter_length_le|]. now rewrite frame_indices_length.
Qed.

Lemma video_frames_analyzed_witness :
  let env := Scenario.env0 true (fun _ => false) (Returns (9 # 10))
                           ("Fake", 80%Q) (fun _ => true) in
  let r := mkVideoResponse "case-00000000" "v.mp4" (2 # 5) 8 true 80
             "80% Likely Manipulated" (generate_explanation true 80 "video")
             (repeat ("Fake", 80%Q) 8) in
  exists temp_file,
    copyfileobj env "0123456789" = Returns temp_file
    /\ vr_frames_analyzed r
       = List.length (filter (frame_readable env temp_file)
                             (frame_indices (video_frame_count env temp_file)))
    /\ (vr_frames_analyzed r <= 8)%nat
    /\ List.length (vr_frame_details r) = vr_frames_analyzed r.
Proof.
  cbv zeta.
  apply (video_frames_analyzed
           (Scenario.env0 true (fun _ => false) (Returns (9 # 10))
                          ("Fake", 80%Q) (fun _ => true))
           (mkUpload "v.mp4" "0123456789") Scenario.w0
           (snd (detect_video_manipulation
                   (Scenario.env0 true (fun _ => false) (Returns (9 # 10))
                                  ("Fake", 80%Q) (fun _ => true))
                   (mkUpload "v.mp4" "0123456789") Scenario.w0))).
  vm_compute. reflexivity.
Defined.

(** X17. The duration the video endpoint reports is the float quotient
    of the number of frames and the frame rate, rounded to two decimals,
    and 0 when the frame rate is not positive: an unreported frame rate
    gives the duration 0, not an error. *)
Theorem video_duration (env : Env) (video0 : UploadFile) (w w' : World)
        (r : VideoResponse) :
  detect_video_manipulation env video0 w = (Ok r, w') ->
  exists temp_file,
    copyfileobj env (upload_content video0) = Returns temp_file
    /\ ((0 < video_fps env temp_file)%Q ->
        vr_duration_sec r
        = PyNum.round (PyNum.fl (inject_Z (video_frame_count env temp_file)
                                 / video_fps env temp_file)) 2)
    /\ ((video_fps env temp_file <= 0)%Q -> vr_duration_sec r = 0%Q).
Proof.
  intros H. apply detect_video_frames in H.
  destruct H as (temp_file & Hcopy & _ & _ & Hd & _). exists temp_file.
  split; [exact Hcopy|]. rewrite Hd. unfold duration_of. split.
  - intros Hpos. apply Qgtb_iff in Hpos. now rewrite Hpos.
  - intros Hle. destruct (Qgtb (video_fps env temp_file) 0) eqn:E; [|reflexivity].
    apply Qgtb_iff in E. exfalso. exact (Qlt_not_le _ _ E Hle).
Qed.

Lemma video_duration_witness :
  let env := Scenario.env0 true (fun _ => false) (Returns (9 # 10))
                           ("Fake", 80%Q) (fun _ => true) in
  let r := mkVideoResponse "case-00000000" "v.mp4" (2 # 5) 8 true 80
             "80% Likely Manipulated" (generate_explanation true 80 "video")
             (repeat ("Fake", 80%Q) 8) in
  exists temp_file,
    copyfileobj env "0123456789" = Returns temp_file
    /\ ((0 < video_fps env temp_file)%Q ->
        vr_duration_sec r
        = PyNum.round (PyNum.fl (inject_Z (video_frame_count env temp_file)
                                 / video_fps env temp_file)) 2)
    /\ ((video_fps env temp_file <= 0)%Q -> vr_duration_sec r = 0%Q).
Proof.
  cbv zeta.
  apply (video_duration
           (Scenario.env0 true (fun _ => false) (Returns (9 # 10))
                          ("Fake", 80%Q) (fun _ => true))
           (mkUpload "v.mp4" "0123456789") Scenario.w0
           (snd (detect_video_manipulation
                   (Scenario.env0 true (fun _ => false) (Returns (9 # 10))
                                  ("Fake", 80%Q) (fun _ => true))
                   (mkUpload "v.mp4" "0123456789") Scenario.w0))).
  vm_compute. reflexivity.
Defined.

(** ** The sampled positions *)

Lemma linspace_sample (k s : Z) :
  Qfloor (inject_Z 0 + inject_Z k * (inject_Z (s - 0) / inject_Z 7)) = (k * s) / 7.
Proof.
  rewrite (Qfloor_comp _ ((k * s) # 7)); [reflexivity|].
  unfold Qeq, Qdiv, Qinv, inject_Z. cbn [Qnum Qden Qplus Qmult].
  rewrite ?Pos.mul_1_r, ?Pos.mul_1_l. lia.
Qed.

Lemma frame_indices_explicit (total : Z) :
  frame_indices total
  = let s := Z.max (total - 1) 0 in
    [0; s / 7; (2 * s) / 7; (3 * s) / 7; (4 * s) / 7; (5 * s) / 7; (6 * s) / 7; s].
Proof.
  unfold frame_indices, linspace_int. cbv zeta.
  cbn [seq map Nat.pred Z.of_nat Pos.of_succ_nat Pos.succ].
  change (Z.pos (PosDef.Pos.of_succ_nat 6)) with 7.
  cbn [Z.ltb Z.eqb Z.compare andb Pos.eqb Pos.compare Pos.compare_cont
       Z.of_nat Pos.of_succ_nat Pos.succ].
  rewrite !linspace_sample. rewrite Z.mul_0_l, Zdiv_0_l, Z.mul_1_l.
  reflexivity.
Qed.

(** X18. The 8 sampled positions never leave the video: they lie between
    0 and the last frame, in non-decreasing order, the first is 0 and the
    last is the last frame; for a video with no frame, or with a negative
    frame count, they are all 0. *)
Theorem frame_indices_in_range (total : Z) :
  Forall (fun i => 0 <= i <= Z.max (total - 1) 0) (frame_indices total)
  /\ StronglySorted Z.le (frame_indices total)
  /\ hd_error (frame_indices total) = Some 0
  /\ last (frame_indices total) 0 = Z.max (total - 1) 0
  /\ (1 <= total -> Forall (fun i => 0 <= i < total) (frame_indices total)).
Proof.
  rewrite frame_indices_explicit. cbv zeta.
  set (s := Z.max (total - 1) 0). assert (Hs : 0 <= s) by lia.
  assert (H1 : 0 <= s / 7 <= s) by (split; [apply Z.div_pos; lia|apply Z.div_le_upper_bound; lia]).
  assert (H2 : s / 7 <= 2 * s / 7 <= s)
    by (split; [apply Z.div_le_mono; lia|apply Z.div_le_upper_bound; lia]).
  assert (H3 : 2 * s / 7 <= 3 * s / 7 <= s)
    by (split; [apply Z.div_le_mono; lia|apply Z.div_le_upper_bound; lia]).
  assert (H4 : 3 * s / 7 <= 4 * s / 7 <= s)
    by (split; [apply Z.div_le_mono; lia|apply Z.div_le_upper_bound; lia]).
  assert (H5 : 4 * s / 7 <= 5 * s / 7 <= s)
    by (split; [apply Z.div_le_mono; lia|apply Z.div_le_upper_bound; lia]).
  assert (H6 : 5 * s / 7 <= 6 * s / 7 <= s)
    by (split; [apply Z.div_le_mono; lia|apply Z.div_le_upper_bound; lia]).
  split; [repeat constructor; lia|].
  split; [repeat (constructor; [|repeat constructor; lia]); constructor|].
  split; [reflexivity|]. split; [reflexivity|].
  intros Ht. assert (s = total - 1) by lia. repeat constructor; lia.
Qed.

(** X19. For a video of at least 8 frames the 8 sampled positions are all
    different. For a shorter one the second position is 0 again, so the
    first frame is sampled more than once. *)
Theorem frame_indices_distinct (total : Z) :
  (8 <= total -> NoDup (frame_indices total))
  /\ (total < 8 -> nth 1 (frame_indices total) 0 = 0 /\ ~ NoDup (frame_indices total)).
Proof.
  rewrite frame_indices_explicit. cbv zeta.
  set (s := Z.max (total - 1) 0). split.
  - intros Ht. assert (Hs : 7 <= s) by lia.
    assert (K : forall k, 0 <= k -> k * s / 7 < (k + 1) * s / 7).
    { intros k Hk. apply Z.div_lt_upper_bound; [lia|].
      pose proof (Z.mul_div_le ((k + 1) * s) 7 ltac:(lia)).
      pose proof (Z.mod_pos_bound ((k + 1) * s) 7 ltac:(lia)).
      pose proof (Z.div_mod ((k + 1) * s) 7 ltac:(lia)). nia. }
    pose proof (K 0 ltac:(lia)) as K0. pose proof (K 1 ltac:(lia)) as K1.
    pose proof (K 2 ltac:(lia)) as K2. pose proof (K 3 ltac:(lia)) as K3.
    pose proof (K 4 ltac:(lia)) as K4. pose proof (K 5 ltac:(lia)) as K5.
    pose proof (K 6 ltac:(lia)) as K6.
    change (0 + 1) with 1 in K0. change (1 + 1) with 2 in K1.
    change (2 + 1) with 3 in K2. change (3 + 1) with 4 in K3.
    change (4 + 1) with 5 in K4. change (5 + 1) with 6 in K5.
    change (6 + 1) with 7 in K6.
    rewrite Z.mul_0_l, Zdiv_0_l, Z.mul_1_l in K0.
    rewrite Z.mul_1_l in K1.
    assert (K7 : 7 * s / 7 = s) by (rewrite Z.mul_comm; apply Z.div_mul; lia).
    rewrite K7 in K6.
    repeat (constructor; [cbn [In]; lia|]). constructor.
  - intros Ht. assert (Hs : 0 <= s < 7) by lia.
    assert (E : s / 7 = 0) by (apply Z.div_small; lia).
    cbn [nth]. split; [exact E|]. rewrite E. intros H.
    inversion H as [|x l Hnot _]; subst. apply Hnot. now left.
Qed.

Lemma frame_indices_in_range_witness :
  Forall (fun i => 0 <= i < 100) (frame_indices 100).
Proof.
  apply (proj2 (proj2 (proj2 (proj2 (frame_indices_in_range 100))))). lia.
Defined.

Lemma frame_indices_distinct_witness :
  NoDup (frame_indices 100)
  /\ nth 1 (frame_indices 5) 0 = 0 /\ ~ NoDup (frame_indices 5).
Proof.
  split.
  - apply (proj1 (frame_indices_distinct 100)). lia.
  - apply (proj2 (frame_indices_distinct 5)). lia.
Defined.

(** ** The worker *)

(** X20. The worker recorded for a case is one of worker-1, worker-2,
    worker-3 and worker-4, and naming it uses up one random draw. *)
Theorem worker_id_range (env : Env) (w : World) :
  (0 <= rand env (rand_calls w))%Q -> (rand env (rand_calls w) < 1)%Q ->
  exists name,
    new_worker_id env w = (Ok name, tick_rand w)
    /\ In name ["worker-1"; "worker-2"; "worker-3"; "worker-4"].
Proof.
  intros H0 H1. unfold new_worker_id, bind, np_random, ret. eexists.
  split; [reflexivity|]. unfold PyNum.randint.
  set (u := rand env (rand_calls w)) in *.
  assert (Hlo : 0 <= Qfloor (inject_Z (5 - 1) * u)).
  { change 0 with (Qfloor 0). apply Qfloor_resp_le.
    change (inject_Z (5 - 1)) with 4%Q. lra. }
  assert (Hhi : Qfloor (inject_Z (5 - 1) * u) < 4).
  { pose proof (Qfloor_le (inject_Z (5 - 1) * u)) as Hf.
    change (inject_Z (5 - 1)) with 4%Q in *.
    assert (Hq : (inject_Z (Qfloor (4 * u)) < inject_Z 4)%Q)
      by (change (inject_Z 4) with 4%Q; lra).
    now rewrite <- Zlt_Qlt in Hq. }
  set (n := Qfloor (inject_Z (5 - 1) * u)) in *.
  assert (Hn : n = 0 \/ n = 1 \/ n = 2 \/ n = 3) by lia.
  destruct Hn as [E|[E|[E|E]]]; rewrite E; cbn; tauto.
Qed.

Lemma worker_id_range_witness :
  let env := Scenario.env0 true (fun _ => false) (Returns (9 # 10))
                           ("Real", 80%Q) (fun _ => true) in
  exists name,
    new_worker_id env Scenario.w0 = (Ok name, tick_rand Scenario.w0)
    /\ In name ["worker-1"; "worker-2"; "worker-3"; "worker-4"].
Proof.
  cbv zeta.
  apply (worker_id_range
           (Scenario.env0 true (fun _ => false) (Returns (9 # 10))
                          ("Real", 80%Q) (fun _ => true))
           Scenario.w0).
  - discriminate.
  - reflexivity.
Defined.

(** ** The statistics *)

Lemma len_filter_le {A} (f : A -> bool) (l : list A) : len (filter f l) <= len l.
Proof. unfold len. apply Nat2Z.inj_le. apply filter_length_le. Qed.

Lemma len_nonneg {A} (l : list A) : 0 <= len l.
Proof. unfold len. lia. Qed.

Lemma completed_figures_no_deepfake (completed_cases : list Case) :
  (forall c, In c completed_cases -> Qgtb (confidence c) 50 = false) ->
  Qgtb (fst (completed_figures completed_cases)) 0 = false.
Proof.
  intros H. unfold completed_figures. destruct completed_cases as [|c l]; [reflexivity|].
  cbv zeta. cbn [fst].
  assert (E : filter (fun c0 => Qgtb (confidence c0) 50) (c :: l) = []).
  { induction (c :: l) as [|x xs IH]; [reflexivity|]. cbn [filter].
    rewrite (H x (or_introl eq_refl)). apply IH. intros y Hy. apply H. now right. }
  rewrite E. change (len (@nil Case)) with 0.
  unfold Qgtb. rewrite negb_false_iff. apply Qle_bool_iff.
  unfold Qle, Qdiv, Qmult, inject_Z. cbn [Qnum Qden]. lia.
Qed.

(** X21. The statistics never show an empty system. With no case at all
    the answer is the demonstration figures 127, 68, 82.5 and 1543; and
    the deepfake percentage is reported as 68 whenever no completed case
    has a confidence above 50, also when there are completed cases. When
    the table is not empty the total is the number of its rows. Reading
    the statistics changes nothing but the clock. *)
Theorem stats_fall_back (env : Env) (w : World) :
  exists r,
    get_stats env w = (Ok r, tick_clock w)
    /\ (db_cases w = [] -> r = mkStats 127 68 (825 # 10) 1543)
    /\ ((forall c, In c (db_cases w) -> status c = completed ->
                   Qgtb (confidence c) 50 = false) ->
        deepfakePercentage r = 68%Q)
    /\ (db_cases w <> [] -> totalCases r = len (db_cases w))
    /\ 1 <= totalCases r
    /\ 1 <= totalVerificationsToday r.
Proof.
  unfold get_stats, bind, utcnow, gets. cbv zeta.
  destruct (completed_figures (filter is_completed (db_cases (tick_clock w))))
    as [pct avg] eqn:Ef.
  eexists. split; [reflexivity|]. cbn [db_cases tick_clock] in *.
  cbn [totalCases totalVerificationsToday deepfakePercentage].
  split; [|split; [|split; [|split]]].
  - intros E. rewrite E in *. cbn in Ef. injection Ef as <- <-. reflexivity.
  - intros H.
    assert (K : Qgtb (fst (completed_figures (filter is_completed (db_cases w)))) 0 = false).
    { apply completed_figures_no_deepfake. intros c Hc. apply filter_In in Hc.
      destruct Hc as [Hin Hst]. apply H; [exact Hin|].
      unfold is_completed in Hst. now destruct (status c). }
    rewrite Ef in K. cbn [fst] in K. now rewrite K.
  - intros Hne. destruct (db_cases w) as [|c l]; [contradiction|].
    unfold len. cbn [List.length]. destruct (0 <? _)%Z eqn:E; [reflexivity|].
    apply Z.ltb_ge in E. lia.
  - destruct (0 <? len (db_cases w))%Z eqn:E; [apply Z.ltb_lt in E|]; lia.
  - destruct (0 <? len _)%Z eqn:E; [apply Z.ltb_lt in E|]; lia.
Qed.

Lemma stats_fall_back_witness :
  let env := Scenario.env0 true (fun _ => false) (Returns (9 # 10))
                           ("Real", 80%Q) (fun _ => true) in
  exists r,
    get_stats env Scenario.w0 = (Ok r, tick_clock Scenario.w0)
    /\ r = mkStats 127 68 (825 # 10) 1543.
Proof.
  cbv zeta.
  destruct (stats_fall_back
              (Scenario.env0 true (fun _ => false) (Returns (9 # 10))
                             ("Real", 80%Q) (fun _ => true))
              Scenario.w0) as (r & Hrun & Hempty & _).
  exists r. split; [exact Hrun|]. apply Hempty. reflexivity.
Defined.

Lemma chart_day_run (env : Env) (chart_data : list ChartDataItem) (i : Z) (w : World) :
  0 <= i <= 6 ->
  exists it,
    chart_day env chart_data i w = (Ok (chart_data ++ [it])%list, tick_clock w)
    /\ chart_date it = date_of (clock env (clock_calls w)) - i
    /\ chart_item_ok it.
Proof.
  intros Hi. unfold chart_day, bind, utcnow, gets. cbv zeta.
  cbn [db_cases tick_clock].
  set (day_cases := filter _ (db_cases w)).
  destruct (len day_cases =? 0)%Z eqn:E.
  - eexists. split; [reflexivity|]. split; [reflexivity|].
    unfold chart_item_ok. cbn [chart_verifications chart_deepfakes].
    assert (Hc : i = 0 \/ i = 1 \/ i = 2 \/ i = 3 \/ i = 4 \/ i = 5 \/ i = 6) by lia.
    destruct Hc as [->|[->|[->|[->|[->|[->| ->]]]]]]; vm_compute; intuition discriminate.
  - eexists. split; [reflexivity|]. split; [reflexivity|].
    unfold chart_item_ok. cbn [chart_verifications chart_deepfakes].
    apply Z.eqb_neq in E. pose proof (len_nonneg day_cases).
    pose proof (len_filter_le (fun c => Qgtb (confidence c) 50 && is_completed c) day_cases).
    pose proof (len_nonneg (filter (fun c => Qgtb (confidence c) 50 && is_completed c) day_cases)).
    lia.
Qed.

(** X22. The chart always has 7 entries, one per day from six days
    before the day of each clock reading up to that day itself, oldest
    first. Every entry shows at least one verification and a number of
    deepfakes between 0 and the number of verifications, on a day without
    cases through the demonstration figures. Reading the chart changes
    nothing but the clock, which is read 7 times. *)
Theorem chart_entries (env : Env) (w : World) :
  exists items,
    get_chart_data env w = (Ok items, Nat.iter 7 tick_clock w)
    /\ List.length items = 7%nat
    /\ Forall chart_item_ok items
    /\ map chart_date items
       = map (fun k => date_of (clock env (clock_calls w + k)) - (6 - Z.of_nat k))
             (seq 0 7)
    /\ (forall d, (forall k, (k < 7)%nat -> date_of (clock env (clock_calls w + k)) = d) ->
                  map chart_date items = [d - 6; d - 5; d - 4; d - 3; d - 2; d - 1; d]).
Proof.
  unfold get_chart_data. cbn [for_fold].
  repeat match goal with
  | |- context [bind (chart_day ?e ?acc ?i) _ ?w0] =>
      let it := fresh "it" in let R := fresh "R" in
      let D := fresh "D" in let K := fresh "K" in
      destruct (chart_day_run e acc i w0 ltac:(lia)) as (it & R & D & K);
      rewrite (bind_run _ _ _ _ _ R);
      cbn [clock_calls tick_clock] in D; clear R
  end.
  eexists. split; [reflexivity|]. cbn [app].
  split; [reflexivity|].
  split; [repeat (apply Forall_cons; [assumption|]); apply Forall_nil|].
  match goal with
  | |- ?lhs = _ /\ _ =>
      assert (Hd : lhs
                   = map (fun k => date_of (clock env (clock_calls w + k))
                                   - (6 - Z.of_nat k)) (seq 0 7))
  end.
  { cbn [map seq Z.of_nat].
    repeat match goal with D : chart_date _ = _ |- _ => rewrite D; clear D end.
    rewrite Nat.add_0_r, !Nat.add_succ_r, Nat.add_0_r. reflexivity. }
  split; [exact Hd|].
  intros d Hsame. rewrite Hd. cbn [map seq].
  rewrite !Hsame by lia.
  repeat (apply f_equal2; [cbn; lia|]). reflexivity.
Qed.

Lemma chart_entries_witness :
  let env := Scenario.env0 true (fun _ => false) (Returns (9 # 10))
                           ("Real", 80%Q) (fun _ => true) in
  exists items,
    get_chart_data env Scenario.w0 = (Ok items, Nat.iter 7 tick_clock Scenario.w0)
    /\ map chart_date items = [0 - 6; 0 - 5; 0 - 4; 0 - 3; 0 - 2; 0 - 1; 0].
Proof.
  cbv zeta.
  destruct (chart_entries
              (Scenario.env0 true (fun _ => false) (Returns (9 # 10))
                             ("Real", 80%Q) (fun _ => true))
              Scenario.w0) as (items & Hrun & _ & _ & _ & Hsame).
  exists items. split; [exact Hrun|]. apply Hsame.
  intros k Hk. do 7 (destruct k as [|k]; [reflexivity|]). lia.
Defined.

(** ** The webhook *)

Lemma eqb_high (h : ascii) (k : nat) :
  (nat_of_ascii h < 128)%nat -> (128 <= k < 256)%nat -> Ascii.eqb h (PyStr.byte k) = false.
Proof.
  intros Hh Hk. destruct (Ascii.eqb_spec h (PyStr.byte k)) as [E|E]; [|reflexivity].
  exfalso. subst h. unfold PyStr.byte in Hh. rewrite nat_ascii_embedding in Hh; lia.
Qed.

Lemma lower_step (c : ascii) (r : string) :
  PyStr.lower (String c r)
  = match r with
    | EmptyString => String (PyStr.lower_ascii c) EmptyString
    | String c1 r1 =>
        if (Ascii.eqb c (PyStr.byte 196) && Ascii.eqb c1 (PyStr.byte 176))%bool
        then String "i" (String (PyStr.byte 204) (String (PyStr.byte 135) (PyStr.lower r1)))
        else
          match r1 with
          | EmptyString => String (PyStr.lower_ascii c) (PyStr.lower r)
          | String c2 r2 =>
              if (Ascii.eqb c (PyStr.byte 226) && Ascii.eqb c1 (PyStr.byte 132)
                  && Ascii.eqb c2 (PyStr.byte 170))%bool
              then String "k" (PyStr.lower r2)
              else String (PyStr.lower_ascii c) (PyStr.lower r)
          end
    end.
Proof. destruct r as [|c1 [|c2 r2]]; reflexivity. Qed.

(** A character of one byte closes what comes before it: the lowering of
    what follows starts afresh. *)
Lemma lower_append (a t : string) :
  plain_head t -> exists a', PyStr.lower (a ++ t) = a' ++ PyStr.lower t.
Proof.
  intros Ht. remember (String.length a) as n eqn:Hn.
  assert (Hle : (String.length a <= n)%nat) by lia. clear Hn.
  revert a Hle. induction n as [|n IH]; intros a Hle.
  - destruct a; [|cbn in Hle; lia]. now exists "".
  - destruct a as [|c a1]; [now exists ""|]. cbn [String.length] in Hle.
    destruct t as [|h t']; [destruct Ht|]. cbn [plain_head] in Ht.
    remember (PyStr.lower (String h t')) as L eqn:HL.
    destruct a1 as [|c1 a2].
    + cbn [append]. exists (String (PyStr.lower_ascii c) "").
      rewrite lower_step. rewrite (eqb_high h 176), (eqb_high h 132) by lia.
      rewrite !andb_false_r. cbn [andb append]. rewrite <- HL.
      destruct t'; reflexivity.
    + cbn [String.length] in Hle. cbn [append]. rewrite lower_step.
      destruct (Ascii.eqb c (PyStr.byte 196) && Ascii.eqb c1 (PyStr.byte 176))%bool eqn:E1.
      * destruct (IH a2 ltac:(lia)) as (a' & Ha').
        exists (String "i" (String (PyStr.byte 204) (String (PyStr.byte 135) a'))).
        rewrite Ha'. reflexivity.
      * destruct a2 as [|c2 a3].
        -- destruct (IH (String c1 "") ltac:(cbn; lia)) as (a' & Ha').
           exists (String (PyStr.lower_ascii c) a').
           cbn [append] in *.
           rewrite (eqb_high h 170) by lia. rewrite !andb_false_r.
           rewrite Ha'. reflexivity.
        -- cbn [String.length] in Hle. cbn [append].
           destruct (Ascii.eqb c (PyStr.byte 226) && Ascii.eqb c1 (PyStr.byte 132)
                     && Ascii.eqb c2 (PyStr.byte 170))%bool eqn:E2.
           ++ destruct (IH a3 ltac:(lia)) as (a' & Ha').
              exists (String "k" a'). rewrite Ha'. reflexivity.
           ++ destruct (IH (String c1 (String c2 a3)) ltac:(cbn; lia)) as (a' & Ha').
              exists (String (PyStr.lower_ascii c) a').
              cbn [append] in Ha'. rewrite Ha'. reflexivity.
Qed.

Lemma length_append (a b : string) :
  String.length (a ++ b) = (String.length a + String.length b)%nat.
Proof. induction a as [|c a IH]; cbn; [reflexivity|now rewrite IH]. Qed.

Lemma substring_all (s : string) : substring 0 (String.length s) s = s.
Proof. induction s as [|c s IH]; cbn; [reflexivity|now rewrite IH]. Qed.

Lemma substring_skip (a b : string) (m : nat) :
  substring (String.length a) m (a ++ b) = substring 0 m b.
Proof. induction a as [|c a IH]; cbn [String.length append substring]; [reflexivity|exact IH]. Qed.

Lemma endswith1_append (a suffix : string) :
  PyStr.endswith1 (a ++ suffix) suffix = true.
Proof.
  unfold PyStr.endswith1. cbv zeta. rewrite length_append.
  replace (String.length a + String.length suffix - String.length suffix)%nat
    with (String.length a) by lia.
  rewrite substring_skip, substring_all, String.eqb_refl.
  rewrite andb_true_r. apply Nat.leb_le. lia.
Qed.

Lemma append_assoc3 (a b c : string) : a ++ b ++ c = (a ++ b) ++ c.
Proof. induction a as [|x a IH]; cbn; [reflexivity|now rewrite IH]. Qed.

(** A name that ends with a dot and an extension in lower case keeps this
    ending when it is lowered. *)
Lemma lower_keeps_suffix (a suffix : string) :
  plain_head suffix -> PyStr.lower suffix = suffix ->
  PyStr.endswith1 (PyStr.lower (a ++ suffix)) suffix = true.
Proof.
  intros Hp Hs. destruct (lower_append a suffix Hp) as (a' & Ha').
  rewrite Ha', Hs. apply endswith1_append.
Qed.

Lemma whatsapp_ext_cases (MediaContentType0 : string) :
  In (whatsapp_ext MediaContentType0) ["jpeg"; "jpg"; "png"; "webp"].
Proof.
  unfold whatsapp_ext. cbv zeta.
  set (ext := if String.eqb (last_segment MediaContentType0) "" then "jpg"
              else last_segment MediaContentType0).
  destruct (PyStr.mem ext ["jpeg"; "jpg"; "png"; "webp"]) eqn:E; cbn [negb].
  - unfold PyStr.mem in E. apply existsb_exists in E. destruct E as (x & Hx & Ex).
    apply String.eqb_eq in Ex. now subst.
  - right. now left.
Qed.

(** X23. The name the webhook gives to the downloaded file always passes
    the format check of the image endpoint, whatever the message id and
    the content type: the extension is forced to jpeg, jpg, png or webp.
    So the image endpoint never answers the webhook with 400. *)
Theorem whatsapp_filename_accepted (MessageSid MediaContentType0 : string) :
  In (whatsapp_ext MediaContentType0) ["jpeg"; "jpg"; "png"; "webp"]
  /\ PyStr.endswith (PyStr.lower (whatsapp_temp_filename MessageSid MediaContentType0))
                    image_suffixes = true
  /\ forall env content w d,
      fst (detect_image_manipulation env
             (mkUpload (whatsapp_temp_filename MessageSid MediaContentType0) content) w)
      <> Raise (HTTPException 400 d).
Proof.
  pose proof (whatsapp_ext_cases MediaContentType0) as Hext.
  assert (Hok : PyStr.endswith
                  (PyStr.lower (whatsapp_temp_filename MessageSid MediaContentType0))
                  image_suffixes = true).
  { unfold whatsapp_temp_filename. rewrite append_assoc3.
    unfold PyStr.endswith, image_suffixes. apply existsb_exists.
    destruct Hext as [E|[E|[E|[E|[]]]]]; rewrite <- E.
    - exists ".jpeg". split; [cbn; tauto|].
      apply (lower_keeps_suffix _ ".jpeg"); [cbn; lia|reflexivity].
    - exists ".jpg". split; [cbn; tauto|].
      apply (lower_keeps_suffix _ ".jpg"); [cbn; lia|reflexivity].
    - exists ".png". split; [cbn; tauto|].
      apply (lower_keeps_suffix _ ".png"); [cbn; lia|reflexivity].
    - exists ".webp". split; [cbn; tauto|].
      apply (lower_keeps_suffix _ ".webp"); [cbn; lia|reflexivity]. }
  split; [exact Hext|]. split; [exact Hok|].
  intros env content w d. unfold detect_image_manipulation.
  cbn [upload_filename]. rewrite Hok. cbn [negb]. rewrite start_run.
  unfold try_except. destruct (detect_image_try _ _ _ _ _) as [[r|e] w1].
  - discriminate.
  - unfold detect_image_except. rewrite except_run. cbn [fst]. intros H.
    injection H as H _. discriminate H.
Qed.

(** ** The stages a job shows *)

Lemma stages_of_update i p s q :
  stages_of i (update_first i p s q)
  = match stages_of i q with [] => [] | _ :: r => (p, s) :: r end.
Proof.
  induction q as [|it q IH]; [reflexivity|].
  unfold stages_of in *. cbn [update_first filter].
  destruct (String.eqb_spec (item_id it) i) as [E|E]; cbn [filter item_id map].
  - rewrite E, String.eqb_refl. reflexivity.
  - destruct (String.eqb_spec (item_id it) i) as [E'|_]; [contradiction|]. exact IH.
Qed.

Lemma stages_of_without i q : stages_of i (without_id i q) = [].
Proof.
  induction q as [|it q IH]; [reflexivity|].
  unfold stages_of, without_id in *. cbn [filter].
  destruct (String.eqb_spec (item_id it) i) as [E|E]; cbn [negb filter]; [exact IH|].
  destruct (String.eqb_spec (item_id it) i) as [E'|_]; [contradiction|]. exact IH.
Qed.

Lemma stages_of_fresh i q : ~ In i (map item_id q) -> stages_of i q = [].
Proof.
  intros H. rewrite <- (without_id_fresh i q H). apply stages_of_without.
Qed.

Section Stages.

Variable env : Env.
Variable i : string.
Variable s0 : list (list QueueItem).

(** [update_item] followed by [broadcast]: one more stage is shown. *)
Lemma stage_step {B} (p : Z) (s : string) (k : M B) l Q E :
  hoare (staged i s0 (l ++ [(p, s)])) k Q E ->
  hoare (staged i s0 l) (update_item i p s ;; broadcast_queue env ;; k) Q E.
Proof.
  intros Hk w [(new & Hs & Ht) (c & Hc)]. unfold bind at 1, update_item, modify.
  unfold bind. rewrite broadcast_queue_run. apply Hk.
  cbn [queue_items snapshots set_queue_items].
  assert (Hq : stages_of i (update_first i p s (queue_items w)) = [(p, s)])
    by now rewrite stages_of_update, Hc.
  split; [|now exists (p, s)].
  exists (new ++ [update_first i p s (queue_items w)])%list. split.
  - now rewrite Hs, app_assoc.
  - unfold stage_trace in *. rewrite flat_map_app, Ht. cbn [flat_map].
    now rewrite Hq, app_nil_r.
Qed.

(** [remove_item] followed by [broadcast]: the job leaves the hub. *)
Lemma stage_end {B} (k : M B) l Q E :
  hoare (shown i s0 l) k Q E ->
  hoare (staged i s0 l) (remove_item i ;; broadcast_queue env ;; k) Q E.
Proof.
  intros Hk w [(new & Hs & Ht) _]. unfold bind at 1, remove_item, modify.
  unfold bind. rewrite broadcast_queue_run. apply Hk.
  cbn [queue_items snapshots set_queue_items].
  split; [|apply stages_of_without].
  exists (new ++ [without_id i (queue_items w)])%list. split.
  - now rewrite Hs, app_assoc.
  - unfold stage_trace in *. rewrite flat_map_app, Ht. cbn [flat_map].
    now rewrite stages_of_without, !app_nil_r.
Qed.

Lemma staged_hub l w w' : hub w' = hub w -> staged i s0 l w -> staged i s0 l w'.
Proof.
  unfold hub, staged. intros E H. injection E as Eq Es. now rewrite Eq, Es.
Qed.

Lemma shown_hub l w w' : hub w' = hub w -> shown i s0 l w -> shown i s0 l w'.
Proof.
  unfold hub, shown. intros E H. injection E as Eq Es. now rewrite Eq, Es.
Qed.

(** A statement that does not touch the hub. *)
Lemma stage_silent {A B} (c : M A) (k : A -> M B) l Q :
  keeps hub c -> (forall a, hoare (staged i s0 l) (k a) Q (fun _ => True)) ->
  hoare (staged i s0 l) (bind c k) Q (fun _ => True).
Proof.
  intros Hc Hk w Hw. unfold bind. specialize (Hc w).
  destruct (c w) as [[a|e] w1] eqn:E; cbn [snd] in Hc; [|exact I].
  apply Hk. now apply (staged_hub l w).
Qed.

Lemma shown_silent {A B} (c : M A) (k : A -> M B) l Q :
  keeps hub c -> (forall a, hoare (shown i s0 l) (k a) Q (fun _ => True)) ->
  hoare (shown i s0 l) (bind c k) Q (fun _ => True).
Proof.
  intros Hc Hk w Hw. unfold bind. specialize (Hc w).
  destruct (c w) as [[a|e] w1] eqn:E; cbn [snd] in Hc; [|exact I].
  apply Hk. now apply (shown_hub l w).
Qed.

End Stages.

(** Walks through a [try] block that returns. *)
Ltac stage :=
  lazymatch goal with
  | |- hoare _ (update_item _ _ _ ;; broadcast_queue _ ;; _) _ _ =>
      apply stage_step; cbn [app]
  | |- hoare _ (remove_item _ ;; broadcast_queue _ ;; _) _ _ => apply stage_end
  | |- hoare _ (ret _) _ _ => apply hoare_ret; intros ? H; exact H
  | |- hoare _ (raise _) _ _ => apply hoare_raise; intros; exact I
  | |- hoare _ (if ?b then _ else _) _ _ => destruct b
  | |- hoare _ (match ?r with pair _ _ => _ end) _ _ => destruct r
  | |- hoare (staged _ _ _) (bind _ _) _ _ =>
      apply stage_silent; [solve [repeat hub_step]|intros]
  | |- hoare (shown _ _ _) (bind _ _) _ _ =>
      apply shown_silent; [solve [repeat hub_step]|intros]
  end.

Lemma stage_image_try env s0 image0 case start_time :
  hoare (staged (case_id case) s0 [(0, "preprocessing")])
        (detect_image_try env image0 case start_time)
        (fun _ => shown (case_id case) s0 image_stages) (fun _ => True).
Proof.
  unfold detect_image_try, image_stages. cbv zeta. do 2 stage.
  apply stage_silent; [unfold image_inference; repeat hub_step|intros r].
  repeat stage.
Qed.

Lemma started_staged env mt kind filename0 w :
  ~ In (next_case_id env w) (map item_id (queue_items w)) ->
  staged (next_case_id env w) (snapshots w) [(0, "preprocessing")]
         (started env mt kind filename0 w).
Proof.
  intros Hfresh.
  assert (Hq : stages_of (next_case_id env w)
                 (queue_items w ++ [queue_item_of (new_case env mt filename0 w) kind])
               = [(0, "preprocessing")]).
  { unfold stages_of. rewrite filter_app, map_app.
    fold (stages_of (next_case_id env w) (queue_items w)).
    rewrite (stages_of_fresh _ _ Hfresh).
    cbn [filter queue_item_of item_id new_case case_id app map item_progress item_status].
    now rewrite String.eqb_refl. }
  unfold started. cbv zeta. split.
  - eexists [_]. cbn [snapshots]. split; [reflexivity|].
    cbn [stage_trace flat_map]. now rewrite Hq.
  - cbn [queue_items]. now exists (0, "preprocessing").
Qed.

(** X24. An image job that returns was shown to the observers with exactly
    the stages preprocessing at 0, analyzing at 30, llm_explaining at 70
    and sending_result at 90, in this order, and was then removed. *)
Theorem image_stages_shown (env : Env) (image0 : UploadFile) (w w' : World)
        (r : ImageResponse) :
  ~ In (next_case_id env w) (map item_id (queue_items w)) ->
  detect_image_manipulation env image0 w = (Ok r, w') ->
  shown (next_case_id env w) (snapshots w) image_stages w'.
Proof.
  intros Hfresh. unfold detect_image_manipulation. destruct (negb _); [discriminate|].
  rewrite start_run. intros H. apply try_except_Ok_inv in H.
  2:{ intros e w1. unfold detect_image_except. rewrite except_run. discriminate. }
  match type of H with
  | detect_image_try _ _ ?c ?t ?w0 = _ =>
      pose proof (stage_image_try env (snapshots w) image0 c t w0) as K
  end.
  rewrite H in K. apply K. now apply started_staged.
Qed.

Lemma image_stages_shown_witness :
  let env := Scenario.env0 true (fun _ => false) (Returns (9 # 10))
                           ("Real", 80%Q) (fun _ => true) in
  let w := mkWorld [1%nat] [mkItem "case-1a2b3c4d" "audio" 0 50 "analyzing" "worker-2"]
                   [] 0 0 0 [] [] in
  shown (next_case_id env w) (snapshots w) image_stages
        (snd (detect_image_manipulation env (mkUpload "a.png" "pix") w)).
Proof.
  cbv zeta.
  apply (image_stages_shown
           (Scenario.env0 true (fun _ => false) (Returns (9 # 10))
                          ("Real", 80%Q) (fun _ => true))
           (mkUpload "a.png" "pix")
           (mkWorld [1%nat]
                    [mkItem "case-1a2b3c4d" "audio" 0 50 "analyzing" "worker-2"]
                    [] 0 0 0 [] [])
           _
           (mkImageResponse "case-00000000" "a.png" "Real" false 80
              "80% Likely Authentic" (generate_explanation false 80 "image"))).
  - vm_compute. intros [H|H]; [discriminate H|exact H].
  - vm_compute. reflexivity.
Defined.

Lemma hoare_pure {A} (phi : Prop) (P : World -> Prop) (c : M A) Q E :
  (phi -> hoare P c Q E) -> hoare (fun w => phi /\ P w) c Q E.
Proof. intros H w [Hphi Hw]. now apply H. Qed.

Lemma stage_load_audio env s0 case arrays audio0 l :
  hoare (staged (case_id case) s0 l) (load_audio env case arrays audio0)
        (fun arrays' w =>
           List.length arrays' = S (List.length arrays)
           /\ staged (case_id case) s0
                     (l ++ [(20 + Z.of_nat (List.length arrays) * 15, "preprocessing")]) w)
        (fun _ => True).
Proof.
  unfold load_audio. stage; [stage|]. apply stage_step. stage.
  apply hoare_ret. intros w Hw. split; [|exact Hw].
  rewrite length_app. cbn. lia.
Qed.

Lemma stage_audio_try env s0 a b case start_time :
  hoare (staged (case_id case) s0 [(0, "preprocessing")])
        (detect_audio_try env [a; b] case start_time)
        (fun _ => shown (case_id case) s0 audio_stages) (fun _ => True).
Proof.
  unfold detect_audio_try, audio_stages. cbn [for_fold].
  eapply hoare_bind.
  - eapply hoare_bind; [apply stage_load_audio|]. intros arrays1. cbn beta.
    apply hoare_pure. intros H1.
    eapply hoare_bind; [apply stage_load_audio|]. intros arrays2. cbn beta.
    apply hoare_pure. intros H2. rewrite H1. cbn [List.length app Z.of_nat].
    apply hoare_ret. intros w Hw. exact Hw.
  - intros arrays. cbn beta. cbn [Pos.of_succ_nat Z.mul Z.add Pos.mul Pos.add Pos.succ].
    stage.
    apply stage_silent; [unfold audio_similarity; repeat hub_step|intros s].
    repeat stage.
Qed.

(** X25. An audio job that returns was shown with exactly the stages
    preprocessing at 0, 20 and 35 (one per file), analyzing at 50 and
    llm_explaining at 80, and was then removed; it never shows the stage
    sending_result. *)
Theorem audio_stages_shown (env : Env) (audio_files : list UploadFile) (w w' : World)
        (r : AudioResponse) :
  ~ In (next_case_id env w) (map item_id (queue_items w)) ->
  detect_audio_manipulation env audio_files w = (Ok r, w') ->
  shown (next_case_id env w) (snapshots w) audio_stages w'.
Proof.
  intros Hfresh. unfold detect_audio_manipulation.
  destruct (Nat.eqb_spec (List.length audio_files) 2) as [Hlen|Hlen];
    cbn [negb]; [|discriminate].
  destruct audio_files as [|a [|b [|c l]]]; try discriminate Hlen.
  rewrite start_run. intros H. apply try_except_Ok_inv in H.
  2:{ intros e w1. unfold detect_audio_except. rewrite except_run. discriminate. }
  match type of H with
  | detect_audio_try _ _ ?c ?t ?w0 = _ =>
      pose proof (stage_audio_try env (snapshots w) a b c t w0) as K
  end.
  rewrite H in K. apply K. now apply started_staged.
Qed.

Lemma audio_stages_shown_witness :
  let env := Scenario.env0 true (fun _ => false) (Returns (9 # 10))
                           ("Real", 80%Q) (fun _ => true) in
  shown (next_case_id env Scenario.w0) (snapshots Scenario.w0) audio_stages
        (snd (detect_audio_manipulation env
                [mkUpload "a.wav" "x"; mkUpload "b.mp3" "y"] Scenario.w0)).
Proof.
  cbv zeta.
  apply (audio_stages_shown
           (Scenario.env0 true (fun _ => false) (Returns (9 # 10))
                          ("Real", 80%Q) (fun _ => true))
           [mkUpload "a.wav" "x"; mkUpload "b.mp3" "y"] Scenario.w0 _
           (audio_response
              (new_case (Scenario.env0 true (fun _ => false) (Returns (9 # 10))
                                       ("Real", 80%Q) (fun _ => true))
                        audio "a.wav vs b.mp3" Scenario.w0) (9 # 10))).
  - cbn. intros H. exact H.
  - vm_compute. reflexivity.
Defined.

Lemma stage_classify_loop env s0 case len (frames : list string) :
  (len <= 8)%nat ->
  forall k acc l,
    (k + List.length frames <= len)%nat ->
    hoare (staged (case_id case) s0 l)
          (for_fold (combine (seq k (List.length frames)) frames) acc
                    (classify_frame env case len))
          (fun _ => staged (case_id case) s0
                      (l ++ map (frame_stage len) (seq k (List.length frames))))
          (fun _ => True).
Proof.
  intros Hlen. induction frames as [|frame frames IH]; intros k acc l Hk;
    cbn [List.length seq combine for_fold map].
  - rewrite app_nil_r. stage.
  - cbn [List.length] in Hk.
    apply hoare_bind
      with (R := fun _ => staged (case_id case) s0
                           (l ++ [(30 + (40 * Z.of_nat k) / Z.of_nat len, "analyzing")])).
    + unfold classify_frame. cbn [fst snd]. stage. stage.
      eapply hoare_det; [intros w; apply frame_progress_run; lia|].
      apply stage_step. apply hoare_ret. intros w Hw. exact Hw.
    + intros acc'. cbn beta.
      replace (l ++ frame_stage len k :: map (frame_stage len) (seq (S k) (List.length frames)))%list
        with ((l ++ [(30 + (40 * Z.of_nat k) / Z.of_nat len, "analyzing")])
                ++ map (frame_stage len) (seq (S k) (List.length frames)))%list
        by (now rewrite <- app_assoc).
      apply IH. lia.
Qed.

Lemma stage_mock_loop env i s0 l (frames : list string) :
  forall acc,
    hoare (staged i s0 l) (for_fold frames acc (mock_frame env))
          (fun _ => staged i s0 l) (fun _ => True).
Proof.
  induction frames as [|frame frames IH]; intros acc; cbn [for_fold].
  - stage.
  - apply stage_silent; [apply hub_mock_frame|]. intros acc'. apply IH.
Qed.

Lemma stage_classify_frames env s0 case frames l :
  (List.length frames <= 8)%nat ->
  hoare (staged (case_id case) s0 l) (classify_frames env case frames)
        (fun _ => staged (case_id case) s0
                    (l ++ (if models_loaded env
                           then map (frame_stage (List.length frames))
                                    (seq 0 (List.length frames))
                           else [])))
        (fun _ => True).
Proof.
  intros Hlen. unfold classify_frames, enumerate. destruct (models_loaded env).
  - apply stage_classify_loop; [exact Hlen|lia].
  - rewrite app_nil_r. apply stage_mock_loop.
Qed.

Lemma stage_video_try env s0 video0 case start_time :
  hoare (staged (case_id case) s0 [(0, "preprocessing")])
        (detect_video_try env video0 case start_time)
        (fun r => shown (case_id case) s0
                    (video_stages (models_loaded env) (vr_frames_analyzed r)))
        (fun _ => True).
Proof.
  unfold detect_video_try. cbv zeta. do 2 stage.
  apply stage_silent; [destruct (Qgtb _ _); repeat hub_step|intros duration].
  stage.
  eapply hoare_bind; [apply stage_classify_frames; apply frames_at_most_8|].
  intros [results fake_confidences].
  cbn beta iota.
  apply stage_silent; [destruct (video_draws _); repeat hub_step|intros u].
  apply stage_step. do 6 stage. apply stage_end.
  apply hoare_ret. intros w Hw. cbn [vr_frames_analyzed]. unfold video_stages.
  rewrite <- app_assoc in Hw. exact Hw.
Qed.

(** X26. A video job that returns was shown with the stages preprocessing
    at 0 and 15 and analyzing at 30, then, when the networks are loaded, one
    analyzing stage per analysed frame at 30 + floor(40 k / n) for the k-th
    of n frames (k from 0), then llm_explaining at 80, and was then removed.
    Without the networks no frame stage is shown. *)
Theorem video_stages_shown (env : Env) (video0 : UploadFile) (w w' : World)
        (r : VideoResponse) :
  ~ In (next_case_id env w) (map item_id (queue_items w)) ->
  detect_video_manipulation env video0 w = (Ok r, w') ->
  shown (next_case_id env w) (snapshots w)
        (video_stages (models_loaded env) (vr_frames_analyzed r)) w'.
Proof.
  intros Hfresh. unfold detect_video_manipulation. destruct (negb _); [discriminate|].
  rewrite start_run. intros H. apply try_except_Ok_inv in H.
  2:{ intros e w1. unfold detect_video_except. rewrite except_run. discriminate. }
  match type of H with
  | detect_video_try _ _ ?c ?t ?w0 = _ =>
      pose proof (stage_video_try env (snapshots w) video0 c t w0) as K
  end.
  rewrite H in K. apply K. now apply started_staged.
Qed.

Lemma video_stages_shown_witness :
  let env := Scenario.env0 true (fun _ => false) (Returns (9 # 10))
                           ("Fake", 80%Q) (fun _ => true) in
  let run := detect_video_manipulation env (mkUpload "v.mp4" "0123456789") Scenario.w0 in
  shown (next_case_id env Scenario.w0) (snapshots Scenario.w0)
        (video_stages true 8) (snd run).
Proof.
  cbv zeta.
  apply (video_stages_shown
           (Scenario.env0 true (fun _ => false) (Returns (9 # 10))
                          ("Fake", 80%Q) (fun _ => true))
           (mkUpload "v.mp4" "0123456789") Scenario.w0 _
           (mkVideoResponse "case-00000000" "v.mp4" (2 # 5) 8 true 80
              "80% Likely Manipulated" (generate_explanation true 80 "video")
              (repeat ("Fake", 80%Q) 8))).
  - cbn. intros H. exact H.
  - vm_compute. reflexivity.
Defined.
